(** * Job-status pollers, renderers and column editor: a shallow embedding

    The browser code of the repository is modelled here function by
    function:
    - [StatusUpdater]    (the page-level poller with retry and backoff),
    - [JobProgress]      (core/static/js/job-progress.js),
    - [JobStatusBanner]  (the floating banner and tracked-jobs list),
    - [ColumnEditor]     (core/static/js/column-definition.js).

    JavaScript objects are finite maps from property names to values,
    promise callbacks are events delivered by the environment to a step
    function, and timers are entries of an explicit table. *)

From Stdlib Require Import ZArith Ascii String List Lia Bool.
From stdpp Require Import base option list gmap strings pretty.

Local Open Scope string_scope.
Local Open Scope Z_scope.

(** ** JavaScript values and strings *)

Module JS.

(** The values the modelled code handles.  Numbers are the integers a
    JavaScript number holds exactly (below 2^53 in absolute value);
    fractions and larger numbers are not among the values.  Payload
    objects are flat maps (see [obj]). *)
Inductive jsval : Type :=
  | JUndefined
  | JNull
  | JBool (b : bool)
  | JNum (z : Z)
  | JStr (s : string).

#[global] Instance jsval_eq_dec : EqDecision jsval.
Proof. solve_decision. Defined.

(** A JSON object: property name to value; an absent key reads as
    [undefined]. *)
Abbreviation obj := (gmap string jsval).

Definition get (o : obj) (k : string) : jsval :=
  match o !! k with
  | Some v => v
  | None => JUndefined
  end.

(** ToBoolean. *)
Definition truthy (v : jsval) : bool :=
  match v with
  | JUndefined | JNull => false
  | JBool b => b
  | JNum z => negb (z =? 0)
  | JStr s => negb (String.eqb s "")
  end.

(** [a || b]. *)
Definition or_else (a b : jsval) : jsval := if truthy a then a else b.

(** Strict equality [===] on the values above. *)
Definition strict_eq (a b : jsval) : bool := bool_decide (a = b).

(** Template-literal / string conversion of a value; a number is
    printed in decimal digits, as JavaScript prints an integer below
    10^21. *)
Definition to_string (v : jsval) : string :=
  match v with
  | JUndefined => "undefined"
  | JNull => "null"
  | JBool true => "true"
  | JBool false => "false"
  | JNum z => pretty z
  | JStr s => s
  end.

(** [s.startsWith(p)]. *)
Definition startsWith (s p : string) : bool := String.prefix p s.

(** [s.includes(needle)]. *)
Fixpoint includes (s needle : string) : bool :=
  String.prefix needle s ||
  match s with
  | EmptyString => false
  | String _ rest => includes rest needle
  end.

(** [s.split(sep)] for a non-empty separator: [cur] collects, in
    reverse, the characters of the piece being read. *)
Fixpoint split_go (fuel : nat) (sep s cur : string) : list string :=
  match fuel with
  | O => [String.rev cur]
  | S fuel' =>
      if String.prefix sep s
      then String.rev cur
           :: split_go fuel' sep
                (String.substring (String.length sep)
                   (String.length s - String.length sep) s) ""
      else match s with
           | EmptyString => [String.rev cur]
           | String c rest => split_go fuel' sep rest (String c cur)
           end
  end.

Definition split (s sep : string) : list string :=
  split_go (S (String.length s)) sep s "".

Definition is_upper (c : ascii) : bool :=
  let n := nat_of_ascii c in (Nat.leb 65 n && Nat.leb n 90)%nat.

Definition is_lower (c : ascii) : bool :=
  let n := nat_of_ascii c in (Nat.leb 97 n && Nat.leb n 122)%nat.

Definition lower_char (c : ascii) : ascii :=
  if is_upper c then ascii_of_nat (nat_of_ascii c + 32) else c.

Definition upper_char (c : ascii) : ascii :=
  if is_lower c then ascii_of_nat (nat_of_ascii c - 32) else c.

(** [s.toLowerCase()] on ASCII text. *)
Fixpoint toLowerCase (s : string) : string :=
  match s with
  | EmptyString => EmptyString
  | String c rest => String (lower_char c) (toLowerCase rest)
  end.

(** [s.charAt(0).toUpperCase() + s.slice(1)] on ASCII text. *)
Definition capitalize (s : string) : string :=
  match s with
  | EmptyString => EmptyString
  | String c rest => String (upper_char c) rest
  end.

(** The text [replace] puts in the place of a match of a string
    pattern: in the replacement [$$] stands for [$], [$&] for the
    matched text, [$`] for the text before the match and [$'] for the
    text after it; any other [$] stands for itself. *)
Fixpoint substitution (rep matched before after : string) : string :=
  match rep with
  | EmptyString => EmptyString
  | String c rest =>
      if Ascii.eqb c "$" then
        match rest with
        | String d rest' =>
            if Ascii.eqb d "$"
            then String "$" (substitution rest' matched before after)
            else if Ascii.eqb d "&"
            then matched +:+ substitution rest' matched before after
            else if Ascii.eqb d "`"
            then before +:+ substitution rest' matched before after
            else if Ascii.eqb d "'"
            then after +:+ substitution rest' matched before after
            else String c (substitution rest matched before after)
        | EmptyString => String c EmptyString
        end
      else String c (substitution rest matched before after)
  end.

(** [replace] from a position of the text on; [before] holds, in
    reverse, the characters already passed. *)
Fixpoint replace_from (before s pat rep : string) : string :=
  if String.prefix pat s
  then let after := String.substring (String.length pat)
                      (String.length s - String.length pat) s in
       substitution rep pat (String.rev before) after +:+ after
  else match s with
       | EmptyString => EmptyString
       | String c rest => String c (replace_from (String c before) rest pat rep)
       end.

(** [s.replace(pat, rep)] for a string pattern: the first occurrence. *)
Definition replace (s pat rep : string) : string := replace_from "" s pat rep.

(** [s.endsWith('/') ? s.slice(0, -1) : s]. *)
Fixpoint strip_trailing_slash (s : string) : string :=
  match s with
  | EmptyString => EmptyString
  | String c EmptyString => if Ascii.eqb c "/" then EmptyString else s
  | String c rest => String c (strip_trailing_slash rest)
  end.

Definition is_space (c : ascii) : bool :=
  let n := nat_of_ascii c in
  (Nat.eqb n 32 || (Nat.leb 9 n && Nat.leb n 13))%nat.

(** [!s.trim()] on ASCII text. *)
Fixpoint blank (s : string) : bool :=
  match s with
  | EmptyString => true
  | String c rest => is_space c && blank rest
  end.

(** The character [c] does not occur in [s]. *)
Fixpoint no_char (c : ascii) (s : string) : bool :=
  match s with
  | EmptyString => true
  | String a rest => negb (Ascii.eqb a c) && no_char c rest
  end.

Definition is_digit (c : ascii) : bool :=
  let n := nat_of_ascii c in (Nat.leb 48 n && Nat.leb n 57)%nat.

(** The text consists of decimal digits, at least one. *)
Fixpoint all_digits (s : string) : bool :=
  match s with
  | EmptyString => false
  | String c EmptyString => is_digit c
  | String c rest => is_digit c && all_digits rest
  end.

(** The text before the first full stop and the text after it, if
    there is one. *)
Fixpoint cut_at_stop (s : string) : string * option string :=
  match s with
  | EmptyString => (EmptyString, None)
  | String c rest =>
      if Ascii.eqb c "."
      then (EmptyString, Some rest)
      else (String c (fst (cut_at_stop rest)), snd (cut_at_stop rest))
  end.

(** The text spells a number that is not negative: decimal digits with
    an optional fraction. *)
Definition plain_number (s : string) : bool :=
  match cut_at_stop s with
  | (whole, None) => all_digits whole
  | (whole, Some fraction) =>
      (String.eqb whole "" || all_digits whole) && all_digits fraction
  end.

(** Whether the browser keeps the assignment
    [element.style.width = `${p}%`]: it does when the text is a valid
    width, a percentage that is not negative, and leaves the property as
    it was otherwise.  A number gives a valid text exactly when it is
    not negative, [undefined], [null] and booleans never do, and a
    string does when it is a plain number (the further spellings the
    CSS grammar allows, with sign, exponent, white space or function
    notation, are not recognised). *)
Definition width_accepted (p : jsval) : bool :=
  match p with
  | JNum z => 0 <=? z
  | JStr s => plain_number s
  | JUndefined | JNull | JBool _ => false
  end.

(** [style.width] after the assignment of [`${p}%`] to an element whose
    [style.width] was [old]. *)
Definition assign_width (p : jsval) (old : string) : string :=
  if width_accepted p then to_string p +:+ "%" else old.

(** [xs.findIndex(p)], [None] standing for [-1]. *)
Fixpoint findIndex {A : Type} (p : A -> bool) (xs : list A) : option nat :=
  match xs with
  | [] => None
  | x :: rest => if p x then Some O else option_map S (findIndex p rest)
  end.

(** What a [fetch] settles with: a rejected promise, or an HTTP response
    whose body either parses as JSON ([Some]) or does not ([None]). *)
Inductive Response (B : Type) : Type :=
  | NetworkError
  | Http (status : Z) (body : option B).
Arguments NetworkError {B}.
Arguments Http {B} status body.

(** [response.ok]. *)
Definition http_ok (status : Z) : bool := (200 <=? status) && (status <=? 299).

(** A fetch failure: network error or non-2xx response. *)
Definition is_failure {B : Type} (r : Response B) : bool :=
  match r with
  | NetworkError => true
  | Http status _ => negb (http_ok status)
  end.

End JS.
Import JS.


(** ** StatusUpdater: the poller with retry counter and backoff *)

Module StatusUpdater.

Record Options : Type := {
  pollInterval : Z;
  statusEndpoint : string;
  maxRetries : Z
}.

(** The constructor's defaults. *)
Definition defaults : Options :=
  {| pollInterval := 2000;
     statusEndpoint := "/check-job-status/";
     maxRetries := 5 |}.

(** A status response: the top-level object and, when the response
    nests the job under [job], that object. *)
Record Payload : Type := {
  top : obj;
  job : option obj
}.

(** [data.job || data]. *)
Definition statusData (d : Payload) : obj :=
  match job d with
  | Some j => j
  | None => top d
  end.

Inductive Effect : Type :=
  | Fetch (url : string)
  | SetTimeout (id : nat) (delay : Z)
  | ClearTimeout (id : nat)
  | Render (data : obj)
  | DisplayError (message : string)
  | ConsoleError (message : string).

(** The instance fields, followed by the part of the browser the
    instance acts on: armed one-shot timers, requests in flight, and the
    effects so far (newest first). *)
Record State : Type := {
  pollTimer : option nat;
  currentJobId : jsval;
  retryCount : Z;
  lastStatus : option Payload;
  timeouts : list (nat * Z);
  nextTimer : nat;
  inflight : nat;
  log : list Effect
}.

Definition init : State :=
  {| pollTimer := None; currentJobId := JNull; retryCount := 0;
     lastStatus := None; timeouts := []; nextTimer := 1%nat;
     inflight := 0%nat; log := [] |}.

Definition emit (e : Effect) (st : State) : State :=
  {| pollTimer := pollTimer st; currentJobId := currentJobId st;
     retryCount := retryCount st; lastStatus := lastStatus st;
     timeouts := timeouts st; nextTimer := nextTimer st;
     inflight := inflight st; log := e :: log st |}.

Definition set_retryCount (n : Z) (st : State) : State :=
  {| pollTimer := pollTimer st; currentJobId := currentJobId st;
     retryCount := n; lastStatus := lastStatus st;
     timeouts := timeouts st; nextTimer := nextTimer st;
     inflight := inflight st; log := log st |}.

Definition set_inflight (n : nat) (st : State) : State :=
  {| pollTimer := pollTimer st; currentJobId := currentJobId st;
     retryCount := retryCount st; lastStatus := lastStatus st;
     timeouts := timeouts st; nextTimer := nextTimer st;
     inflight := n; log := log st |}.

Definition disarm (id : nat) (ts : list (nat * Z)) : list (nat * Z) :=
  List.filter (fun t => negb (Nat.eqb (fst t) id)) ts.

Definition armed (id : nat) (ts : list (nat * Z)) : bool :=
  existsb (fun t => Nat.eqb (fst t) id) ts.

(** [this.pollTimer = setTimeout(() => this.pollStatus(), delay)]. *)
Definition setTimeout_poll (delay : Z) (st : State) : State :=
  {| pollTimer := Some (nextTimer st); currentJobId := currentJobId st;
     retryCount := retryCount st; lastStatus := lastStatus st;
     timeouts := (nextTimer st, delay) :: timeouts st;
     nextTimer := S (nextTimer st);
     inflight := inflight st;
     log := SetTimeout (nextTimer st) delay :: log st |}.

(** [stopPolling()]. *)
Definition stopPolling (st : State) : State :=
  match pollTimer st with
  | Some id =>
      {| pollTimer := None; currentJobId := currentJobId st;
         retryCount := retryCount st; lastStatus := lastStatus st;
         timeouts := disarm id (timeouts st); nextTimer := nextTimer st;
         inflight := inflight st; log := ClearTimeout id :: log st |}
  | None => st
  end.

(** [pollStatus()] up to the point where the request is sent. *)
Definition pollStatus (o : Options) (st : State) : State :=
  if truthy (currentJobId st)
  then emit (Fetch (statusEndpoint o +:+ "?job_id=" +:+ to_string (currentJobId st)))
         (set_inflight (S (inflight st)) st)
  else st.

(** [schedulePoll()]. *)
Definition schedulePoll (o : Options) (st : State) : State :=
  setTimeout_poll (pollInterval o) st.

(** [shouldContinuePolling(data)]; [None] when [toLowerCase] is called
    on a value that is not a string (a TypeError). *)
Definition not_finished (s : string) : bool :=
  let status := toLowerCase s in
  negb (String.eqb status "completed") && negb (String.eqb status "failed")
  && negb (String.eqb status "error").

Definition shouldContinuePolling (d : Payload) : option bool :=
  if truthy (get (top d) "status") then
    match get (top d) "status" with
    | JStr s => Some (not_finished s)
    | _ => None
    end
  else
    match job d with
    | Some j =>
        if truthy (get j "status") then
          match get j "status" with
          | JStr s => Some (not_finished s)
          | _ => None
          end
        else Some true
    | None => Some true
    end.

(** [Math.min(30000, pollInterval * Math.pow(2, retryCount))]. *)
Definition backoffTime (o : Options) (retryCount : Z) : Z :=
  Z.min 30000 (pollInterval o * 2 ^ retryCount).

Definition fatal_message : string :=
  "Failed to connect to server. Please refresh the page to try again.".

(** The [catch] handler of [pollStatus]. *)
Definition onFailure (o : Options) (st : State) : State :=
  let st1 := set_retryCount (retryCount st + 1)
               (emit (ConsoleError "Error fetching job status") st) in
  if maxRetries o <=? retryCount st1
  then emit (DisplayError fatal_message) st1
  else setTimeout_poll (backoffTime o (retryCount st1)) st1.

(** The phase order kept in [this.phases]; the step indicators are
    created in this order. *)
Definition phases : list string :=
  ["initializing"; "preparing"; "sending"; "extracting"; "processing";
   "completed"].

(** The phase [updateProcessingPhase] derives from the payload.  The
    keyword tests run only when the status is not [completed]; they call
    [processingDetails.includes], a TypeError ([None]) when
    [processing_details] is truthy and not a string. *)
Definition currentPhase (data : obj) : option string :=
  if strict_eq (get data "status") (JStr "completed") then Some "completed"
  else
    match or_else (get data "processing_details") (JStr "") with
    | JStr processingDetails =>
        Some (if includes processingDetails "extracting"
                 || includes processingDetails "extraction" then "extracting"
              else if includes processingDetails "processing" then "processing"
              else if includes processingDetails "sending" then "sending"
              else if includes processingDetails "preparing" then "preparing"
              else "initializing")
    | _ => None
    end.

(** The second loop of [updateProcessingPhase] over the step indicators
    (given by their [data-phase] attributes, in document order): whether
    each one carries the class [active] afterwards. *)
Fixpoint markIndicators (current : string) (activateRest : bool)
    (indicators : list string) : list bool :=
  match indicators with
  | [] => []
  | phase :: rest =>
      if String.eqb phase current then true :: markIndicators current true rest
      else if activateRest then false :: markIndicators current true rest
      else true :: markIndicators current false rest
  end.

Definition updateProcessingPhase (data : obj) (indicators : list string)
    : option (list bool) :=
  match currentPhase data with
  | Some current => Some (markIndicators current false indicators)
  | None => None
  end.

(** The keyword tests of [updateProcessingPhase] as a table, in the
    order the [else if] chain tries them. *)
Definition keyword_priority : list (string * string) :=
  [("extracting", "extracting"); ("extraction", "extracting");
   ("processing", "processing"); ("sending", "sending");
   ("preparing", "preparing")].

(** [updateProgressBar]: the value it shows, [data.progress_percent ||
    0], and the text it sets the attribute [aria-valuenow] to. *)
Definition progressPercent (data : obj) : jsval :=
  or_else (get data "progress_percent") (JNum 0).

Definition progressBar_aria (data : obj) : string :=
  to_string (progressPercent data).

(** The progress bar of the page: [style.width] and the attribute
    [aria-valuenow]. *)
Record Bar : Type := {
  width : string;
  valuenow : string
}.

(** The progress-bar step of [updateProgressBar]. *)
Definition paintBar (data : obj) (b : Bar) : Bar :=
  {| width := assign_width (progressPercent data) (width b);
     valuenow := progressBar_aria data |}.

(** [updateStatusBadge]: the badge text and its class name. *)
Definition updateStatusBadge (data : obj) : string * string :=
  let '(statusText, badgeClass) :=
    match get data "status" with
    | JStr s =>
        if String.eqb s "pending" then ("Pending", "bg-warning")
        else if String.eqb s "in_progress" || String.eqb s "processing"
        then ("Processing", "bg-primary")
        else if String.eqb s "waiting" then ("Waiting", "bg-info")
        else if String.eqb s "extracting" then ("Extracting", "bg-info")
        else if String.eqb s "completed" then ("Completed", "bg-success")
        else if String.eqb s "error" || String.eqb s "failed"
        then ("Error", "bg-danger")
        else ("Unknown", "bg-secondary")
    | _ => ("Unknown", "bg-secondary")
    end in
  (statusText, badgeClass +:+ " badge").

(** [updateStatus] raises exactly when the phase cannot be derived. *)
Definition updateStatus_throws (sd : obj) : bool :=
  match currentPhase sd with
  | Some _ => false
  | None => true
  end.

(** [updateStatus(data)]: stores the payload and renders it. *)
Definition updateStatus (d : Payload) (st : State) : State :=
  emit (Render (statusData d))
    {| pollTimer := pollTimer st; currentJobId := currentJobId st;
       retryCount := retryCount st; lastStatus := Some d;
       timeouts := timeouts st; nextTimer := nextTimer st;
       inflight := inflight st; log := log st |}.

(** The second [then] handler of [pollStatus]; an exception raised in it
    is handled by the [catch] handler. *)
Definition onSuccess (o : Options) (d : Payload) (st : State) : State :=
  let st1 := updateStatus d (set_retryCount 0 st) in
  if updateStatus_throws (statusData d) then onFailure o st1
  else match shouldContinuePolling d with
       | None => onFailure o st1
       | Some true => schedulePoll o st1
       | Some false => st1
       end.

(** One request settles. *)
Definition settle (o : Options) (r : Response Payload) (st : State) : State :=
  match inflight st with
  | O => st
  | S n =>
      let st1 := set_inflight n st in
      match r with
      | NetworkError => onFailure o st1
      | Http status body =>
          if http_ok status then
            match body with
            | Some d => onSuccess o d st1
            | None => onFailure o st1
            end
          else onFailure o st1
      end
  end.

(** An armed timer goes off: it is spent, and its callback polls. *)
Definition fire (o : Options) (id : nat) (st : State) : State :=
  if armed id (timeouts st)
  then pollStatus o
         {| pollTimer := pollTimer st; currentJobId := currentJobId st;
            retryCount := retryCount st; lastStatus := lastStatus st;
            timeouts := disarm id (timeouts st); nextTimer := nextTimer st;
            inflight := inflight st; log := log st |}
  else st.

Definition initialStatus : Payload :=
  {| top := {[ "status" := JStr "initializing";
               "progress_percent" := JNum 0;
               "processed_count" := JNum 0;
               "total_count" := JNum 0;
               "processing_details" := JStr "Initializing job..." ]};
     job := None |}.

(** [startPolling(jobId)]. *)
Definition startPolling (o : Options) (jobId : jsval) (st : State) : State :=
  if truthy jobId then
    let st1 := stopPolling st in
    let st2 :=
      {| pollTimer := pollTimer st1; currentJobId := jobId;
         retryCount := 0; lastStatus := lastStatus st1;
         timeouts := timeouts st1; nextTimer := nextTimer st1;
         inflight := inflight st1; log := log st1 |} in
    pollStatus o (updateStatus initialStatus st2)
  else emit (ConsoleError "Cannot start polling without a job ID") st.

(** What can happen to an instance. *)
Inductive Event : Type :=
  | CallStart (jobId : jsval)
  | CallStop
  | TimerFires (id : nat)
  | Settles (r : Response Payload).

Definition step (o : Options) (st : State) (e : Event) : State :=
  match e with
  | CallStart jobId => startPolling o jobId st
  | CallStop => stopPolling st
  | TimerFires id => fire o id st
  | Settles r => settle o r st
  end.

Definition run (o : Options) (st : State) (es : list Event) : State :=
  fold_left (step o) es st.

(** Events that come from the browser rather than from a caller. *)
Definition env_event (e : Event) : bool :=
  match e with
  | TimerFires _ | Settles _ => true
  | CallStart _ | CallStop => false
  end.

Definition not_start (e : Event) : bool :=
  match e with
  | CallStart _ => false
  | _ => true
  end.

(** A request in flight excludes an armed timer, and there is at most
    one of either. *)
Definition chain_inv (st : State) : Prop :=
  (inflight st + length (timeouts st) <= 1)%nat.


(** The requests sent so far, oldest first. *)
Definition fetched (st : State) : list string :=
  rev (omap (fun e => match e with Fetch u => Some u | _ => None end)
         (log st)).


(** *** Further notions used to state properties of the poller *)


(** The statuses [shouldContinuePolling] stops on. *)
Definition finished (s : string) : bool := negb (not_finished s).

(** In a single polling chain an armed timer is the one recorded in
    [pollTimer], nothing is in flight beside it, and polling goes on only
    for a truthy job id. *)
Definition armed_inv (st : State) : Prop :=
  match timeouts st with
  | [] => (inflight st <= 1)%nat
  | [(id, _)] => pollTimer st = Some id /\ inflight st = 0%nat
  | _ => False
  end.


(** *** The elements [updateStatus] shows and hides *)

(** An element with text: its [textContent] and its [style.display]. *)
Record Box : Type := {
  textContent : string;
  display : string
}.

(** The elements whose visibility [updateStatus] changes, [None] for one
    that is not in the page: the text of [case-count], and
    [style.display] of [case-counter], [truncation-alert] and
    [download-buttons]. *)
Record Page : Type := {
  caseCount : option string;
  caseCounter : option string;
  processingError : option Box;
  truncationAlert : option string;
  downloadButtons : option string
}.

(** [updateCaseCount(data)]. *)
Definition updateCaseCount (data : obj) (p : Page) : Page :=
  match caseCount p, caseCounter p with
  | Some _, Some _ =>
      if truthy (get data "total_case_count")
      then {| caseCount := Some (to_string (get data "total_case_count"));
              caseCounter := Some "block";
              processingError := processingError p;
              truncationAlert := truncationAlert p;
              downloadButtons := downloadButtons p |}
      else p
  | _, _ => p
  end.

(** [checkForErrors(data)]. *)
Definition checkForErrors (data : obj) (p : Page) : Page :=
  match processingError p with
  | Some box =>
      {| caseCount := caseCount p; caseCounter := caseCounter p;
         processingError :=
           Some (if truthy (get data "error")
                    || strict_eq (get data "status") (JStr "error")
                    || strict_eq (get data "status") (JStr "failed")
                 then {| textContent :=
                           to_string
                             (or_else (get data "error")
                                (JStr "An error occurred during processing"));
                         display := "block" |}
                 else {| textContent := textContent box; display := "none" |});
         truncationAlert := truncationAlert p;
         downloadButtons := downloadButtons p |}
  | None => p
  end.

(** [checkForTruncation(data)]. *)
Definition checkForTruncation (data : obj) (p : Page) : Page :=
  match truncationAlert p with
  | Some _ =>
      if truthy (get data "is_truncated")
      then {| caseCount := caseCount p; caseCounter := caseCounter p;
              processingError := processingError p;
              truncationAlert := Some "block";
              downloadButtons := downloadButtons p |}
      else p
  | None => p
  end.

(** [showDownloadButtons()]. *)
Definition showDownloadButtons (p : Page) : Page :=
  match downloadButtons p with
  | Some _ =>
      {| caseCount := caseCount p; caseCounter := caseCounter p;
         processingError := processingError p;
         truncationAlert := truncationAlert p;
         downloadButtons := Some "block" |}
  | None => p
  end.

(** What [updateStatus(data)] does to these elements, in the order of
    its calls: [updateCaseCount], then [updateProcessingPhase], whose
    exception ends the update, then [checkForErrors],
    [checkForTruncation] and the download buttons. *)
Definition updateStatus_page (d : Payload) (p : Page) : Page :=
  let p1 := updateCaseCount (statusData d) p in
  if updateStatus_throws (statusData d) then p1
  else
    let p2 := checkForTruncation (statusData d) (checkForErrors (statusData d) p1) in
    if strict_eq (get (statusData d) "status") (JStr "completed")
    then showDownloadButtons p2
    else p2.

(** The page after a series of status updates. *)
Definition updates_page (ds : list Payload) (p : Page) : Page :=
  fold_left (fun acc d => updateStatus_page d acc) ds p.


End StatusUpdater.

(** ** JobProgress: the fixed-interval poller of job-progress.js *)

Module JobProgress.

(** The options the polling code reads.  The three callbacks are opaque
    user functions: only whether each is defined matters here, and a call
    is recorded in the log (they are assumed not to call back into the
    instance). *)
Record Options : Type := {
  jobId : string;
  jobStatusUrl : string;
  pollInterval : Z;
  hasOnUpdate : bool;
  hasOnComplete : bool;
  hasOnError : bool
}.

Inductive Effect : Type :=
  | Fetch (url : string)
  | SetInterval (id : nat) (period : Z)
  | ClearInterval (id : nat)
  | Display (data : obj)
  | StatusText (text : string)
  | OnUpdate (data : obj)
  | OnComplete (data : obj)
  | OnError (message : string).

(** Instance fields, then the repeating timers that are running, the
    requests in flight and the effects so far (newest first). *)
Record State : Type := {
  isActive : bool;
  timer : option nat;
  pollCount : nat;
  lastStatus : jsval;
  lastUpdated : jsval;
  intervals : list (nat * Z);
  nextTimer : nat;
  inflight : nat;
  log : list Effect
}.

(** The state the constructor leaves. *)
Definition init : State :=
  {| isActive := false; timer := None; pollCount := 0%nat;
     lastStatus := JNull; lastUpdated := JNull; intervals := [];
     nextTimer := 1%nat; inflight := 0%nat; log := [] |}.

Definition emit (e : Effect) (st : State) : State :=
  {| isActive := isActive st; timer := timer st; pollCount := pollCount st;
     lastStatus := lastStatus st; lastUpdated := lastUpdated st;
     intervals := intervals st; nextTimer := nextTimer st;
     inflight := inflight st; log := e :: log st |}.

Definition emit_if (b : bool) (e : Effect) (st : State) : State :=
  if b then emit e st else st.

Definition running (id : nat) (ts : list (nat * Z)) : bool :=
  existsb (fun t => Nat.eqb (fst t) id) ts.

(** [stopTracking()]. *)
Definition stopTracking (st : State) : State :=
  if isActive st then
    match timer st with
    | Some id =>
        {| isActive := false; timer := None; pollCount := pollCount st;
           lastStatus := lastStatus st; lastUpdated := lastUpdated st;
           intervals := List.filter (fun t => negb (Nat.eqb (fst t) id)) (intervals st);
           nextTimer := nextTimer st; inflight := inflight st;
           log := ClearInterval id :: log st |}
    | None =>
        {| isActive := false; timer := None; pollCount := pollCount st;
           lastStatus := lastStatus st; lastUpdated := lastUpdated st;
           intervals := intervals st; nextTimer := nextTimer st;
           inflight := inflight st; log := log st |}
    end
  else st.

(** The request URL; the cache-busting suffix [&_=<Date.now()>] is left
    out of the recorded URL. *)
Definition pollUrl (o : Options) : string :=
  jobStatusUrl o +:+ (if includes (jobStatusUrl o) "?" then "&" else "?")
  +:+ "job_id=" +:+ jobId o.

(** [pollStatus()] up to the point where the request is sent. *)
Definition pollStatus (o : Options) (st : State) : State :=
  {| isActive := isActive st; timer := timer st;
     pollCount := S (pollCount st);
     lastStatus := lastStatus st; lastUpdated := lastUpdated st;
     intervals := intervals st; nextTimer := nextTimer st;
     inflight := S (inflight st); log := Fetch (pollUrl o) :: log st |}.

(** [startTracking()]. *)
Definition startTracking (o : Options) (st : State) : State :=
  if isActive st then st
  else
    let st1 :=
      pollStatus o
        {| isActive := true; timer := timer st; pollCount := pollCount st;
           lastStatus := lastStatus st; lastUpdated := lastUpdated st;
           intervals := intervals st; nextTimer := nextTimer st;
           inflight := inflight st; log := log st |} in
    {| isActive := isActive st1; timer := Some (nextTimer st1);
       pollCount := pollCount st1;
       lastStatus := lastStatus st1; lastUpdated := lastUpdated st1;
       intervals := (nextTimer st1, pollInterval o) :: intervals st1;
       nextTimer := S (nextTimer st1); inflight := inflight st1;
       log := SetInterval (nextTimer st1) (pollInterval o) :: log st1 |}.

(** [['completed', 'error', 'failed', 'cancelled'].includes(status)]. *)
Definition terminal (status : jsval) : bool :=
  bool_decide (status ∈ [JStr "completed"; JStr "error"; JStr "failed";
                         JStr "cancelled"]).

(** The [catch] handler of [pollStatus]. *)
Definition onFailure (o : Options) (message : string) (st : State) : State :=
  let st1 := emit (StatusText ("Error checking status: " +:+ message)) st in
  let st2 := if Nat.ltb 10 (pollCount st1) then stopTracking st1 else st1 in
  emit_if (hasOnError o) (OnError message) st2.

(** The second [then] handler of [pollStatus]. *)
Definition onSuccess (o : Options) (data : obj) (st : State) : State :=
  if truthy (get data "error") then onFailure o (to_string (get data "error")) st
  else
    let st1 := emit (Display data) st in
    let st2 :=
      {| isActive := isActive st1; timer := timer st1;
         pollCount := pollCount st1;
         lastStatus := if strict_eq (lastStatus st1) (get data "status")
                       then lastStatus st1 else get data "status";
         lastUpdated := get data "last_updated";
         intervals := intervals st1; nextTimer := nextTimer st1;
         inflight := inflight st1; log := log st1 |} in
    let st3 := emit_if (hasOnUpdate o) (OnUpdate data) st2 in
    if terminal (get data "status")
    then emit_if (hasOnComplete o) (OnComplete data) (stopTracking st3)
    else st3.

(** One request settles.  The messages of a rejected [fetch] and of a
    JSON syntax error are the browser's; fixed texts stand for them. *)
Definition settle (o : Options) (r : Response obj) (st : State) : State :=
  match inflight st with
  | O => st
  | S n =>
      let st1 :=
        {| isActive := isActive st; timer := timer st;
           pollCount := pollCount st;
           lastStatus := lastStatus st; lastUpdated := lastUpdated st;
           intervals := intervals st; nextTimer := nextTimer st;
           inflight := n; log := log st |} in
      match r with
      | NetworkError => onFailure o "Failed to fetch" st1
      | Http status body =>
          if http_ok status then
            match body with
            | Some data => onSuccess o data st1
            | None => onFailure o "Unexpected token in JSON" st1
            end
          else onFailure o ("Server responded with status " +:+ pretty status) st1
      end
  end.

(** A running repeating timer goes off; it keeps running. *)
Definition tick (o : Options) (id : nat) (st : State) : State :=
  if running id (intervals st) then pollStatus o st else st.

Inductive Event : Type :=
  | CallStart
  | CallStop
  | TimerFires (id : nat)
  | Settles (r : Response obj).

Definition step (o : Options) (st : State) (e : Event) : State :=
  match e with
  | CallStart => startTracking o st
  | CallStop => stopTracking st
  | TimerFires id => tick o id st
  | Settles r => settle o r st
  end.

Definition run (o : Options) (st : State) (es : list Event) : State :=
  fold_left (step o) es st.

Definition fetched (st : State) : list string :=
  rev (omap (fun e => match e with Fetch u => Some u | _ => None end)
         (log st)).

Definition completions (st : State) : list obj :=
  rev (omap (fun e => match e with OnComplete d => Some d | _ => None end)
         (log st)).

(** Inactive instances hold no timer; active ones hold exactly the
    repeating timer recorded in [timer]. *)
Definition timer_inv (st : State) : Prop :=
  if isActive st
  then exists id period, timer st = Some id /\ intervals st = [(id, period)]
  else timer st = None /\ intervals st = [].

(** *** Rendering ([updateDisplay], [updatePhaseDisplay]) *)

(** The value the progress bar shows, [data.progress_percent || 0], and
    the text the attribute [aria-valuenow] is set to. *)
Definition progressPercent (data : obj) : jsval :=
  or_else (get data "progress_percent") (JNum 0).

Definition progressBar_aria (data : obj) : string :=
  to_string (progressPercent data).

(** The text written to the status element; [None] when the last branch
    calls [charAt] on a status that is not a string (the TypeError is
    caught by [updateDisplay], which then stops rendering). *)
Definition statusText (data : obj) : option string :=
  let status := get data "status" in
  if strict_eq status (JStr "in_progress") || strict_eq status (JStr "processing")
  then Some ("Processing (" +:+ to_string (get data "processed_count")
             +:+ " of " +:+ to_string (get data "total_count")
             +:+ " documents)")
  else if strict_eq status (JStr "completed")
  then Some ("Completed (" +:+ to_string (get data "total_count")
             +:+ " documents, " +:+ to_string (get data "total_case_count")
             +:+ " cases)")
  else if strict_eq status (JStr "error") || strict_eq status (JStr "failed")
  then Some ("Failed: "
             +:+ to_string (or_else (get data "error") (JStr "Unknown error")))
  else if strict_eq status (JStr "cancelled") then Some "Cancelled"
  else match status with
       | JStr s => Some (capitalize s)
       | _ => None
       end.

(** The [phaseOrder] table of [updatePhaseDisplay]. *)
Definition phaseOrder : list (string * Z) :=
  [("initializing", 0); ("preparing", 1); ("extracting", 2);
   ("processing", 3); ("sending", 4); ("completed", 5)].

Fixpoint lookup_order (table : list (string * Z)) (k : string) : option Z :=
  match table with
  | [] => None
  | (k', v) :: rest => if String.eqb k' k then Some v else lookup_order rest k
  end.

(** [phaseOrder[name] || 0] (names inherited from [Object.prototype]
    are not modelled). *)
Definition order_of (name : jsval) : Z :=
  match name with
  | JStr s => match lookup_order phaseOrder s with
              | Some v => v
              | None => 0
              end
  | _ => 0
  end.

Inductive PhaseClass : Type := PhaseActive | PhaseComplete | PhasePending.

(** The class one phase element receives. *)
Definition phaseClass (phase : jsval) (phaseName : string) : PhaseClass :=
  if strict_eq (JStr phaseName) phase then PhaseActive
  else if order_of (JStr phaseName) <? order_of phase then PhaseComplete
  else PhasePending.

(** The keys of [this.elements.phases] after [container], in the order
    [Object.entries] visits them. *)
Definition phaseElements : list string :=
  ["initializing"; "preparing"; "extracting"; "processing"; "sending";
   "completed"].

(** [updatePhaseDisplay(phase)]: the class given to every phase element
    found in the page ([present]). *)
Definition updatePhaseDisplay (present : string -> bool) (phase : jsval)
    : list (string * PhaseClass) :=
  omap (fun phaseName =>
          if present phaseName then Some (phaseName, phaseClass phase phaseName)
          else None)
       phaseElements.

(** The phase step of [updateDisplay]: runs only when the phases
    container exists and [data.current_phase] is truthy. *)
Definition displayPhases (container : bool) (present : string -> bool)
    (data : obj) : option (list (string * PhaseClass)) :=
  if container && truthy (get data "current_phase")
  then Some (updatePhaseDisplay present (get data "current_phase"))
  else None.

(** *** Further notions used to state properties of the poller *)

Definition not_start (e : Event) : bool :=
  match e with
  | CallStart => false
  | _ => true
  end.

(** [pollCount] counts the requests sent, and a request in flight has
    been sent. *)
Definition count_inv (st : State) : Prop :=
  pollCount st = length (fetched st) /\ (inflight st <= pollCount st)%nat.

(** The class a phase element carries in a rendered phase list. *)
Definition active_count (marks : list (string * PhaseClass)) : nat :=
  length (List.filter (fun m => match snd m with
                                | PhaseActive => true
                                | _ => false
                                end) marks).

(** *** The page [updateDisplay] writes to *)

(** [classList.remove(...names)] and [classList.add(name)] on the class
    list of an element. *)
Definition classList_remove (names cl : list string) : list string :=
  List.filter (fun c => negb (existsb (String.eqb c) names)) cl.

Definition classList_add (name : string) (cl : list string) : list string :=
  if existsb (String.eqb name) cl then cl else (cl ++ [name])%list.

(** The progress bar: [style.width], the attribute [aria-valuenow] and
    the class list. *)
Record Bar : Type := {
  width : string;
  valuenow : string;
  barClasses : list string
}.

(** [this.elements] once [findElements] has run to its end, [None] for
    an element it did not find: the progress bar, the text of the status
    and of the details element, whether the phases container exists, and
    the class lists of the phase elements that exist, by phase name. *)
Record Page : Type := {
  progressBar : option Bar;
  statusElement : option string;
  detailsElement : option string;
  phasesContainer : bool;
  phaseNodes : list (string * list string)
}.

Definition barColours : list string := ["bg-success"; "bg-danger"; "bg-warning"].

(** The colour class [updateDisplay] adds to the progress bar. *)
Definition barColour (status : jsval) : option string :=
  if strict_eq status (JStr "completed") then Some "bg-success"
  else if strict_eq status (JStr "error") || strict_eq status (JStr "failed")
  then Some "bg-danger"
  else if strict_eq status (JStr "cancelled") then Some "bg-warning"
  else None.

(** The progress-bar step of [updateDisplay]. *)
Definition paintBar (data : obj) (b : Bar) : Bar :=
  let cl := classList_remove barColours (barClasses b) in
  {| width := assign_width (progressPercent data) (width b);
     valuenow := progressBar_aria data;
     barClasses := match barColour (get data "status") with
                   | Some c => classList_add c cl
                   | None => cl
                   end |}.

(** The text written to the details element; [toLocaleString] stands
    for [new Date(v).toLocaleString()]. *)
Definition detailsText (toLocaleString : jsval -> string) (data : obj)
    : string :=
  if truthy (get data "processing_details")
  then to_string (get data "processing_details")
  else if strict_eq (get data "status") (JStr "completed")
  then "Processed " +:+ to_string (get data "total_count")
       +:+ " documents, found " +:+ to_string (get data "total_case_count")
       +:+ " cases."
       +:+ (if truthy (get data "completed_at")
            then " Completed at " +:+ toLocaleString (get data "completed_at")
                 +:+ "."
            else "")
  else if strict_eq (get data "status") (JStr "pending")
  then "Job is queued and waiting to start."
  else "".

Definition phaseClassName (c : PhaseClass) : string :=
  match c with
  | PhaseActive => "phase-active"
  | PhaseComplete => "phase-complete"
  | PhasePending => "phase-pending"
  end.

Definition phaseClassNames : list string :=
  ["phase-active"; "phase-complete"; "phase-pending"].

(** [updatePhaseDisplay(phase)] on the class lists of the phase
    elements. *)
Definition markPhaseNodes (phase : jsval) (nodes : list (string * list string))
    : list (string * list string) :=
  map (fun node =>
         (fst node,
          classList_add (phaseClassName (phaseClass phase (fst node)))
            (classList_remove phaseClassNames (snd node))))
      nodes.

(** [updateDisplay(data)]; the flag is [false] when an exception was
    caught, which ends the update at the status step. *)
Definition updateDisplay (toLocaleString : jsval -> string) (data : obj)
    (p : Page) : Page * bool :=
  let p1 :=
    {| progressBar := option_map (paintBar data) (progressBar p);
       statusElement := statusElement p;
       detailsElement := detailsElement p;
       phasesContainer := phasesContainer p;
       phaseNodes := phaseNodes p |} in
  let written :=
    match statusElement p1 with
    | Some _ =>
        match statusText data with
        | Some text => Some (Some text)
        | None => None
        end
    | None => Some None
    end in
  match written with
  | Some status' =>
      ({| progressBar := progressBar p1;
          statusElement := status';
          detailsElement :=
            match detailsElement p1 with
            | Some _ => Some (detailsText toLocaleString data)
            | None => None
            end;
          phasesContainer := phasesContainer p1;
          phaseNodes :=
            if phasesContainer p1 && truthy (get data "current_phase")
            then markPhaseNodes (get data "current_phase") (phaseNodes p1)
            else phaseNodes p1 |}, true)
  | None => (p1, false)
  end.


End JobProgress.

(** ** The page: anti-forgery token sources and outgoing requests *)

Module Dom.

(** The parts of the document the token code reads: [document.cookie],
    the [content] attribute of [<meta name="csrf-token">] when the tag
    exists, and the value of the first element named
    [csrfmiddlewaretoken] when there is one. *)
Record Document : Type := {
  cookie : string;
  csrf_meta : option (option string);
  csrfmiddlewaretoken : option string
}.

(** A request handed to [fetch]: URL, method and headers (the body is
    not recorded). *)
Record Request : Type := {
  url : string;
  method : string;
  headers : list (string * jsval)
}.

Fixpoint header (name : string) (hs : list (string * jsval)) : option jsval :=
  match hs with
  | [] => None
  | (k, v) :: rest => if String.eqb k name then Some v else header name rest
  end.

(** [xs[i]]. *)
Definition index (xs : list string) (i : nat) : jsval :=
  match xs !! i with
  | Some x => JStr x
  | None => JUndefined
  end.

(** [getCsrfToken()], the same text in JobStatusBanner and
    StatusUpdater. *)
Definition getCsrfToken (doc : Document) : jsval :=
  let cookieValue :=
    match List.find (fun row => startsWith row "csrftoken=")
            (split (cookie doc) "; ") with
    | Some row => index (split row "=") 1
    | None => JUndefined
    end in
  if truthy cookieValue then cookieValue
  else match csrf_meta doc with
       | Some (Some content) => JStr content
       | Some None => JNull
       | None => JStr ""
       end.

End Dom.

(** ** JobStatusBanner: the floating banner and the tracked-jobs list *)

Module JobStatusBanner.
Import Dom.

Record Options : Type := {
  pollInterval : Z;
  checkEndpoint : string;
  showCompletedDuration : Z;
  persistInStorage : bool;
  maxTrackedJobs : nat
}.

Definition defaults : Options :=
  {| pollInterval := 5000;
     checkEndpoint := "/check-job-status/";
     showCompletedDuration := 10000;
     persistInStorage := true;
     maxTrackedJobs := 5 |}.

(** [this.activeBanner]. *)
Record Banner : Type := {
  jobId : jsval;
  status : jsval;
  progress : jsval;
  completedTime : option Z
}.

(** The [localStorage] entry [jobStatusBanner]: missing, not parsable as
    the expected JSON object, or an object whose [trackedJobs] is an
    array ([Some]) or something else ([None]). *)
Inductive Stored : Type :=
  | NoItem
  | Unparsable
  | Item (trackedJobs : option (list obj)).

(** What [updateBanner] writes into the banner element. *)
Record Painted : Type := {
  badgeText : string;
  badgeClass : string;
  barWidth : string;
  progressText : string
}.

Inductive Effect : Type :=
  | Fetch (url : string)
  | SetInterval (id : nat) (period : Z)
  | ClearInterval (id : nat)
  | SetTimeout (id : nat) (delay : Z)
  | ConsoleError (message : string).

Record State : Type := {
  trackedJobs : list obj;
  activeBanner : option Banner;
  shown : bool;
  painted : option Painted;
  pollTimer : option nat;
  initialized : bool;
  intervals : list (nat * Z);
  hideTimers : list (nat * jsval);
  nextTimer : nat;
  storage : Stored;
  inflightActive : nat;
  inflightStatus : nat;
  log : list Effect
}.

(** A new instance before [loadFromStorage] and [init]: nothing
    tracked, banner element without the class [active]. *)
Definition fresh (stored : Stored) : State :=
  {| trackedJobs := []; activeBanner := None; shown := false;
     painted := None; pollTimer := None; initialized := false;
     intervals := []; hideTimers := []; nextTimer := 1%nat;
     storage := stored; inflightActive := 0%nat; inflightStatus := 0%nat;
     log := [] |}.

Definition set_tracked (l : list obj) (st : State) : State :=
  {| trackedJobs := l; activeBanner := activeBanner st; shown := shown st;
     painted := painted st; pollTimer := pollTimer st;
     initialized := initialized st; intervals := intervals st;
     hideTimers := hideTimers st; nextTimer := nextTimer st;
     storage := storage st; inflightActive := inflightActive st;
     inflightStatus := inflightStatus st; log := log st |}.

Definition set_storage (x : Stored) (st : State) : State :=
  {| trackedJobs := trackedJobs st; activeBanner := activeBanner st;
     shown := shown st; painted := painted st; pollTimer := pollTimer st;
     initialized := initialized st; intervals := intervals st;
     hideTimers := hideTimers st; nextTimer := nextTimer st;
     storage := x; inflightActive := inflightActive st;
     inflightStatus := inflightStatus st; log := log st |}.

Definition set_banner (b : option Banner) (vis : bool) (st : State) : State :=
  {| trackedJobs := trackedJobs st; activeBanner := b; shown := vis;
     painted := painted st; pollTimer := pollTimer st;
     initialized := initialized st; intervals := intervals st;
     hideTimers := hideTimers st; nextTimer := nextTimer st;
     storage := storage st; inflightActive := inflightActive st;
     inflightStatus := inflightStatus st; log := log st |}.

Definition set_painted (x : Painted) (st : State) : State :=
  {| trackedJobs := trackedJobs st; activeBanner := activeBanner st;
     shown := shown st; painted := Some x; pollTimer := pollTimer st;
     initialized := initialized st; intervals := intervals st;
     hideTimers := hideTimers st; nextTimer := nextTimer st;
     storage := storage st; inflightActive := inflightActive st;
     inflightStatus := inflightStatus st; log := log st |}.

Definition set_inflight (a s : nat) (st : State) : State :=
  {| trackedJobs := trackedJobs st; activeBanner := activeBanner st;
     shown := shown st; painted := painted st; pollTimer := pollTimer st;
     initialized := initialized st; intervals := intervals st;
     hideTimers := hideTimers st; nextTimer := nextTimer st;
     storage := storage st; inflightActive := a;
     inflightStatus := s; log := log st |}.

Definition emit (e : Effect) (st : State) : State :=
  {| trackedJobs := trackedJobs st; activeBanner := activeBanner st;
     shown := shown st; painted := painted st; pollTimer := pollTimer st;
     initialized := initialized st; intervals := intervals st;
     hideTimers := hideTimers st; nextTimer := nextTimer st;
     storage := storage st; inflightActive := inflightActive st;
     inflightStatus := inflightStatus st; log := e :: log st |}.

(** [saveToStorage()] (the [lastUpdated] stamp is not recorded). *)
Definition saveToStorage (st : State) : State :=
  set_storage (Item (Some (trackedJobs st))) st.

(** The list update of [trackJob] for a job whose [id] is truthy. *)
Definition track (max : nat) (jobData : obj) (tracked : list obj) : list obj :=
  match findIndex (fun job => strict_eq (get job "id") (get jobData "id"))
          tracked with
  | Some existingIndex =>
      match tracked !! existingIndex with
      | Some old => <[existingIndex := jobData ∪ old]> tracked
      | None => tracked
      end
  | None =>
      let l := jobData :: tracked in
      if Nat.ltb max (length l) then take max l else l
  end.

(** [trackJob(jobData)]. *)
Definition trackJob (o : Options) (jobData : obj) (st : State) : State :=
  if truthy (get jobData "id") then
    let st1 := set_tracked (track (maxTrackedJobs o) jobData (trackedJobs st)) st in
    if persistInStorage o then saveToStorage st1 else st1
  else st.

(** The filter of [loadFromStorage]: [parseDate] stands for
    [new Date(v)] as milliseconds, [None] for an invalid date. *)
Definition keep_stored (now : Z) (parseDate : jsval -> option Z) (job : obj)
    : bool :=
  if negb (strict_eq (get job "status") (JStr "completed")) then true
  else if negb (truthy (get job "completed_at")) then true
  else match parseDate (get job "completed_at") with
       | Some completedAt => now - 60 * 60 * 1000 <? completedAt
       | None => false
       end.

(** [loadFromStorage()]. *)
Definition loadFromStorage (now : Z) (parseDate : jsval -> option Z)
    (st : State) : State :=
  match storage st with
  | NoItem => st
  | Unparsable =>
      set_tracked [] (emit (ConsoleError "Error loading from localStorage") st)
  | Item None => st
  | Item (Some jobs) =>
      set_tracked (List.filter (keep_stored now parseDate) jobs) st
  end.

(** [formatStatus(status)]; [None] when [toLowerCase] is called on a
    truthy value that is not a string. *)
Definition formatStatus (status : jsval) : option string :=
  if negb (truthy status) then Some "Unknown"
  else match status with
       | JStr s =>
           let l := toLowerCase s in
           Some (if String.eqb l "running" then "Running"
                 else if String.eqb l "waiting" then "Waiting"
                 else if String.eqb l "processing" then "Processing"
                 else if String.eqb l "completed" then "Completed"
                 else if String.eqb l "error" || String.eqb l "failed"
                 then "Error"
                 else if String.eqb l "cancelled" then "Cancelled"
                 else capitalize s)
       | _ => None
       end.

(** [getStatusClass(status)]. *)
Definition getStatusClass (status : jsval) : option string :=
  if negb (truthy status) then Some "bg-secondary"
  else match status with
       | JStr s =>
           let l := toLowerCase s in
           Some (if String.eqb l "running" || String.eqb l "processing"
                 then "bg-primary"
                 else if String.eqb l "waiting" then "bg-info"
                 else if String.eqb l "completed" then "bg-success"
                 else if String.eqb l "error" || String.eqb l "failed"
                 then "bg-danger"
                 else if String.eqb l "cancelled" then "bg-secondary"
                 else if String.eqb l "warning" then "bg-warning"
                 else "bg-secondary")
       | _ => None
       end.

(** [hideBanner()]. *)
Definition hideBanner (st : State) : State := set_banner None false st.

(** [style.width] of the progress bar in the banner element: what was
    painted last, and the width of the element [createBannerElement]
    builds when nothing has been painted yet. *)
Definition currentWidth (painted : option Painted) : string :=
  match painted with
  | Some p => barWidth p
  | None => "0%"
  end.

(** The DOM writes of [updateBanner] for a status and a progress value
    on a progress bar whose width is [old]; [None] when [formatStatus]
    raises. *)
Definition paint (old : string) (status progress : jsval) : option Painted :=
  match formatStatus status, getStatusClass status with
  | Some text, Some cls =>
      Some {| badgeText := text;
              badgeClass := "status-badge " +:+ cls;
              barWidth := assign_width progress old;
              progressText := to_string progress +:+ "%" |}
  | _, _ => None
  end.

(** [updateBanner(jobData)] at time [now]; the flag tells whether it
    returned normally ([true]) or raised ([false]). *)
Definition updateBanner (o : Options) (now : Z) (jobData : obj) (st : State)
    : State * bool :=
  if negb (truthy (get jobData "id")) then (st, true)
  else
    let st1 := trackJob o jobData st in
    let status := or_else (get jobData "status") (JStr "unknown") in
    let progress := or_else (get jobData "progress_percent") (JNum 0) in
    let banner :=
      match activeBanner st1 with
      | Some b =>
          if strict_eq (jobId b) (get jobData "id")
          then {| jobId := jobId b; status := status; progress := progress;
                  completedTime := completedTime b |}
          else {| jobId := get jobData "id"; status := status;
                  progress := progress; completedTime := None |}
      | None => {| jobId := get jobData "id"; status := status;
                   progress := progress; completedTime := None |}
      end in
    let st2 :=
      if strict_eq status (JStr "completed")
         && negb (bool_decide (is_Some (completedTime banner)))
      then
        {| trackedJobs := trackedJobs st1;
           activeBanner :=
             Some {| jobId := jobId banner; status := status;
                     progress := progress; completedTime := Some now |};
           shown := shown st1; painted := painted st1;
           pollTimer := pollTimer st1; initialized := initialized st1;
           intervals := intervals st1;
           hideTimers := (nextTimer st1, get jobData "id") :: hideTimers st1;
           nextTimer := S (nextTimer st1); storage := storage st1;
           inflightActive := inflightActive st1;
           inflightStatus := inflightStatus st1;
           log := SetTimeout (nextTimer st1) (showCompletedDuration o)
                  :: log st1 |}
      else set_banner (Some banner) (shown st1) st1 in
    match paint (currentWidth (painted st)) status progress with
    | Some p => (set_banner (activeBanner st2) true (set_painted p st2), true)
    | None => (st2, false)
    end.

(** [fetchJobStatus(jobId)] up to the point where the request is sent. *)
Definition fetchJobStatus (o : Options) (id : jsval) (st : State) : State :=
  if truthy id then
    emit (Fetch (strip_trailing_slash (checkEndpoint o) +:+ "/?job_id="
                 +:+ to_string id))
      (set_inflight (inflightActive st) (S (inflightStatus st)) st)
  else st.

(** [fetchActiveJobs()] up to the point where the request is sent. *)
Definition fetchActiveJobs (o : Options) (st : State) : State :=
  emit (Fetch (checkEndpoint o))
    (set_inflight (S (inflightActive st)) (inflightStatus st) st).

(** [checkActiveJobs()]. *)
Definition checkActiveJobs (o : Options) (st : State) : State :=
  match trackedJobs st with
  | mostRecentJob :: _ =>
      match activeBanner st with
      | Some b =>
          if strict_eq (jobId b) (get mostRecentJob "id")
          then fetchJobStatus o (jobId b) st
          else fetchJobStatus o (get mostRecentJob "id") st
      | None => fetchJobStatus o (get mostRecentJob "id") st
      end
  | [] => fetchActiveJobs o st
  end.

(** The second [then] handler of [fetchActiveJobs], given
    [data.active_jobs] when it is an array. *)
Definition onActiveJobs (o : Options) (active_jobs : option (list obj))
    (st : State) : State :=
  match active_jobs with
  | Some (mostRecentJob :: rest) =>
      let st1 := fold_left (fun acc job => trackJob o job acc)
                   (mostRecentJob :: rest) st in
      fetchJobStatus o (get mostRecentJob "id") st1
  | _ =>
      match activeBanner st with
      | Some _ => hideBanner st
      | None => st
      end
  end.

(** One list-active-jobs request settles.  The body of a response is
    [data.active_jobs] when the JSON parses. *)
Definition settleActive (o : Options) (r : Response (option (list obj)))
    (st : State) : State :=
  match inflightActive st with
  | O => st
  | S n =>
      let st1 := set_inflight n (inflightStatus st) st in
      match r with
      | NetworkError => emit (ConsoleError "Error fetching active jobs") st1
      | Http code body =>
          if (code =? 302) || (code =? 401) then onActiveJobs o (Some []) st1
          else if negb (http_ok code)
          then emit (ConsoleError "Error fetching active jobs") st1
          else match body with
               | Some active_jobs => onActiveJobs o active_jobs st1
               | None => emit (ConsoleError "Error fetching active jobs") st1
               end
      end
  end.

(** One job-status request settles at time [now]. *)
Definition settleStatus (o : Options) (now : Z) (r : Response obj)
    (st : State) : State :=
  match inflightStatus st with
  | O => st
  | S n =>
      let st1 := set_inflight (inflightActive st) n st in
      match r with
      | Http code (Some data) =>
          if http_ok code then
            if truthy (get data "status") then
              match updateBanner o now data st1 with
              | (st2, true) => st2
              | (st2, false) => emit (ConsoleError "Error fetching job status") st2
              end
            else emit (ConsoleError "No job data returned for ID") st1
          else emit (ConsoleError "Error fetching job status") st1
      | _ => emit (ConsoleError "Error fetching job status") st1
      end
  end.

(** [startPolling()]. *)
Definition startPolling (o : Options) (st : State) : State :=
  let running :=
    match pollTimer st with
    | Some id => List.filter (fun t => negb (Nat.eqb (fst t) id)) (intervals st)
    | None => intervals st
    end in
  {| trackedJobs := trackedJobs st; activeBanner := activeBanner st;
     shown := shown st; painted := painted st;
     pollTimer := Some (nextTimer st); initialized := initialized st;
     intervals := (nextTimer st, pollInterval o) :: running;
     hideTimers := hideTimers st; nextTimer := S (nextTimer st);
     storage := storage st; inflightActive := inflightActive st;
     inflightStatus := inflightStatus st;
     log := SetInterval (nextTimer st) (pollInterval o)
            :: match pollTimer st with
               | Some id => ClearInterval id :: log st
               | None => log st
               end |}.

(** [stopPolling()]. *)
Definition stopPolling (st : State) : State :=
  match pollTimer st with
  | Some id =>
      {| trackedJobs := trackedJobs st; activeBanner := activeBanner st;
         shown := shown st; painted := painted st;
         pollTimer := None; initialized := initialized st;
         intervals := List.filter (fun t => negb (Nat.eqb (fst t) id)) (intervals st);
         hideTimers := hideTimers st; nextTimer := nextTimer st;
         storage := storage st; inflightActive := inflightActive st;
         inflightStatus := inflightStatus st;
         log := ClearInterval id :: log st |}
  | None => st
  end.

(** [init()] on a page that does not disable the banner. *)
Definition init (o : Options) (st : State) : State :=
  if initialized st then st
  else
    let st1 := startPolling o st in
    checkActiveJobs o
      {| trackedJobs := trackedJobs st1; activeBanner := activeBanner st1;
         shown := shown st1; painted := painted st1;
         pollTimer := pollTimer st1; initialized := true;
         intervals := intervals st1; hideTimers := hideTimers st1;
         nextTimer := nextTimer st1; storage := storage st1;
         inflightActive := inflightActive st1;
         inflightStatus := inflightStatus st1; log := log st1 |}.

(** The constructor, run after the document has loaded. *)
Definition construct (o : Options) (now : Z) (parseDate : jsval -> option Z)
    (stored : Stored) : State :=
  let st := fresh stored in
  init o (if persistInStorage o then loadFromStorage now parseDate st else st).

(** The repeating timer goes off. *)
Definition tick (o : Options) (id : nat) (st : State) : State :=
  if existsb (fun t => Nat.eqb (fst t) id) (intervals st) then checkActiveJobs o st
  else st.

(** The auto-hide timer armed by [updateBanner] goes off. *)
Definition hideTimerFires (id : nat) (st : State) : State :=
  match List.find (fun t => Nat.eqb (fst t) id) (hideTimers st) with
  | Some (_, jid) =>
      let st1 :=
        {| trackedJobs := trackedJobs st; activeBanner := activeBanner st;
           shown := shown st; painted := painted st;
           pollTimer := pollTimer st; initialized := initialized st;
           intervals := intervals st;
           hideTimers := List.filter (fun t => negb (Nat.eqb (fst t) id)) (hideTimers st);
           nextTimer := nextTimer st; storage := storage st;
           inflightActive := inflightActive st;
           inflightStatus := inflightStatus st; log := log st |} in
      match activeBanner st1 with
      | Some b => if strict_eq (jobId b) jid then hideBanner st1 else st1
      | None => st1
      end
  | None => st
  end.

Inductive Event : Type :=
  | TimerFires (id : nat)
  | HideTimerFires (id : nat)
  | SettlesActive (r : Response (option (list obj)))
  | SettlesStatus (now : Z) (r : Response obj)
  | ClickClose.

Definition step (o : Options) (st : State) (e : Event) : State :=
  match e with
  | TimerFires id => tick o id st
  | HideTimerFires id => hideTimerFires id st
  | SettlesActive r => settleActive o r st
  | SettlesStatus now r => settleStatus o now r st
  | ClickClose => hideBanner st
  end.

Definition run (o : Options) (st : State) (es : list Event) : State :=
  fold_left (step o) es st.

(** The banner element carries the class [active] only while a banner
    is recorded in [activeBanner]. *)
Definition shown_inv (st : State) : Prop :=
  shown st = true -> activeBanner st <> None.

(** The two fields [shown_inv] speaks about. *)
Definition view (st : State) : option Banner * bool :=
  (activeBanner st, shown st).

Definition console_errors (st : State) : list string :=
  rev (omap (fun e => match e with ConsoleError m => Some m | _ => None end)
         (log st)).

Definition fetched (st : State) : list string :=
  rev (omap (fun e => match e with Fetch u => Some u | _ => None end)
         (log st)).

(** The request of [cancelJob(jobId)] once the user has answered the
    confirmation dialog. *)
Definition cancelJob (o : Options) (doc : Document) (confirmed : bool)
    (id : jsval) : option Request :=
  if truthy id && confirmed then
    Some {| url := checkEndpoint o +:+ to_string id +:+ "/cancel/";
            method := "POST";
            headers := [("Content-Type", JStr "application/json");
                        ("X-CSRFToken", getCsrfToken doc)] |}
  else None.

(** *** Further notions used to state properties of the tracker *)

(** The ids of a list of jobs. *)
Definition ids (jobs : list obj) : list jsval :=
  map (fun job => get job "id") jobs.

(** The banner shows job [id] and has recorded its completion. *)
Definition completion_seen (id : jsval) (st : State) : bool :=
  match activeBanner st with
  | Some b => strict_eq (jobId b) id
              && bool_decide (is_Some (completedTime b))
  | None => false
  end.

(** [getStatusStateClass(status)]. *)
Definition getStatusStateClass (status : jsval) : option string :=
  if negb (truthy status) then Some "status-running"
  else match status with
       | JStr s =>
           let l := toLowerCase s in
           Some (if String.eqb l "running" || String.eqb l "processing"
                    || String.eqb l "waiting"
                 then "status-running"
                 else if String.eqb l "completed" then "status-completed"
                 else if String.eqb l "error" || String.eqb l "failed"
                 then "status-error"
                 else if String.eqb l "warning" || String.eqb l "cancelled"
                 then "status-warning"
                 else "status-running")
       | _ => None
       end.

(** The three numbers of [calculateElapsedTime] for an elapsed time in
    whole milliseconds: [Math.floor((x / 1000) % 60)] is the floor of
    the remainder of [x] by 60000 (which has the sign of [x]) divided
    by 1000, and likewise for the minutes. *)
Definition elapsedSeconds (elapsedMs : Z) : Z := Z.rem elapsedMs 60000 / 1000.

Definition elapsedMinutes (elapsedMs : Z) : Z :=
  Z.rem elapsedMs 3600000 / 60000.

Definition elapsedHours (elapsedMs : Z) : Z := elapsedMs / 3600000.

(** [calculateElapsedTime(startTime)] at the time [now], for a start
    time that parses as the date [start]; both in milliseconds. *)
Definition calculateElapsedTime (startTime : jsval) (start now : Z) : string :=
  if negb (truthy startTime) then ""
  else
    let elapsedMs := now - start in
    let seconds := elapsedSeconds elapsedMs in
    let minutes := elapsedMinutes elapsedMs in
    let hours := elapsedHours elapsedMs in
    if 0 <? hours
    then pretty hours +:+ "h " +:+ pretty minutes +:+ "m " +:+ pretty seconds
         +:+ "s"
    else if 0 <? minutes
    then pretty minutes +:+ "m " +:+ pretty seconds +:+ "s"
    else pretty seconds +:+ "s".


(** *** Further notions used to state properties of the tracked list *)

(** Every job of the list has a usable id. *)
Definition with_ids (jobs : list obj) : Prop :=
  Forall (fun job => truthy (get job "id") = true) jobs.

(** The jobs of a storage record, none for a record the constructor
    loads nothing from. *)
Definition stored_jobs (stored : Stored) : list obj :=
  match stored with
  | Item (Some jobs) => jobs
  | _ => []
  end.

(** The tracked list with the storage record. *)
Definition store_view (st : State) : list obj * Stored :=
  (trackedJobs st, storage st).

(** The requests of an instance that have not settled. *)
Definition pending (st : State) : nat :=
  (inflightActive st + inflightStatus st)%nat.

(** The storage record after a series of page loads, each of which runs
    the constructor at its time on the record the one before left
    behind and then handles its events. *)
Fixpoint reloads (o : Options) (parseDate : jsval -> option Z)
    (stored : Stored) (loads : list (Z * list Event)) : Stored :=
  match loads with
  | [] => stored
  | (now, es) :: rest =>
      reloads o parseDate
        (storage (run o (construct o now parseDate stored) es)) rest
  end.


End JobStatusBanner.

(** ** Mutating requests of the column editor and of StatusUpdater *)

Module ColumnEditor.
Import Dom.

(** [window.apiUrls], when the template defines it. *)
Record ApiUrls : Type := {
  saveColumns : option string;
  deleteColumnUrl : option string;
  applyDefaultsUrl : option string;
  savePromptUrl : option string
}.

(** [window.apiUrls?.field || fallback]. *)
Definition api_or (apiUrls : option ApiUrls) (field : ApiUrls -> option string)
    (fallback : string) : string :=
  match apiUrls with
  | Some a =>
      match field a with
      | Some u => if String.eqb u "" then fallback else u
      | None => fallback
      end
  | None => fallback
  end.

(** [saveColumn()]: reading [.value] of a missing token element raises
    before any request is made ([None]).  The form [column-form] is
    assumed present. *)
Definition saveColumn (doc : Document) (apiUrls : option ApiUrls)
    : option Request :=
  match csrfmiddlewaretoken doc with
  | Some csrfToken =>
      Some {| url := api_or apiUrls saveColumns "/save-columns/";
              method := "POST";
              headers := [("Content-Type", JStr "application/json");
                          ("X-CSRFToken", JStr csrfToken)] |}
  | None => None
  end.

(** [deleteColumn(row)] for a row whose [data-column-id] is [columnId],
    once the user has answered the confirmation dialog.  With
    [window.apiUrls] defined but no [deleteColumn] entry, [replace] is
    called on [undefined] and raises. *)
Definition deleteColumn (doc : Document) (apiUrls : option ApiUrls)
    (confirmed : bool) (columnId : jsval) : option Request :=
  if confirmed then
    match csrfmiddlewaretoken doc with
    | Some csrfToken =>
        let fallback := "/columns/delete/" +:+ to_string columnId +:+ "/" in
        let deleteUrl :=
          match apiUrls with
          | Some a =>
              match deleteColumnUrl a with
              | Some u =>
                  let r := replace u ":id" (to_string columnId) in
                  Some (if String.eqb r "" then fallback else r)
              | None => None
              end
          | None => Some fallback
          end in
        match deleteUrl with
        | Some u =>
            Some {| url := u; method := "POST";
                    headers := [("X-CSRFToken", JStr csrfToken)] |}
        | None => None
        end
    | None => None
    end
  else None.

(** [updateGeneratedPrompt()]: the token is read with [?.value]. *)
Definition updateGeneratedPrompt (doc : Document) (apiUrls : option ApiUrls)
    : Request :=
  {| url := api_or apiUrls saveColumns "/save-columns/";
     method := "POST";
     headers := [("Content-Type", JStr "application/json");
                 ("X-CSRFToken",
                  match csrfmiddlewaretoken doc with
                  | Some csrfToken => JStr csrfToken
                  | None => JUndefined
                  end)] |}.

(** [applyDefaults()] once the confirmation dialog has been answered. *)
Definition applyDefaults (doc : Document) (apiUrls : option ApiUrls)
    (confirmed : bool) : option Request :=
  if confirmed then
    match csrfmiddlewaretoken doc with
    | Some csrfToken =>
        Some {| url := api_or apiUrls applyDefaultsUrl "/apply-default-columns/";
                method := "POST";
                headers := [("Content-Type", JStr "application/json");
                            ("X-CSRFToken", JStr csrfToken)] |}
    | None => None
    end
  else None.

(** [savePrompt()] for the text of the [generated-prompt] field. *)
Definition savePrompt (doc : Document) (apiUrls : option ApiUrls)
    (promptContent : string) : option Request :=
  if blank promptContent then None
  else
    match csrfmiddlewaretoken doc with
    | Some csrfToken =>
        Some {| url := api_or apiUrls savePromptUrl "/save-prompt/";
                method := "POST";
                headers := [("Content-Type", JStr "application/json");
                            ("X-CSRFToken", JStr csrfToken)] |}
    | None => None
    end.

(** [StatusUpdater.handleContinueProcessing()]. *)
Definition handleContinueProcessing (doc : Document) (currentJobId : jsval)
    : option Request :=
  if truthy currentJobId then
    Some {| url := "/continue-processing/" +:+ to_string currentJobId +:+ "/";
            method := "POST";
            headers := [("Content-Type", JStr "application/json");
                        ("X-CSRFToken", getCsrfToken doc)] |}
  else None.

(** A request that carries the value of the [csrfmiddlewaretoken] field. *)
Definition carries_form_token (doc : Document) (r : Request) : Prop :=
  method r = "POST"
  /\ exists csrfToken,
       csrfmiddlewaretoken doc = Some csrfToken
       /\ header "X-CSRFToken" (headers r) = Some (JStr csrfToken).

(** *** What the page does once a request has settled *)

Inductive Action : Type :=
  | Alert (message : string)
  | Reload
  | RemoveRow
  | SetPrompt (template : jsval)
  | Send (r : Request).

(** The texts that come from the browser: the message of a rejected
    [fetch], the message of a JSON syntax error, and
    [response.statusText]. *)
Record Browser : Type := {
  fetchError : string;
  jsonError : string;
  statusText : Z -> string
}.

(** The first [then] handler every request of the page shares: the
    parsed data, or the message of the error that reaches [catch]. *)
Definition read (br : Browser) (r : Response obj) : obj + string :=
  match r with
  | NetworkError => inr (fetchError br)
  | Http status body =>
      if http_ok status then
        match body with
        | Some data => inl data
        | None => inr (jsonError br)
        end
      else inr ("HTTP error " +:+ pretty status +:+ ": " +:+ statusText br status)
  end.

(** The handlers of [updateGeneratedPrompt()] for the response [r];
    [promptElement] tells whether [generated-prompt] exists.  Its
    [catch] handler leaves the returned promise fulfilled. *)
Definition promptSettles (br : Browser) (promptElement : bool)
    (r : Response obj) : list Action :=
  match read br r with
  | inl data =>
      if truthy (get data "success") && truthy (get data "prompt_template")
      then if promptElement then [SetPrompt (get data "prompt_template")]
           else []
      else [Alert (to_string (or_else (get data "error")
                                (JStr "Failed to generate prompt")))]
  | inr message => [Alert message]
  end.

(** The handlers of [saveColumn()] for the response [r]; [r'] is the
    response to the prompt request sent after a save the server
    accepted. *)
Definition saveColumnSettles (br : Browser) (doc : Document)
    (apiUrls : option ApiUrls) (promptElement : bool)
    (r r' : Response obj) : list Action :=
  match read br r with
  | inl data =>
      if truthy (get data "success")
      then (Send (updateGeneratedPrompt doc apiUrls)
            :: promptSettles br promptElement r' ++ [Reload])%list
      else [Alert (to_string (or_else (get data "error")
                                (JStr "Failed to save column")))]
  | inr message => [Alert message]
  end.

(** The handlers of [applyDefaults()]. *)
Definition applyDefaultsSettles (br : Browser) (doc : Document)
    (apiUrls : option ApiUrls) (promptElement : bool)
    (r r' : Response obj) : list Action :=
  match read br r with
  | inl data =>
      if truthy (get data "success")
      then (Send (updateGeneratedPrompt doc apiUrls)
            :: promptSettles br promptElement r' ++ [Reload])%list
      else [Alert ("Failed to apply default columns: "
                   +:+ to_string (or_else (get data "error")
                                    (JStr "Failed to apply default columns")))]
  | inr message => [Alert ("Failed to apply default columns: " +:+ message)]
  end.

(** The handlers of [deleteColumn(row)]. *)
Definition deleteColumnSettles (br : Browser) (doc : Document)
    (apiUrls : option ApiUrls) (promptElement : bool)
    (r r' : Response obj) : list Action :=
  match read br r with
  | inl data =>
      if truthy (get data "success")
      then (RemoveRow :: Send (updateGeneratedPrompt doc apiUrls)
            :: promptSettles br promptElement r')%list
      else [Alert (to_string (or_else (get data "error")
                                (JStr "Failed to delete column")))]
  | inr message => [Alert message]
  end.

(** The server accepted a request: a 2xx response whose JSON body has a
    truthy [success]. *)
Definition accepted (r : Response obj) : bool :=
  match r with
  | Http status (Some data) => http_ok status && truthy (get data "success")
  | _ => false
  end.


End ColumnEditor.

(** ** The behaviour the specification describes, in its own words *)

Module Spec.

(** [clamp(x, lo, hi)]. *)
Definition clamp (x lo hi : Z) : Z := Z.max lo (Z.min hi x).

(** The fixed ordered phase list. *)
Definition phases : list string :=
  ["initializing"; "preparing"; "sending"; "extracting"; "processing";
   "completed"].

Definition position (name : string) : option nat :=
  findIndex (String.eqb name) phases.

(** Phases strictly before the current one are complete, the current one
    is active, later ones are pending. *)
Definition phaseClass (current name : string) : option JobProgress.PhaseClass :=
  match position current, position name with
  | Some i, Some j =>
      Some (if Nat.ltb j i then JobProgress.PhaseComplete
            else if Nat.eqb j i then JobProgress.PhaseActive
            else JobProgress.PhasePending)
  | _, _ => None
  end.

(** Keyword matching in the listed priority order, first match wins,
    default [initializing]. *)
Definition derivePhase (processing_details : string) : string :=
  match List.find (fun p => includes processing_details p) phases with
  | Some p => p
  | None => "initializing"
  end.

(** The status badge table: text and class. *)
Definition badge (status : string) : string * string :=
  if String.eqb status "pending" then ("Pending", "warning")
  else if String.eqb status "in_progress" || String.eqb status "processing"
  then ("Processing", "primary")
  else if String.eqb status "waiting" then ("Waiting", "info")
  else if String.eqb status "extracting" then ("Extracting", "info")
  else if String.eqb status "completed" then ("Completed", "success")
  else if String.eqb status "error" || String.eqb status "failed"
  then ("Error", "danger")
  else if String.eqb status "cancelled" then ("Cancelled", "secondary")
  else (capitalize status, "secondary").

End Spec.

(** ** Sample inputs *)

Module Samples.

Definition progress_options : JobProgress.Options :=
  {| JobProgress.jobId := "42";
     JobProgress.jobStatusUrl := "/job-status/";
     JobProgress.pollInterval := 3000;
     JobProgress.hasOnUpdate := false;
     JobProgress.hasOnComplete := true;
     JobProgress.hasOnError := false |}.



(** A job that failed, as the server reports it. *)
Definition failed_job : obj :=
  {[ "status" := JStr "failed"; "error" := JStr "boom" ]}.

Definition cancelled_job : obj := {[ "status" := JStr "cancelled" ]}.

(** A payload whose progress is out of range. *)
Definition over_progress : obj :=
  {[ "id" := JNum 7; "status" := JStr "processing";
     "progress_percent" := JNum 150 ]}.

Definition negative_progress : obj :=
  {[ "id" := JNum 7; "status" := JStr "processing";
     "progress_percent" := JNum (-5) ]}.

(** Progress bars that show 7 percent. *)
Definition progress_bar_at_7 : JobProgress.Bar :=
  {| JobProgress.width := "7%"; JobProgress.valuenow := "7";
     JobProgress.barClasses := ["progress-bar"] |}.

Definition page_bar_at_7 : StatusUpdater.Bar :=
  {| StatusUpdater.width := "7%"; StatusUpdater.valuenow := "7" |}.

(** A payload without [current_phase], with two keywords in its details. *)
Definition two_keywords : obj :=
  {[ "status" := JStr "processing";
     "processing_details" := JStr "preparing and sending" ]}.

Definition pending_job : obj := {[ "status" := JStr "pending" ]}.

(** A page with all three token sources, each with its own value. *)
Definition three_tokens : Dom.Document :=
  {| Dom.cookie := "sessionid=xyz; csrftoken=AAA";
     Dom.csrf_meta := Some (Some "MMM");
     Dom.csrfmiddlewaretoken := Some "BBB" |}.

(** The page of the repository's jest test: the cookie holds the token
    and the page has no token field. *)
Definition jest_page : Dom.Document :=
  {| Dom.cookie := "csrftoken=test-token";
     Dom.csrf_meta := None;
     Dom.csrfmiddlewaretoken := None |}.

(** A poll that reports a job still being processed. *)
Definition still_processing : Response StatusUpdater.Payload :=
  Http 200 (Some {| StatusUpdater.top := {[ "status" := JStr "processing" ]};
                    StatusUpdater.job := None |}).

(** startPolling is called a second time while the first request is in
    flight, and both requests then succeed. *)
Definition updater_double_start : list StatusUpdater.Event :=
  [StatusUpdater.CallStart (JStr "j1"); StatusUpdater.CallStart (JStr "j1");
   StatusUpdater.Settles still_processing;
   StatusUpdater.Settles still_processing].

Definition running_job (n : Z) : obj :=
  {[ "id" := JNum n; "status" := JStr "processing" ]}.

(** A storage record holding six jobs, none of them completed. *)
Definition six_stored : JobStatusBanner.Stored :=
  JobStatusBanner.Item (Some (map running_job [1; 2; 3; 4; 5; 6])).

Definition processing_2_of_5 : obj :=
  {[ "status" := JStr "processing"; "progress_percent" := JNum 45;
     "processed_count" := JNum 2; "total_count" := JNum 5 ]}.

End Samples.

(** * Properties *)

(** ** Strings *)
Example split_cookie :
  split "a=1; csrftoken=abc; b=2" "; " = ["a=1"; "csrftoken=abc"; "b=2"].
Proof. reflexivity. Qed.

Example split_eq : split "csrftoken=abc=d" "=" = ["csrftoken"; "abc"; "d"].
Proof. reflexivity. Qed.

Example split_trailing : split "csrftoken=" "=" = ["csrftoken"; ""].
Proof. reflexivity. Qed.

Example includes_ex : includes "now extracting cases" "extract" = true.
Proof. reflexivity. Qed.

Example capitalize_ex : capitalize "in_progress" = "In_progress".
Proof. reflexivity. Qed.

Example to_string_ex : to_string (JNum 150) +:+ "%" = "150%".
Proof. reflexivity. Qed.

(** ** JobProgress: one repeating timer at most *)

Section JobProgressInvariant.
Import JobProgress.
Variable o : Options.

Lemma timer_inv_init : timer_inv init.
Proof. split; reflexivity. Qed.

Lemma timer_inv_emit e st : timer_inv st -> timer_inv (emit e st).
Proof. unfold timer_inv; destruct st; simpl; auto. Qed.

Lemma timer_inv_emit_if b e st : timer_inv st -> timer_inv (emit_if b e st).
Proof. destruct b; simpl; auto using timer_inv_emit. Qed.

Lemma timer_inv_stop st : timer_inv st -> timer_inv (stopTracking st).
Proof.
  unfold timer_inv, stopTracking.
  destruct (isActive st) eqn:Ha.
  - intros (id & period & Ht & Hi). rewrite Ht. simpl. split; [reflexivity|].
    rewrite Hi. simpl. rewrite Nat.eqb_refl. reflexivity.
  - rewrite Ha. auto.
Qed.

Lemma stop_inactive st : isActive (stopTracking st) = false.
Proof.
  unfold stopTracking. destruct (isActive st) eqn:Ha; [|exact Ha].
  destruct (timer st); reflexivity.
Qed.

Lemma timer_inv_poll st : timer_inv st -> timer_inv (pollStatus o st).
Proof. unfold timer_inv; destruct st; simpl; auto. Qed.

Lemma timer_inv_start st : timer_inv st -> timer_inv (startTracking o st).
Proof.
  unfold startTracking. destruct (isActive st) eqn:Ha; [auto|].
  unfold timer_inv. rewrite Ha. intros [Ht Hi]. simpl.
  exists (nextTimer st), (pollInterval o). rewrite Hi. auto.
Qed.

Lemma timer_inv_onFailure m st : timer_inv st -> timer_inv (onFailure o m st).
Proof.
  intros H. unfold onFailure. apply timer_inv_emit_if.
  destruct (Nat.ltb _ _); auto using timer_inv_stop, timer_inv_emit.
Qed.

Lemma timer_inv_onSuccess d st : timer_inv st -> timer_inv (onSuccess o d st).
Proof.
  intros H. unfold onSuccess.
  destruct (truthy (get d "error")); [apply timer_inv_onFailure; exact H|].
  assert (H3 : timer_inv
    (emit_if (hasOnUpdate o) (OnUpdate d)
       {| isActive := isActive (emit (Display d) st);
          timer := timer (emit (Display d) st);
          pollCount := pollCount (emit (Display d) st);
          lastStatus :=
            if strict_eq (lastStatus (emit (Display d) st)) (get d "status")
            then lastStatus (emit (Display d) st) else get d "status";
          lastUpdated := get d "last_updated";
          intervals := intervals (emit (Display d) st);
          nextTimer := nextTimer (emit (Display d) st);
          inflight := inflight (emit (Display d) st);
          log := log (emit (Display d) st) |})).
  { apply timer_inv_emit_if. unfold timer_inv in *. simpl. exact H. }
  destruct (terminal _);
    auto using timer_inv_emit_if, timer_inv_stop.
Qed.

Lemma timer_inv_settle r st : timer_inv st -> timer_inv (settle o r st).
Proof.
  intros H. unfold settle. destruct (inflight st) eqn:Hn; [exact H|].
  match goal with |- context [onFailure o _ ?s] =>
    assert (H1 : timer_inv s) by (unfold timer_inv in *; simpl; exact H) end.
  destruct r as [|code [d|]]; [| destruct (http_ok code) ..];
    auto using timer_inv_onFailure, timer_inv_onSuccess.
Qed.

Lemma timer_inv_step st e : timer_inv st -> timer_inv (step o st e).
Proof.
  destruct e; simpl;
    auto using timer_inv_start, timer_inv_stop, timer_inv_settle.
  unfold tick. destruct (running _ _); auto using timer_inv_poll.
Qed.

Lemma timer_inv_run es st : timer_inv st -> timer_inv (run o st es).
Proof.
  revert st. induction es as [|e es IH]; intros st H; simpl; [exact H|].
  apply IH, timer_inv_step, H.
Qed.

Lemma stop_stop st : stopTracking (stopTracking st) = stopTracking st.
Proof.
  unfold stopTracking at 1. rewrite stop_inactive. reflexivity.
Qed.

Lemma stop_clears st :
  timer_inv st ->
  timer (stopTracking st) = None /\ intervals (stopTracking st) = [].
Proof.
  intros H. apply timer_inv_stop in H. unfold timer_inv in H.
  rewrite stop_inactive in H. exact H.
Qed.

Lemma start_active_noop st : isActive st = true -> startTracking o st = st.
Proof. intros H. unfold startTracking. rewrite H. reflexivity. Qed.

Lemma timer_inv_at_most_one st :
  timer_inv st ->
  (length (intervals st) <= 1)%nat /\ map fst (intervals st) = option_list (timer st).
Proof.
  unfold timer_inv. destruct (isActive st).
  - intros (id & period & -> & ->). simpl. auto.
  - intros [-> ->]. simpl. auto.
Qed.

End JobProgressInvariant.

(** C10: for every JobProgress instance, in any state reached from the
    constructor by calls, timer ticks and settled requests: stopTracking
    twice equals stopTracking once and leaves no timer; startTracking on
    an active instance changes nothing (no fetch, no second timer), so
    startTracking twice equals once; and at most one repeating timer is
    running, the one recorded in the instance. *)
Theorem C10_start_stop_idempotent
    (o : JobProgress.Options) (es : list JobProgress.Event) :
  let st := JobProgress.run o JobProgress.init es in
  JobProgress.stopTracking (JobProgress.stopTracking st)
    = JobProgress.stopTracking st
  /\ JobProgress.timer (JobProgress.stopTracking st) = None
  /\ JobProgress.intervals (JobProgress.stopTracking st) = []
  /\ (JobProgress.isActive st = true -> JobProgress.startTracking o st = st)
  /\ JobProgress.startTracking o (JobProgress.startTracking o st)
       = JobProgress.startTracking o st
  /\ (length (JobProgress.intervals st) <= 1)%nat
  /\ map fst (JobProgress.intervals st) = option_list (JobProgress.timer st).
Proof.
  intros st.
  assert (Hinv : JobProgress.timer_inv st)
    by (apply timer_inv_run, timer_inv_init).
  destruct (stop_clears st Hinv) as [Ht Hi].
  destruct (timer_inv_at_most_one st Hinv) as [Hlen Hids].
  repeat split; auto using stop_stop, start_active_noop.
  apply start_active_noop.
  unfold JobProgress.startTracking.
  destruct (JobProgress.isActive st) eqn:Ha; [exact Ha | reflexivity].
Qed.

Lemma C10_start_stop_idempotent_witness :
  let st := JobProgress.run Samples.progress_options JobProgress.init
              [JobProgress.CallStart; JobProgress.Settles NetworkError] in
  JobProgress.isActive st = true
  /\ JobProgress.startTracking Samples.progress_options st = st.
Proof.
  split; [reflexivity|].
  destruct (C10_start_stop_idempotent Samples.progress_options
              [JobProgress.CallStart; JobProgress.Settles NetworkError])
    as (_ & _ & _ & H & _).
  apply H. reflexivity.
Defined.

(** ** StatusUpdater: failures, backoff and the polling chain *)

Section StatusUpdaterFacts.
Import StatusUpdater.
Variable o : Options.

Lemma settle_failure (r : Response Payload) st n :
  inflight st = S n -> is_failure r = true ->
  settle o r st = onFailure o (set_inflight n st).
Proof.
  intros Hn Hr. unfold settle. rewrite Hn.
  destruct r as [|code body]; [reflexivity|].
  simpl in Hr. apply negb_true_iff in Hr. rewrite Hr. reflexivity.
Qed.



Lemma onFailure_inflight st : inflight (onFailure o st) = inflight st.
Proof. unfold onFailure. simpl. destruct (_ <=? _); reflexivity. Qed.



Lemma onFailure_timeouts_length st :
  (length (timeouts (onFailure o st)) <= S (length (timeouts st)))%nat.
Proof. unfold onFailure. simpl. destruct (_ <=? _); simpl; lia. Qed.

(** With no timer armed and nothing in flight, the browser has nothing
    left to deliver. *)
Lemma quiescent_step st e :
  timeouts st = [] -> inflight st = 0%nat -> env_event e = true ->
  step o st e = st.
Proof.
  intros Ht Hn He. destruct e; simpl in *; try discriminate.
  - unfold fire. rewrite Ht. reflexivity.
  - unfold settle. rewrite Hn. reflexivity.
Qed.

Lemma quiescent_run es st :
  timeouts st = [] -> inflight st = 0%nat -> forallb env_event es = true ->
  run o st es = st.
Proof.
  intros Ht Hn. induction es as [|e es IH]; simpl; [reflexivity|].
  intros H. apply andb_true_iff in H as [He Hes].
  rewrite (quiescent_step st e Ht Hn He). apply IH, Hes.
Qed.


Lemma disarm_length id ts : (length (disarm id ts) <= length ts)%nat.
Proof.
  unfold disarm. induction ts as [|t ts IH]; simpl; [lia|].
  destruct (negb _); simpl; lia.
Qed.

Lemma disarm_armed_single id ts :
  armed id ts = true -> (length ts <= 1)%nat -> disarm id ts = [].
Proof.
  destruct ts as [|[id' d] [|t ts]]; simpl; try discriminate; try lia.
  intros H _. rewrite orb_false_r in H. rewrite H. reflexivity.
Qed.

Lemma chain_inv_stop st : chain_inv st -> chain_inv (stopPolling st).
Proof.
  unfold chain_inv, stopPolling. destruct (pollTimer st); [|auto].
  simpl. pose proof (disarm_length n (timeouts st)). lia.
Qed.

Lemma chain_inv_fire id st : chain_inv st -> chain_inv (fire o id st).
Proof.
  unfold chain_inv, fire. intros H.
  destruct (armed id (timeouts st)) eqn:Ha; [|exact H].
  assert (Hlen : (length (timeouts st) <= 1)%nat) by lia.
  assert (Hne : timeouts st <> []) by (intros E; rewrite E in Ha; discriminate).
  assert (Hn : inflight st = 0%nat).
  { destruct (timeouts st); [congruence|]. simpl in H. lia. }
  unfold pollStatus. simpl.
  rewrite (disarm_armed_single id _ Ha Hlen).
  destruct (truthy (currentJobId st)); simpl; lia.
Qed.

Lemma chain_inv_settle r st : chain_inv st -> chain_inv (settle o r st).
Proof.
  unfold chain_inv, settle. intros H.
  destruct (inflight st) as [|n] eqn:Hn; [rewrite Hn; exact H|].
  assert (Ht : timeouts st = [])
    by (destruct (timeouts st); [reflexivity | simpl in H; lia]).
  assert (n = 0%nat) as -> by lia.
  assert (Hf : forall s, inflight s = 0%nat -> timeouts s = [] ->
            (inflight (onFailure o s) + length (timeouts (onFailure o s)) <= 1)%nat).
  { intros s Hs Hts. rewrite onFailure_inflight, Hs.
    pose proof (onFailure_timeouts_length s) as Hl. rewrite Hts in Hl.
    simpl in *. lia. }
  destruct r as [|code [d|]]; [| destruct (http_ok code) ..];
    try (apply Hf; [reflexivity | exact Ht]).
  unfold onSuccess.
  destruct (updateStatus_throws _);
    [apply Hf; [reflexivity | exact Ht]|].
  destruct (shouldContinuePolling d) as [[|]|];
    [| | apply Hf; [reflexivity | exact Ht]]; simpl; rewrite Ht; simpl; lia.
Qed.

Lemma chain_inv_run es st :
  chain_inv st -> forallb not_start es = true -> chain_inv (run o st es).
Proof.
  revert st. induction es as [|e es IH]; intros st H Hes; simpl; [exact H|].
  simpl in Hes. apply andb_true_iff in Hes as [He Hes].
  apply IH; [|exact Hes].
  destruct e; simpl in *; try discriminate;
    auto using chain_inv_stop, chain_inv_fire, chain_inv_settle.
Qed.

Lemma chain_inv_started jobId : chain_inv (startPolling o jobId init).
Proof.
  unfold chain_inv, startPolling, pollStatus.
  destruct (truthy jobId) eqn:Hj; simpl; [rewrite Hj; simpl|]; lia.
Qed.

End StatusUpdaterFacts.

Section JobProgressFailure.
Import JobProgress.
Variable o : Options.


Lemma tick_sends_request id st :
  running id (intervals st) = true ->
  inflight (tick o id st) = S (inflight st)
  /\ fetched (tick o id st) = (fetched st ++ [pollUrl o])%list.
Proof. intros H. unfold tick. rewrite H. unfold fetched. simpl. auto. Qed.

End JobProgressFailure.




(** ** Terminal payloads *)

Section JobProgressTerminal.
Import JobProgress.
Variable o : Options.

Lemma stop_fetched st : fetched (stopTracking st) = fetched st.
Proof.
  unfold stopTracking, fetched.
  destruct (isActive st); [destruct (timer st)|]; reflexivity.
Qed.

Lemma stop_completions st : completions (stopTracking st) = completions st.
Proof.
  unfold stopTracking, completions.
  destruct (isActive st); [destruct (timer st)|]; reflexivity.
Qed.

(** A terminal payload that carries no [error] stops the poller and is
    handed to the completion callback. *)
Lemma progress_terminal_stops code data st n :
  timer_inv st -> inflight st = S n -> http_ok code = true ->
  truthy (get data "error") = false ->
  terminal (get data "status") = true ->
  let st' := settle o (Http code (Some data)) st in
  isActive st' = false /\ timer st' = None /\ intervals st' = []
  /\ fetched st' = fetched st
  /\ completions st'
     = (completions st ++ if hasOnComplete o then [data] else [])%list.
Proof.
  intros Hinv Hn Hok Herr Hterm. simpl.
  unfold settle. rewrite Hn, Hok. unfold onSuccess. rewrite Herr, Hterm.
  match goal with |- context [stopTracking ?s] => set (s3 := s) end.
  assert (H3 : timer_inv s3).
  { subst s3. apply timer_inv_emit_if. unfold timer_inv in *. simpl. exact Hinv. }
  destruct (stop_clears s3 H3) as [Ht Hi].
  pose proof (stop_inactive s3) as Ha.
  pose proof (stop_fetched s3) as Hf.
  pose proof (stop_completions s3) as Hc.
  assert (Hf3 : fetched s3 = fetched st)
    by (subst s3; unfold fetched; destruct (hasOnUpdate o); reflexivity).
  assert (Hc3 : completions s3 = completions st)
    by (subst s3; unfold completions; destruct (hasOnUpdate o); reflexivity).
  destruct (hasOnComplete o); unfold emit_if.
  - change (isActive (emit (OnComplete data) (stopTracking s3)))
      with (isActive (stopTracking s3)).
    change (timer (emit (OnComplete data) (stopTracking s3)))
      with (timer (stopTracking s3)).
    change (intervals (emit (OnComplete data) (stopTracking s3)))
      with (intervals (stopTracking s3)).
    change (fetched (emit (OnComplete data) (stopTracking s3)))
      with (fetched (stopTracking s3)).
    change (completions (emit (OnComplete data) (stopTracking s3)))
      with (completions (stopTracking s3) ++ [data])%list.
    rewrite Ha, Ht, Hi, Hf, Hf3, Hc, Hc3. auto.
  - rewrite Ha, Ht, Hi, Hf, Hf3, Hc, Hc3, app_nil_r. auto.
Qed.

(** Once stopped, timer ticks and late responses send nothing. *)
Lemma stopped_sends_nothing st e :
  intervals st = [] -> isActive st = false ->
  match e with CallStart => False | _ => True end ->
  fetched (step o st e) = fetched st
  /\ intervals (step o st e) = [] /\ isActive (step o st e) = false.
Proof.
  intros Hi Ha He. destruct e as [| |id|r]; simpl; try contradiction.
  - unfold stopTracking. rewrite Ha. auto.
  - unfold tick. rewrite Hi. simpl. auto.
  - unfold settle. destruct (inflight st) as [|n]; [auto|].
    assert (Hf : forall m s, intervals s = [] -> isActive s = false ->
              fetched s = fetched st ->
              fetched (onFailure o m s) = fetched st
              /\ intervals (onFailure o m s) = []
              /\ isActive (onFailure o m s) = false).
    { intros m s His Has Hfs. unfold onFailure.
      destruct (Nat.ltb _ _); unfold stopTracking; simpl; rewrite ?Has;
        destruct (hasOnError o); simpl; auto. }
    destruct r as [|code [d|]]; [| destruct (http_ok code) ..];
      try (apply Hf; [exact Hi | exact Ha | reflexivity]).
    unfold onSuccess. destruct (truthy (get d "error"));
      [apply Hf; [exact Hi | exact Ha | reflexivity]|].
    destruct (terminal _); unfold stopTracking; simpl; rewrite ?Ha;
      destruct (hasOnUpdate o), (hasOnComplete o); simpl; auto.
Qed.

End JobProgressTerminal.

(** C2 (the code at the failing inputs): a JobProgress poll that returns
    the terminal payload [{status: "failed", error: "boom"}] leaves the
    instance active with its timer running, calls no completion callback,
    and the next tick sends a second request; a StatusUpdater poll that
    returns [{status: "cancelled"}] arms the next poll, which sends a
    second request. *)
Theorem C2_terminal_payload_keeps_polling :
  (let st := JobProgress.run Samples.progress_options JobProgress.init
               [JobProgress.CallStart;
                JobProgress.Settles (Http 200 (Some Samples.failed_job))] in
   JobProgress.terminal (get Samples.failed_job "status") = true
   /\ JobProgress.isActive st = true
   /\ JobProgress.timer st = Some 1%nat
   /\ JobProgress.intervals st = [(1%nat, 3000)]
   /\ JobProgress.completions st = []
   /\ length (JobProgress.fetched
                (JobProgress.step Samples.progress_options st
                   (JobProgress.TimerFires 1))) = 2%nat)
  /\ (let st := StatusUpdater.run StatusUpdater.defaults StatusUpdater.init
                  [StatusUpdater.CallStart (JStr "j1");
                   StatusUpdater.Settles
                     (Http 200
                        (Some {| StatusUpdater.top := Samples.cancelled_job;
                                 StatusUpdater.job := None |}))] in
      StatusUpdater.timeouts st = [(1%nat, 2000)]
      /\ length (StatusUpdater.fetched
                   (StatusUpdater.step StatusUpdater.defaults st
                      (StatusUpdater.TimerFires 1))) = 2%nat).
Proof. vm_compute. repeat split; reflexivity. Qed.

(** ** One request at a time? *)

(** Calling startPolling again while a request is in flight starts a
    second chain: the old request still settles, and two requests are in
    flight meanwhile. *)
Example updater_restart_in_flight :
  StatusUpdater.inflight
    (StatusUpdater.run StatusUpdater.defaults StatusUpdater.init
       [StatusUpdater.CallStart (JStr "j1"); StatusUpdater.CallStart (JStr "j1")])
  = 2%nat.
Proof. reflexivity. Qed.

(** C4, counterexample: a JobProgress instance whose timer ticks before
    the first response arrives has two requests in flight, and so has
    the banner. *)
Lemma C4_counterexample :
  JobProgress.inflight
    (JobProgress.run Samples.progress_options JobProgress.init
       [JobProgress.CallStart; JobProgress.TimerFires 1]) = 2%nat
  /\ JobStatusBanner.inflightActive
       (JobStatusBanner.run JobStatusBanner.defaults
          (JobStatusBanner.construct JobStatusBanner.defaults 0
             (fun _ => None) JobStatusBanner.NoItem)
          [JobStatusBanner.TimerFires 1]) = 2%nat.
Proof. split; reflexivity. Qed.

(** ** Progress bar *)

Section BannerPaint.
Import JobStatusBanner.

Lemma paint_progress old status progress p :
  paint old status progress = Some p ->
  barWidth p = assign_width progress old
  /\ progressText p = to_string progress +:+ "%".
Proof.
  unfold paint. destruct (formatStatus status), (getStatusClass status);
    try discriminate.
  intros [= <-]. auto.
Qed.

Lemma updateBanner_painted o now jobData st st' :
  truthy (get jobData "id") = true ->
  updateBanner o now jobData st = (st', true) ->
  exists p, painted st' = Some p
    /\ barWidth p
       = assign_width (or_else (get jobData "progress_percent") (JNum 0))
           (currentWidth (painted st))
    /\ progressText p
       = to_string (or_else (get jobData "progress_percent") (JNum 0)) +:+ "%".
Proof.
  intros Hid. unfold updateBanner. rewrite Hid. simpl.
  destruct (paint _ _ _) as [p|] eqn:Hp; [|discriminate].
  intros [= <-]. exists p. split; [reflexivity|].
  apply (paint_progress _ _ _ _ Hp).
Qed.

End BannerPaint.

(** C3, counterexample: for progress_percent 150 the three renderers
    turn a bar that showed 7% into one of width 150% (and JobProgress
    and StatusUpdater set aria-valuenow to 150), not the clamped 100;
    for -5 aria-valuenow becomes -5, not the clamped 0, and the width
    stays at 7%. *)
Lemma C3_counterexample :
  Spec.clamp 150 0 100 = 100 /\ Spec.clamp (-5) 0 100 = 0
  /\ JobProgress.width
       (JobProgress.paintBar Samples.over_progress Samples.progress_bar_at_7)
     = "150%"
  /\ JobProgress.valuenow
       (JobProgress.paintBar Samples.over_progress Samples.progress_bar_at_7)
     = "150"
  /\ StatusUpdater.width
       (StatusUpdater.paintBar Samples.over_progress Samples.page_bar_at_7)
     = "150%"
  /\ StatusUpdater.valuenow
       (StatusUpdater.paintBar Samples.over_progress Samples.page_bar_at_7)
     = "150"
  /\ (JobStatusBanner.barWidth <$>
        JobStatusBanner.painted
          (fst (JobStatusBanner.updateBanner JobStatusBanner.defaults 0
                  Samples.over_progress
                  (JobStatusBanner.fresh JobStatusBanner.NoItem))))
     = Some "150%"
  /\ JobProgress.valuenow
       (JobProgress.paintBar Samples.negative_progress
          Samples.progress_bar_at_7)
     = "-5"
  /\ JobProgress.width
       (JobProgress.paintBar Samples.negative_progress
          Samples.progress_bar_at_7)
     = "7%".
Proof. vm_compute. repeat split; reflexivity. Qed.

(** C3 (amended): for every status payload the renderers write
    progress_percent without clamping.  With p the value of
    progress_percent, or 0 when that is missing or falsy, aria-valuenow
    becomes p and the text "p%" is assigned to the width of the bar
    (JobProgress.updateDisplay, StatusUpdater.updateProgressBar, and,
    with the progress text, JobStatusBanner.updateBanner); the browser
    keeps an assigned width that is valid and leaves the width as it was
    otherwise.  For a number p the width becomes "p%" exactly when p is
    not negative, also above 100, and p is clamp(p, 0, 100) exactly when
    it lies in [0,100]. *)
Theorem C3_progress_written_unclamped (data : obj) :
  let p := or_else (get data "progress_percent") (JNum 0) in
  (forall b,
     JobProgress.valuenow (JobProgress.paintBar data b) = to_string p
     /\ JobProgress.width (JobProgress.paintBar data b)
        = if width_accepted p then to_string p +:+ "%"
          else JobProgress.width b)
  /\ (forall b,
        StatusUpdater.valuenow (StatusUpdater.paintBar data b) = to_string p
        /\ StatusUpdater.width (StatusUpdater.paintBar data b)
           = if width_accepted p then to_string p +:+ "%"
             else StatusUpdater.width b)
  /\ (forall o now st st',
        truthy (get data "id") = true ->
        JobStatusBanner.updateBanner o now data st = (st', true) ->
        exists painted,
          JobStatusBanner.painted st' = Some painted
          /\ JobStatusBanner.barWidth painted
             = (if width_accepted p then to_string p +:+ "%"
                else JobStatusBanner.currentWidth (JobStatusBanner.painted st))
          /\ JobStatusBanner.progressText painted = to_string p +:+ "%")
  /\ (truthy (get data "progress_percent") = false -> p = JNum 0)
  /\ (forall z, get data "progress_percent" = JNum z ->
        p = JNum z
        /\ width_accepted p = (0 <=? z)
        /\ (p = JNum (Spec.clamp z 0 100) <-> 0 <= z <= 100)).
Proof.
  intros p.
  split; [intros b; split; reflexivity|].
  split; [intros b; split; reflexivity|].
  split; [intros o now st st'; apply updateBanner_painted|].
  split.
  - intros H. subst p. unfold or_else. rewrite H. reflexivity.
  - intros z H.
    assert (Hp : p = JNum z).
    { subst p. unfold or_else. rewrite H. simpl.
      destruct (Z.eqb_spec z 0) as [->|]; reflexivity. }
    split; [exact Hp|]. rewrite Hp. split; [reflexivity|].
    unfold Spec.clamp. split.
    + intros [= E]. lia.
    + intros Hz. f_equal. lia.
Qed.

Lemma C3_progress_written_unclamped_witness :
  get Samples.over_progress "progress_percent" = JNum 150
  /\ or_else (get Samples.over_progress "progress_percent") (JNum 0)
     = JNum 150
  /\ JobProgress.width
       (JobProgress.paintBar Samples.over_progress Samples.progress_bar_at_7)
     = "150%"
  /\ JobProgress.width
       (JobProgress.paintBar Samples.negative_progress
          Samples.progress_bar_at_7)
     = "7%"
  /\ truthy (get Samples.pending_job "progress_percent") = false
  /\ or_else (get Samples.pending_job "progress_percent") (JNum 0) = JNum 0
  /\ truthy (get Samples.over_progress "id") = true
  /\ (exists painted,
        JobStatusBanner.painted
          (fst (JobStatusBanner.updateBanner JobStatusBanner.defaults 0
                  Samples.over_progress
                  (JobStatusBanner.fresh JobStatusBanner.NoItem)))
        = Some painted
        /\ JobStatusBanner.barWidth painted = "150%").
Proof.
  destruct (C3_progress_written_unclamped Samples.over_progress)
    as (Hw & _ & Hb & _ & Hz).
  destruct (C3_progress_written_unclamped Samples.negative_progress)
    as (Hn & _ & _ & _ & _).
  destruct (C3_progress_written_unclamped Samples.pending_job)
    as (_ & _ & _ & H0 & _).
  destruct (Hz 150 eq_refl) as [Hp _].
  split; [reflexivity|]. split; [exact Hp|].
  split; [rewrite (proj2 (Hw Samples.progress_bar_at_7)); reflexivity|].
  split; [rewrite (proj2 (Hn Samples.progress_bar_at_7)); reflexivity|].
  split; [reflexivity|]. split; [apply H0; reflexivity|].
  split; [reflexivity|].
  destruct (Hb JobStatusBanner.defaults 0
              (JobStatusBanner.fresh JobStatusBanner.NoItem)
              (fst (JobStatusBanner.updateBanner JobStatusBanner.defaults 0
                      Samples.over_progress
                      (JobStatusBanner.fresh JobStatusBanner.NoItem)))
              eq_refl eq_refl) as (painted & Hpt & Hbw & _).
  exists painted. split; [exact Hpt|]. rewrite Hbw. reflexivity.
Defined.

(** ** Phase indicators *)

(** C5, counterexample: with current phase extracting, the
    specification's list marks sending complete but
    JobProgress.updatePhaseDisplay marks it pending; for the details
    "preparing and sending" the listed priority gives preparing but
    StatusUpdater derives sending; and JobProgress renders no phase at
    all for a payload without current_phase. *)
Lemma C5_counterexample :
  Spec.phaseClass "extracting" "sending" = Some JobProgress.PhaseComplete
  /\ JobProgress.phaseClass (JStr "extracting") "sending"
     = JobProgress.PhasePending
  /\ Spec.derivePhase "preparing and sending" = "preparing"
  /\ StatusUpdater.currentPhase Samples.two_keywords = Some "sending"
  /\ JobProgress.displayPhases true (fun _ => true) Samples.two_keywords = None.
Proof. vm_compute. repeat split; reflexivity. Qed.

(** C5 (amended): JobProgress.updatePhaseDisplay orders the phases
    [initializing, preparing, extracting, processing, sending,
    completed]: given a current phase of that list, the phases before it
    are marked complete, the current one active and the later ones
    pending; JobProgress renders phases only when current_phase is given
    and derives nothing from processing_details.  StatusUpdater uses the
    list [initializing, preparing, sending, extracting, processing,
    completed]; it takes the phase completed when the status is
    completed, and otherwise the first keyword found in the text of
    processing_details in the priority extracting/extraction, processing,
    sending, preparing, defaulting to initializing, which is also the
    phase when processing_details is missing or empty; the indicators up
    to and including the current phase are marked active and the later
    ones are not. *)
Theorem C5_phase_marking :
  (forall i j current name,
     JobProgress.phaseElements !! i = Some current ->
     JobProgress.phaseElements !! j = Some name ->
     JobProgress.phaseClass (JStr current) name
     = if Nat.ltb j i then JobProgress.PhaseComplete
       else if Nat.eqb j i then JobProgress.PhaseActive
       else JobProgress.PhasePending)
  /\ (forall container present data,
        truthy (get data "current_phase") = false ->
        JobProgress.displayPhases container present data = None)
  /\ StatusUpdater.phases = Spec.phases
  /\ (forall data,
        get data "status" = JStr "completed" ->
        StatusUpdater.currentPhase data = Some "completed")
  /\ (forall data,
        get data "status" <> JStr "completed" ->
        (truthy (get data "processing_details") = false ->
         StatusUpdater.currentPhase data = Some "initializing")
        /\ (forall details,
              get data "processing_details" = JStr details ->
              StatusUpdater.currentPhase data
              = Some match List.find (fun kp => includes details (fst kp))
                             StatusUpdater.keyword_priority with
                     | Some kp => snd kp
                     | None => "initializing"
                     end))
  /\ (forall i current,
        StatusUpdater.phases !! i = Some current ->
        StatusUpdater.markIndicators current false StatusUpdater.phases
        = map (fun j => Nat.leb j i) (seq 0 6)).
Proof.
  split; [|split; [|split; [|split; [|split]]]].
  - intros i j current name Hi Hj.
    do 6 (destruct i as [|i]; [injection Hi as <-;
      do 6 (destruct j as [|j]; [injection Hj as <-; reflexivity|]);
      discriminate|]).
    discriminate.
  - intros container present data H. unfold JobProgress.displayPhases.
    rewrite H, andb_false_r. reflexivity.
  - reflexivity.
  - intros data H. unfold StatusUpdater.currentPhase. rewrite H. reflexivity.
  - intros data Hs. unfold StatusUpdater.currentPhase.
    unfold strict_eq. rewrite bool_decide_eq_false_2 by exact Hs.
    split.
    + intros Hf. unfold or_else. rewrite Hf. reflexivity.
    + intros details Hd. rewrite Hd. unfold or_else. simpl.
      destruct (String.eqb details "") eqn:He.
      * apply String.eqb_eq in He. subst details. reflexivity.
      * simpl. destruct (includes details "extracting"); [reflexivity|].
        destruct (includes details "extraction"); [reflexivity|].
        destruct (includes details "processing"); [reflexivity|].
        destruct (includes details "sending"); [reflexivity|].
        destruct (includes details "preparing"); reflexivity.
  - intros i current Hi.
    do 6 (destruct i as [|i]; [injection Hi as <-; reflexivity|]).
    discriminate.
Qed.

Lemma C5_phase_marking_witness :
  JobProgress.phaseElements !! 2%nat = Some "extracting"
  /\ JobProgress.phaseElements !! 4%nat = Some "sending"
  /\ JobProgress.phaseClass (JStr "extracting") "sending"
     = JobProgress.PhasePending
  /\ JobProgress.displayPhases true (fun _ => true) Samples.two_keywords = None
  /\ StatusUpdater.currentPhase Samples.two_keywords = Some "sending"
  /\ StatusUpdater.currentPhase Samples.pending_job = Some "initializing"
  /\ StatusUpdater.currentPhase {[ "status" := JStr "completed" ]}
     = Some "completed"
  /\ StatusUpdater.markIndicators "sending" false StatusUpdater.phases
     = [true; true; true; false; false; false].
Proof.
  destruct C5_phase_marking as (Hjp & Hno & _ & Hdone & Hsu & Hmark).
  assert (H2 : get Samples.two_keywords "status" <> JStr "completed")
    by (vm_compute; discriminate).
  assert (H3 : get Samples.pending_job "status" <> JStr "completed")
    by (vm_compute; discriminate).
  split; [reflexivity|]. split; [reflexivity|].
  split; [apply (Hjp 2%nat 4%nat "extracting" "sending"); reflexivity|].
  split; [apply Hno; reflexivity|].
  split.
  - rewrite (proj2 (Hsu Samples.two_keywords H2) "preparing and sending"
               eq_refl).
    reflexivity.
  - split; [apply (proj1 (Hsu Samples.pending_job H3)); reflexivity|].
    split; [apply Hdone; reflexivity|].
    rewrite (Hmark 2%nat "sending" eq_refl). reflexivity.
Defined.

(** ** Status badge *)

Ltac case_eqb :=
  repeat match goal with
         | |- context [String.eqb ?a ?b] =>
             lazymatch a with
             | String _ _ => fail
             | EmptyString => fail
             | _ => destruct (String.eqb_spec a b) as [->|?]; try reflexivity
             end
         end.

Section BadgeTables.

Lemma updater_badge_table (data : obj) (s : string) :
  get data "status" = JStr s ->
  StatusUpdater.updateStatusBadge data
  = if existsb (String.eqb s)
         ["pending"; "in_progress"; "processing"; "waiting"; "extracting";
          "completed"; "error"; "failed"]
    then (fst (Spec.badge s), "bg-" +:+ snd (Spec.badge s) +:+ " badge")
    else ("Unknown", "bg-secondary badge").
Proof.
  intros H. unfold StatusUpdater.updateStatusBadge, Spec.badge. rewrite H.
  cbn [existsb]. case_eqb.
Qed.

Lemma updater_badge_other (data : obj) :
  (forall s, get data "status" <> JStr s) ->
  StatusUpdater.updateStatusBadge data = ("Unknown", "bg-secondary badge").
Proof.
  intros H. unfold StatusUpdater.updateStatusBadge.
  destruct (get data "status") as [| | | |s]; try reflexivity.
  destruct (H s eq_refl).
Qed.

Lemma toLowerCase_nonempty s : s <> "" -> toLowerCase s <> "".
Proof. destruct s; [congruence | discriminate]. Qed.

Lemma banner_badge_table (s : string) :
  s <> "" ->
  JobStatusBanner.formatStatus (JStr s)
  = Some (if existsb (String.eqb (toLowerCase s))
               ["waiting"; "processing"; "completed"; "error"; "failed";
                "cancelled"]
          then fst (Spec.badge (toLowerCase s))
          else if String.eqb (toLowerCase s) "running" then "Running"
          else capitalize s)
  /\ JobStatusBanner.getStatusClass (JStr s)
     = Some (if existsb (String.eqb (toLowerCase s))
                  ["waiting"; "processing"; "completed"; "error"; "failed";
                   "cancelled"]
             then "bg-" +:+ snd (Spec.badge (toLowerCase s))
             else if String.eqb (toLowerCase s) "running" then "bg-primary"
             else if String.eqb (toLowerCase s) "warning" then "bg-warning"
             else "bg-secondary").
Proof.
  intros Hs.
  unfold JobStatusBanner.formatStatus, JobStatusBanner.getStatusClass,
    Spec.badge.
  assert (Ht : truthy (JStr s) = true).
  { simpl. destruct (String.eqb_spec s ""); [contradiction | reflexivity]. }
  rewrite Ht. cbn [negb existsb].
  generalize (toLowerCase s). intros l.
  split; f_equal; case_eqb.
Qed.

Lemma progress_status_text (data : obj) (s : string) :
  get data "status" = JStr s ->
  existsb (String.eqb s)
    ["in_progress"; "processing"; "completed"; "error"; "failed"] = false ->
  JobProgress.statusText data = Some (fst (Spec.badge s)).
Proof.
  intros H Hn. unfold JobProgress.statusText, Spec.badge, strict_eq.
  rewrite H. cbn [existsb] in Hn.
  repeat (apply orb_false_iff in Hn as [? Hn]).
  repeat match goal with
         | E : String.eqb s ?x = false |- _ =>
             rewrite (bool_decide_eq_false_2 (JStr s = JStr x))
               by (intros [= ->]; rewrite String.eqb_refl in E; discriminate);
             rewrite ?E; clear E
         end.
  cbn [orb].
  destruct (String.eqb_spec s "cancelled") as [->|Hc]; [reflexivity|].
  rewrite (bool_decide_eq_false_2 (JStr s = JStr "cancelled"))
    by (intros [= ->]; contradiction).
  case_eqb.
Qed.

End BadgeTables.

(** C6, counterexample: the banner renders pending as "Pending" with
    class bg-secondary (the table says warning) and in_progress as
    "In_progress"; StatusUpdater renders cancelled as "Unknown"; and the
    JobProgress status text for a processing job is "Processing (2 of 5
    documents)". *)
Lemma C6_counterexample :
  Spec.badge "pending" = ("Pending", "warning")
  /\ JobStatusBanner.getStatusClass (JStr "pending") = Some "bg-secondary"
  /\ Spec.badge "in_progress" = ("Processing", "primary")
  /\ JobStatusBanner.formatStatus (JStr "in_progress") = Some "In_progress"
  /\ Spec.badge "cancelled" = ("Cancelled", "secondary")
  /\ StatusUpdater.updateStatusBadge Samples.cancelled_job
     = ("Unknown", "bg-secondary badge")
  /\ JobProgress.statusText Samples.processing_2_of_5
     = Some "Processing (2 of 5 documents)".
Proof. vm_compute. repeat split; reflexivity. Qed.

(** C6 (amended): StatusUpdater.updateStatusBadge renders the table for
    pending, in_progress, processing, waiting, extracting, completed,
    error and failed (class "bg-<class> badge"), and "Unknown" with
    bg-secondary for every other status, cancelled included.  The banner
    lower-cases the status and renders the table for waiting, processing,
    completed, error, failed and cancelled, "Running"/bg-primary for
    running, and for any other status the raw status capitalized with
    bg-secondary (bg-warning for warning): so pending, in_progress and
    extracting get bg-secondary there.  The JobProgress status text is
    the table's text for cancelled and for every status outside
    in_progress, processing, completed, error and failed. *)
Theorem C6_badge_tables :
  (forall (data : obj) s,
     get data "status" = JStr s ->
     StatusUpdater.updateStatusBadge data
     = if existsb (String.eqb s)
          ["pending"; "in_progress"; "processing"; "waiting"; "extracting";
           "completed"; "error"; "failed"]
       then (fst (Spec.badge s), "bg-" +:+ snd (Spec.badge s) +:+ " badge")
       else ("Unknown", "bg-secondary badge"))
  /\ (forall s,
        s <> "" ->
        JobStatusBanner.formatStatus (JStr s)
        = Some (if existsb (String.eqb (toLowerCase s))
                     ["waiting"; "processing"; "completed"; "error"; "failed";
                      "cancelled"]
                then fst (Spec.badge (toLowerCase s))
                else if String.eqb (toLowerCase s) "running" then "Running"
                else capitalize s)
        /\ JobStatusBanner.getStatusClass (JStr s)
           = Some (if existsb (String.eqb (toLowerCase s))
                        ["waiting"; "processing"; "completed"; "error";
                         "failed"; "cancelled"]
                   then "bg-" +:+ snd (Spec.badge (toLowerCase s))
                   else if String.eqb (toLowerCase s) "running"
                   then "bg-primary"
                   else if String.eqb (toLowerCase s) "warning"
                   then "bg-warning"
                   else "bg-secondary"))
  /\ (forall (data : obj) s,
        get data "status" = JStr s ->
        existsb (String.eqb s)
          ["in_progress"; "processing"; "completed"; "error"; "failed"]
        = false ->
        JobProgress.statusText data = Some (fst (Spec.badge s))).
Proof.
  split; [|split].
  - apply updater_badge_table.
  - apply banner_badge_table.
  - apply progress_status_text.
Qed.

Lemma C6_badge_tables_witness :
  get Samples.pending_job "status" = JStr "pending"
  /\ StatusUpdater.updateStatusBadge Samples.pending_job
     = ("Pending", "bg-warning badge")
  /\ JobStatusBanner.getStatusClass (JStr "pending") = Some "bg-secondary"
  /\ JobProgress.statusText Samples.pending_job = Some "Pending".
Proof.
  destruct C6_badge_tables as (Hsu & Hb & Hjp).
  split; [reflexivity|]. split; [|split].
  - rewrite (Hsu Samples.pending_job "pending" eq_refl). reflexivity.
  - destruct (Hb "pending") as [_ Hc]; [discriminate|].
    rewrite Hc. reflexivity.
  - rewrite (Hjp Samples.pending_job "pending" eq_refl eq_refl). reflexivity.
Defined.

(** ** The banner: list-active-jobs responses *)

Section BannerInvariant.
Import JobStatusBanner.
Variable o : Options.

Lemma shown_inv_view st st' : view st' = view st -> shown_inv st -> shown_inv st'.
Proof. unfold shown_inv, view. intros [= -> ->]. auto. Qed.

Lemma trackJob_view j st : view (trackJob o j st) = view st.
Proof.
  unfold trackJob. destruct (truthy _); [|reflexivity].
  destruct (persistInStorage o); reflexivity.
Qed.

Lemma fetchJobStatus_view id st : view (fetchJobStatus o id st) = view st.
Proof. unfold fetchJobStatus. destruct (truthy id); reflexivity. Qed.

Lemma checkActiveJobs_view st : view (checkActiveJobs o st) = view st.
Proof.
  unfold checkActiveJobs. destruct (trackedJobs st); [reflexivity|].
  destruct (activeBanner st) as [b|] eqn:Hb; [destruct (strict_eq _ _)|];
    apply fetchJobStatus_view.
Qed.

Lemma fold_trackJob_view jobs st :
  view (fold_left (fun acc job => trackJob o job acc) jobs st) = view st.
Proof.
  revert st. induction jobs as [|j jobs IH]; intros st; simpl; [reflexivity|].
  rewrite IH. apply trackJob_view.
Qed.

Lemma shown_inv_hide st : shown_inv (hideBanner st).
Proof. unfold shown_inv. simpl. discriminate. Qed.

Lemma shown_inv_onActiveJobs jobs st :
  shown_inv st -> shown_inv (onActiveJobs o jobs st).
Proof.
  intros H. unfold onActiveJobs.
  destruct jobs as [[|j rest]|].
  - destruct (activeBanner st) eqn:Hb; [apply shown_inv_hide | exact H].
  - apply (shown_inv_view st); [|exact H].
    rewrite fetchJobStatus_view. apply (fold_trackJob_view (j :: rest)).
  - destruct (activeBanner st) eqn:Hb; [apply shown_inv_hide | exact H].
Qed.

Lemma shown_inv_settleActive r st :
  shown_inv st -> shown_inv (settleActive o r st).
Proof.
  intros H. unfold settleActive. destruct (inflightActive st); [exact H|].
  assert (H1 : shown_inv (set_inflight n (inflightStatus st) st)) by exact H.
  destruct r as [|code body]; [exact H1|].
  destruct ((code =? 302) || (code =? 401));
    [apply shown_inv_onActiveJobs, H1|].
  destruct (negb (http_ok code)); [exact H1|].
  destruct body; [apply shown_inv_onActiveJobs, H1 | exact H1].
Qed.

Lemma shown_inv_updateBanner now j st :
  shown_inv st -> shown_inv (fst (updateBanner o now j st)).
Proof.
  intros H. unfold updateBanner.
  destruct (negb (truthy (get j "id"))); [exact H|].
  destruct (paint _ _); simpl.
  - unfold shown_inv. simpl. intros _.
    destruct (_ && _); simpl; discriminate.
  - unfold shown_inv. destruct (_ && _); simpl; discriminate.
Qed.

Lemma shown_inv_settleStatus now r st :
  shown_inv st -> shown_inv (settleStatus o now r st).
Proof.
  intros H. unfold settleStatus. destruct (inflightStatus st); [exact H|].
  assert (H1 : shown_inv (set_inflight (inflightActive st) n st)) by exact H.
  destruct r as [|code [d|]]; try exact H1.
  destruct (http_ok code); [|exact H1].
  destruct (truthy (get d "status")); [|exact H1].
  pose proof (shown_inv_updateBanner now d _ H1) as H2.
  destruct (updateBanner o now d _) as [st2 [|]]; exact H2.
Qed.

Lemma shown_inv_step st e : shown_inv st -> shown_inv (step o st e).
Proof.
  intros H. destruct e; simpl.
  - unfold tick. destruct (existsb _ _); [|exact H].
    apply (shown_inv_view st); [apply checkActiveJobs_view | exact H].
  - unfold hideTimerFires. destruct (List.find _ _) as [[i jid]|]; [|exact H].
    simpl. destruct (activeBanner st) eqn:Hb.
    + destruct (strict_eq _ _); [apply shown_inv_hide|].
      apply (shown_inv_view st); [|exact H].
      unfold view. simpl. rewrite Hb. reflexivity.
    + apply (shown_inv_view st); [|exact H].
      unfold view. simpl. rewrite Hb. reflexivity.
  - apply shown_inv_settleActive, H.
  - apply shown_inv_settleStatus, H.
  - apply shown_inv_hide.
Qed.

Lemma shown_inv_run es st : shown_inv st -> shown_inv (run o st es).
Proof.
  revert st. induction es as [|e es IH]; intros st H; simpl; [exact H|].
  apply IH, shown_inv_step, H.
Qed.

Lemma loadFromStorage_view now parseDate st :
  view (loadFromStorage now parseDate st) = view st.
Proof.
  unfold loadFromStorage. destruct (storage st) as [| |[jobs|]]; reflexivity.
Qed.

Lemma init_view st : view (init o st) = view st.
Proof.
  unfold init. destruct (initialized st); [reflexivity|].
  rewrite checkActiveJobs_view. reflexivity.
Qed.

Lemma shown_inv_construct now parseDate stored :
  shown_inv (construct o now parseDate stored).
Proof.
  apply (shown_inv_view (fresh stored)); [|unfold shown_inv; discriminate].
  unfold construct. rewrite init_view.
  destruct (persistInStorage o); [apply loadFromStorage_view | reflexivity].
Qed.

(** How a 302 or 401 answer is handled, in any state. *)
Lemma unauthorized_settle code body st n :
  inflightActive st = S n -> code = 302 \/ code = 401 ->
  settleActive o (Http code body) st
  = settleActive o (Http 200 (Some (Some []))) st
  /\ settleActive o (Http code body) st
     = match activeBanner st with
       | Some _ => hideBanner (set_inflight n (inflightStatus st) st)
       | None => set_inflight n (inflightStatus st) st
       end.
Proof.
  intros Hn Hc. unfold settleActive. rewrite Hn.
  assert (E : (code =? 302) || (code =? 401) = true)
    by (destruct Hc as [-> | ->]; reflexivity).
  rewrite E. split; reflexivity.
Qed.

End BannerInvariant.

(** C7: in any state the banner reaches from its constructor, a 302 or
    401 answer to the list-active-jobs request is handled exactly as a
    200 answer with an empty active_jobs list: nothing is logged as an
    error, the banner is hidden afterwards, the tracked jobs and the
    repeating timer are untouched and no request is sent; the next tick
    runs checkActiveJobs as usual. *)
Theorem C7_unauthorized_is_empty_list
    (o : JobStatusBanner.Options) (now : Z) (parseDate : jsval -> option Z)
    (stored : JobStatusBanner.Stored) (es : list JobStatusBanner.Event)
    (code : Z) (body : option (option (list obj))) :
  let st := JobStatusBanner.run o
              (JobStatusBanner.construct o now parseDate stored) es in
  JobStatusBanner.inflightActive st <> 0%nat ->
  code = 302 \/ code = 401 ->
  let st' := JobStatusBanner.settleActive o (Http code body) st in
  st' = JobStatusBanner.settleActive o (Http 200 (Some (Some []))) st
  /\ JobStatusBanner.console_errors st' = JobStatusBanner.console_errors st
  /\ JobStatusBanner.fetched st' = JobStatusBanner.fetched st
  /\ JobStatusBanner.activeBanner st' = None
  /\ JobStatusBanner.shown st' = false
  /\ JobStatusBanner.trackedJobs st' = JobStatusBanner.trackedJobs st
  /\ JobStatusBanner.pollTimer st' = JobStatusBanner.pollTimer st
  /\ JobStatusBanner.intervals st' = JobStatusBanner.intervals st
  /\ (forall id,
        existsb (fun t => Nat.eqb (fst t) id) (JobStatusBanner.intervals st')
        = true ->
        JobStatusBanner.step o st' (JobStatusBanner.TimerFires id)
        = JobStatusBanner.checkActiveJobs o st').
Proof.
  intros st Hn Hc st'.
  assert (Hinv : JobStatusBanner.shown_inv st)
    by (apply shown_inv_run, shown_inv_construct).
  destruct (JobStatusBanner.inflightActive st) as [|n] eqn:En; [congruence|].
  destruct (unauthorized_settle o code body st n En Hc) as [Heq Hst].
  split; [exact Heq|]. subst st'. rewrite Hst.
  unfold JobStatusBanner.shown_inv in Hinv.
  assert (Htick : forall s id,
    existsb (fun t => Nat.eqb (fst t) id) (JobStatusBanner.intervals s) = true ->
    JobStatusBanner.step o s (JobStatusBanner.TimerFires id)
    = JobStatusBanner.checkActiveJobs o s).
  { intros s id H. simpl. unfold JobStatusBanner.tick. rewrite H. reflexivity. }
  destruct (JobStatusBanner.activeBanner st) as [b|] eqn:Hb.
  - repeat split; try reflexivity; apply Htick.
  - assert (Hs : JobStatusBanner.shown st = false).
    { destruct (JobStatusBanner.shown st); [|reflexivity].
      destruct (Hinv eq_refl). reflexivity. }
    repeat split; try reflexivity; try apply Htick; simpl; assumption.
Qed.

Lemma C7_unauthorized_is_empty_list_witness :
  let st := JobStatusBanner.construct JobStatusBanner.defaults 0
              (fun _ => None) JobStatusBanner.NoItem in
  JobStatusBanner.inflightActive st <> 0%nat
  /\ (401 = 302 \/ 401 = 401)
  /\ JobStatusBanner.settleActive JobStatusBanner.defaults (Http 401 None) st
     = JobStatusBanner.settleActive JobStatusBanner.defaults
         (Http 200 (Some (Some []))) st
  /\ JobStatusBanner.shown
       (JobStatusBanner.settleActive JobStatusBanner.defaults (Http 401 None) st)
     = false.
Proof.
  assert (Hn : JobStatusBanner.inflightActive
                 (JobStatusBanner.construct JobStatusBanner.defaults 0
                    (fun _ => None) JobStatusBanner.NoItem) <> 0%nat)
    by discriminate.
  destruct (C7_unauthorized_is_empty_list JobStatusBanner.defaults 0
              (fun _ => None) JobStatusBanner.NoItem [] 401 None Hn
              (or_intror eq_refl)) as (Heq & _ & _ & _ & Hs & _).
  split; [exact Hn|]. split; [right; reflexivity|].
  split; [exact Heq | exact Hs].
Defined.

(** ** The tracked-jobs list *)

Section TrackedJobs.
Import JobStatusBanner.

Lemma findIndex_Some {A : Type} (p : A -> bool) (l : list A) i :
  findIndex p l = Some i -> exists x, l !! i = Some x /\ p x = true.
Proof.
  revert i. induction l as [|x l IH]; intros i; simpl; [discriminate|].
  destruct (p x) eqn:Hp.
  - intros [= <-]. exists x. auto.
  - destruct (findIndex p l) as [k|]; [|discriminate].
    intros [= <-]. destruct (IH k eq_refl) as (y & Hy & Hpy).
    exists y. auto.
Qed.

Lemma findIndex_None {A : Type} (p : A -> bool) (l : list A) :
  findIndex p l = None -> Forall (fun x => p x = false) l.
Proof.
  induction l as [|x l IH]; simpl; [constructor|].
  destruct (p x) eqn:Hp; [discriminate|].
  destruct (findIndex p l); [discriminate|]. intros _. constructor; auto.
Qed.

Lemma track_new max (jobData : obj) (tracked : list obj) :
  findIndex (fun job => strict_eq (get job "id") (get jobData "id")) tracked
  = None ->
  track max jobData tracked = take max (jobData :: tracked)
  /\ (length (track max jobData tracked) <= max)%nat.
Proof.
  intros H. unfold track. rewrite H.
  destruct (Nat.ltb_spec max (length (jobData :: tracked))) as [Hlt|Hge].
  - split; [reflexivity|]. rewrite length_take. lia.
  - split; [|exact Hge]. symmetry. apply take_ge. exact Hge.
Qed.

Lemma track_existing max (jobData : obj) (tracked : list obj) i :
  findIndex (fun job => strict_eq (get job "id") (get jobData "id")) tracked
  = Some i ->
  exists old,
    tracked !! i = Some old
    /\ get old "id" = get jobData "id"
    /\ track max jobData tracked = <[i := jobData ∪ old]> tracked
    /\ length (track max jobData tracked) = length tracked.
Proof.
  intros H. unfold track. rewrite H.
  destruct (findIndex_Some _ _ _ H) as (old & Hold & Hp).
  exists old. rewrite Hold. split; [reflexivity|].
  split; [apply bool_decide_eq_true in Hp; exact Hp|].
  split; [reflexivity | apply length_insert].
Qed.

(** [{...old, ...jobData}]: the new job's properties win, the old
    entry's other properties stay. *)
Lemma merged_fields (jobData old : obj) k :
  get (jobData ∪ old) k
  = match jobData !! k with
    | Some v => v
    | None => get old k
    end.
Proof.
  unfold get. rewrite lookup_union.
  destruct (jobData !! k), (old !! k); reflexivity.
Qed.

Lemma track_bound max (jobData : obj) (tracked : list obj) :
  (length tracked <= max)%nat ->
  (length (track max jobData tracked) <= max)%nat.
Proof.
  intros H.
  destruct (findIndex (fun job => strict_eq (get job "id") (get jobData "id"))
              tracked) as [i|] eqn:Hf.
  - destruct (track_existing max jobData tracked i Hf) as (_ & _ & _ & _ & ->).
    exact H.
  - apply (track_new max jobData tracked Hf).
Qed.

Lemma trackJob_tracked o (jobData : obj) st :
  truthy (get jobData "id") = true ->
  trackedJobs (trackJob o jobData st)
  = track (maxTrackedJobs o) jobData (trackedJobs st).
Proof.
  intros H. unfold trackJob. rewrite H.
  destruct (persistInStorage o); reflexivity.
Qed.

Lemma trackJob_bound o (jobData : obj) st :
  (length (trackedJobs st) <= maxTrackedJobs o)%nat ->
  (length (trackedJobs (trackJob o jobData st)) <= maxTrackedJobs o)%nat.
Proof.
  intros H. destruct (truthy (get jobData "id")) eqn:Hid.
  - rewrite (trackJob_tracked o jobData st Hid). apply track_bound, H.
  - unfold trackJob. rewrite Hid. exact H.
Qed.

Lemma filter_all {A : Type} (p : A -> bool) (l : list A) :
  Forall (fun x => p x = true) l -> List.filter p l = l.
Proof.
  induction 1 as [|x l Hx _ IH]; simpl; [reflexivity|].
  rewrite Hx, IH. reflexivity.
Qed.

Lemma loadFromStorage_tracked now parseDate st (jobs : list obj) :
  storage st = Item (Some jobs) ->
  trackedJobs (loadFromStorage now parseDate st)
  = List.filter (keep_stored now parseDate) jobs
  /\ (length (trackedJobs (loadFromStorage now parseDate st)) <= length jobs)%nat
  /\ (Forall (fun job => get job "status" <> JStr "completed") jobs ->
      trackedJobs (loadFromStorage now parseDate st) = jobs).
Proof.
  intros H. unfold loadFromStorage. rewrite H. simpl.
  split; [reflexivity|]. split; [apply List.filter_length_le|].
  intros Hall. apply filter_all.
  eapply Forall_impl; [exact Hall|]. intros job Hj. simpl in Hj.
  unfold keep_stored, strict_eq.
  rewrite bool_decide_eq_false_2 by exact Hj. reflexivity.
Qed.

End TrackedJobs.

(** ** Anti-forgery token *)

Section SplitFacts.

Lemma string_app_cons a s t : String a s +:+ t = String a (s +:+ t).
Proof. reflexivity. Qed.

Lemma string_app_nil_l t : "" +:+ t = t.
Proof. reflexivity. Qed.

Lemma string_app_nil_r t : t +:+ "" = t.
Proof.
  induction t as [|a t IH]; [reflexivity|].
  rewrite string_app_cons, IH. reflexivity.
Qed.

Lemma string_app_assoc x y z : (x +:+ y) +:+ z = x +:+ (y +:+ z).
Proof.
  induction x as [|a x IH]; [reflexivity|].
  rewrite !string_app_cons, IH. reflexivity.
Qed.

Lemma string_app_length x y :
  String.length (x +:+ y) = (String.length x + String.length y)%nat.
Proof.
  induction x as [|a x IH]; [reflexivity|].
  rewrite string_app_cons. simpl. rewrite IH. reflexivity.
Qed.

Lemma rev_app_rev_app s cur acc :
  String.rev_app (String.rev_app s cur) acc = String.rev_app cur (s +:+ acc).
Proof.
  revert cur acc. induction s as [|a s IH]; intros cur acc; simpl.
  - reflexivity.
  - rewrite IH. reflexivity.
Qed.

Lemma rev_app_app cur acc s :
  String.rev_app cur (acc +:+ s) = String.rev_app cur acc +:+ s.
Proof.
  revert acc. induction cur as [|a cur IH]; intros acc; simpl; [reflexivity|].
  rewrite <- IH. reflexivity.
Qed.

Lemma rev_rev_app s cur :
  String.rev (String.rev_app s cur) = String.rev cur +:+ s.
Proof.
  unfold String.rev. rewrite rev_app_rev_app, string_app_nil_r.
  rewrite <- rev_app_app. reflexivity.
Qed.

Lemma prefix_miss c sep a rest :
  Ascii.eqb a c = false -> String.prefix (String c sep) (String a rest) = false.
Proof.
  intros H. simpl. destruct (ascii_dec c a) as [->|]; [|reflexivity].
  rewrite Ascii.eqb_refl in H. discriminate.
Qed.

(** A string without the first character of the separator is one piece. *)
Lemma split_go_no_sep c sep s cur fuel :
  no_char c s = true -> (String.length s < fuel)%nat ->
  split_go fuel (String c sep) s cur = [String.rev (String.rev_app s cur)].
Proof.
  revert cur fuel. induction s as [|a s IH]; intros cur fuel Hs Hf;
    (destruct fuel as [|fuel]; [inversion Hf|]).
  - reflexivity.
  - simpl in Hs. apply andb_true_iff in Hs as [Ha Hs].
    apply negb_true_iff in Ha.
    cbn [split_go]. rewrite (prefix_miss c sep a s Ha).
    apply IH; [exact Hs | simpl in Hf; lia].
Qed.

Lemma substring_all s : String.substring 0 (String.length s) s = s.
Proof. induction s as [|a s IH]; simpl; [|rewrite IH]; reflexivity. Qed.

(** Up to the first separator character. *)
Lemma split_go_single_hit c p v cur fuel :
  no_char c p = true ->
  (String.length (p +:+ String c v) < fuel)%nat ->
  split_go fuel (String c "") (p +:+ String c v) cur
  = String.rev (String.rev_app p cur)
    :: split_go (fuel - S (String.length p)) (String c "") v "".
Proof.
  revert cur fuel. induction p as [|a p IH]; intros cur fuel Hp Hf;
    (destruct fuel as [|fuel]; [inversion Hf|]).
  - rewrite string_app_nil_l. cbn [split_go].
    assert (Hhit : String.prefix (String c "") (String c v) = true).
    { simpl. destruct (ascii_dec c c); [|congruence]. destruct v; reflexivity. }
    rewrite Hhit. f_equal. simpl.
    rewrite Nat.sub_0_r, Nat.sub_0_r, substring_all. reflexivity.
  - simpl in Hp. apply andb_true_iff in Hp as [Ha Hp].
    apply negb_true_iff in Ha.
    rewrite string_app_cons in *. cbn [split_go].
    rewrite (prefix_miss c "" a _ Ha).
    rewrite IH; [reflexivity | exact Hp | simpl in Hf; lia].
Qed.

Lemma split_no_sep c sep s :
  no_char c s = true -> split s (String c sep) = [s].
Proof.
  intros H. unfold split. rewrite split_go_no_sep; [|exact H | lia].
  rewrite rev_rev_app. reflexivity.
Qed.

Lemma split_name_value c name v :
  no_char c name = true -> no_char c v = true ->
  split (name +:+ String c v) (String c "") = [name; v].
Proof.
  intros Hn Hv. unfold split.
  rewrite split_go_single_hit; [|exact Hn | lia].
  rewrite rev_rev_app. f_equal.
  rewrite split_go_no_sep; [rewrite rev_rev_app; reflexivity | exact Hv |].
  rewrite string_app_length. simpl. lia.
Qed.

Lemma no_char_append c x y :
  no_char c (x +:+ y) = no_char c x && no_char c y.
Proof.
  induction x as [|a x IH]; [reflexivity|].
  rewrite string_app_cons. simpl. rewrite IH, andb_assoc. reflexivity.
Qed.

End SplitFacts.

Section TokenFacts.
Import Dom.

(** A cookie that consists of the token alone. *)
Lemma token_from_cookie v meta field :
  v <> "" -> no_char ";" v = true -> no_char "=" v = true ->
  getCsrfToken {| cookie := "csrftoken=" +:+ v; csrf_meta := meta;
                  csrfmiddlewaretoken := field |} = JStr v.
Proof.
  intros Hv Hsemi Heq. unfold getCsrfToken. cbn [cookie csrf_meta].
  rewrite (split_no_sep ";" " " ("csrftoken=" +:+ v))
    by (rewrite no_char_append, Hsemi; reflexivity).
  cbn [List.find]. unfold startsWith.
  assert (Hp : String.prefix "csrftoken=" ("csrftoken=" +:+ v) = true).
  { simpl. destruct v; reflexivity. }
  rewrite Hp.
  change ("csrftoken=" +:+ v) with ("csrftoken" +:+ String "=" v).
  rewrite (split_name_value "=" "csrftoken" v eq_refl Heq).
  unfold index. simpl.
  destruct (String.eqb_spec v ""); [contradiction | reflexivity].
Qed.

(** Without cookies the meta tag decides. *)
Lemma token_from_meta doc :
  cookie doc = "" ->
  getCsrfToken doc
  = match csrf_meta doc with
    | Some (Some content) => JStr content
    | Some None => JNull
    | None => JStr ""
    end.
Proof. intros H. unfold getCsrfToken. rewrite H. reflexivity. Qed.

End TokenFacts.

Section EditorRequests.
Import Dom ColumnEditor.

Lemma saveColumn_token doc apiUrls r :
  saveColumn doc apiUrls = Some r -> carries_form_token doc r.
Proof.
  unfold saveColumn, carries_form_token.
  destruct (csrfmiddlewaretoken doc) as [t|]; [|discriminate].
  intros [= <-]. split; [reflexivity|]. exists t. auto.
Qed.

Lemma deleteColumn_token doc apiUrls confirmed columnId r :
  deleteColumn doc apiUrls confirmed columnId = Some r ->
  carries_form_token doc r.
Proof.
  unfold deleteColumn, carries_form_token.
  destruct confirmed; [|discriminate].
  destruct (csrfmiddlewaretoken doc) as [t|]; [|discriminate].
  destruct apiUrls as [a|]; [destruct (deleteColumnUrl a); [|discriminate]|];
    intros [= <-]; (split; [reflexivity|]); exists t; auto.
Qed.

Lemma applyDefaults_token doc apiUrls confirmed r :
  applyDefaults doc apiUrls confirmed = Some r -> carries_form_token doc r.
Proof.
  unfold applyDefaults, carries_form_token.
  destruct confirmed; [|discriminate].
  destruct (csrfmiddlewaretoken doc) as [t|]; [|discriminate].
  intros [= <-]. split; [reflexivity|]. exists t. auto.
Qed.

Lemma savePrompt_token doc apiUrls promptContent r :
  savePrompt doc apiUrls promptContent = Some r -> carries_form_token doc r.
Proof.
  unfold savePrompt, carries_form_token.
  destruct (blank promptContent); [discriminate|].
  destruct (csrfmiddlewaretoken doc) as [t|]; [|discriminate].
  intros [= <-]. split; [reflexivity|]. exists t. auto.
Qed.

End EditorRequests.

(** C9, at the page of the repository's jest test (the cookie
    csrftoken=test-token and no token field): getCsrfToken finds the
    token and the job-cancel request carries it, but apply defaults,
    column delete, column save and prompt save read the value of a
    field that is not there and send no request; and on a page whose
    cookie and form field hold different tokens their header carries the
    form field's value, not the cookie's. *)
Lemma C9_column_requests_ignore_cookie :
  Dom.getCsrfToken Samples.jest_page = JStr "test-token"
  /\ (Dom.header "X-CSRFToken" <$>
        (Dom.headers <$>
           JobStatusBanner.cancelJob JobStatusBanner.defaults Samples.jest_page
             true (JNum 1)))
     = Some (Some (JStr "test-token"))
  /\ ColumnEditor.applyDefaults Samples.jest_page None true = None
  /\ ColumnEditor.deleteColumn Samples.jest_page None true (JStr "1") = None
  /\ ColumnEditor.saveColumn Samples.jest_page None = None
  /\ ColumnEditor.savePrompt Samples.jest_page None "Extract all." = None
  /\ Dom.getCsrfToken Samples.three_tokens = JStr "AAA"
  /\ (Dom.header "X-CSRFToken" <$>
        (Dom.headers <$>
           ColumnEditor.applyDefaults Samples.three_tokens None true))
     = Some (Some (JStr "BBB"))
  /\ (Dom.header "X-CSRFToken" <$>
        (Dom.headers <$>
           ColumnEditor.deleteColumn Samples.three_tokens None true (JStr "7")))
     = Some (Some (JStr "BBB"))
  /\ (Dom.header "X-CSRFToken" <$>
        (Dom.headers <$> ColumnEditor.saveColumn Samples.three_tokens None))
     = Some (Some (JStr "BBB"))
  /\ (Dom.header "X-CSRFToken" <$>
        (Dom.headers <$>
           ColumnEditor.savePrompt Samples.three_tokens None "Extract all."))
     = Some (Some (JStr "BBB")).
Proof. vm_compute. repeat split; reflexivity. Qed.

(** * Further properties of the modelled code *)

(** ** JobProgress: what a run of the poller does *)

Section JobProgressRuns.
Import JobProgress.
Variable o : Options.

Lemma stopped_run later st :
  intervals st = [] -> isActive st = false ->
  forallb not_start later = true ->
  fetched (run o st later) = fetched st
  /\ isActive (run o st later) = false.
Proof.
  revert st. induction later as [|e later IH]; intros st Hi Ha Hl; simpl.
  - auto.
  - simpl in Hl. apply andb_true_iff in Hl as [He Hl].
    destruct (stopped_sends_nothing o st e Hi Ha) as (Hf & Hi' & Ha').
    { destruct e; simpl in *; [discriminate | exact I ..]. }
    destruct (IH (step o st e) Hi' Ha' Hl) as [Hf' Ha''].
    rewrite Hf', Hf. auto.
Qed.

Lemma onFailure_counts m st :
  pollCount (onFailure o m st) = pollCount st
  /\ fetched (onFailure o m st) = fetched st
  /\ inflight (onFailure o m st) = inflight st.
Proof.
  unfold onFailure, stopTracking, fetched.
  destruct (Nat.ltb _ _); simpl;
    [destruct (isActive st); [destruct (timer st)|]|];
    destruct (hasOnError o); simpl; auto.
Qed.

Lemma onSuccess_counts d st :
  pollCount (onSuccess o d st) = pollCount st
  /\ fetched (onSuccess o d st) = fetched st
  /\ inflight (onSuccess o d st) = inflight st.
Proof.
  unfold onSuccess.
  destruct (truthy (get d "error")); [apply onFailure_counts|].
  unfold stopTracking, fetched.
  destruct (terminal _); simpl;
    [destruct (hasOnUpdate o); simpl;
     (destruct (isActive st); [destruct (timer st)|])|];
    destruct (hasOnUpdate o), (hasOnComplete o); simpl; auto.
Qed.

Lemma fetched_pollStatus st :
  fetched (pollStatus o st) = (fetched st ++ [pollUrl o])%list.
Proof. reflexivity. Qed.

Lemma fetched_startTracking st :
  isActive st = false ->
  fetched (startTracking o st) = (fetched st ++ [pollUrl o])%list
  /\ pollCount (startTracking o st) = S (pollCount st)
  /\ inflight (startTracking o st) = S (inflight st).
Proof. intros H. unfold startTracking. rewrite H. auto. Qed.

Lemma count_inv_step st e : count_inv st -> count_inv (step o st e).
Proof.
  unfold count_inv. intros [Hc Hn]. destruct e as [| |id|r]; simpl.
  - destruct (isActive st) eqn:Ha.
    + unfold startTracking. rewrite Ha. auto.
    + destruct (fetched_startTracking st Ha) as (-> & -> & ->).
      rewrite length_app, <- Hc. simpl. lia.
  - rewrite stop_fetched. unfold stopTracking.
    destruct (isActive st); [destruct (timer st)|]; simpl; auto.
  - unfold tick. destruct (running _ _); [|auto].
    rewrite fetched_pollStatus, length_app, <- Hc. simpl. lia.
  - unfold settle. destruct (inflight st) as [|n] eqn:En; [rewrite En; auto|].
    assert (Hs : forall s,
      pollCount s = pollCount st -> fetched s = fetched st -> inflight s = n ->
      pollCount s = length (fetched s) /\ (inflight s <= pollCount s)%nat).
    { intros s H1 H2 H3. rewrite H1, H2, H3. split; [exact Hc | lia]. }
    destruct r as [|code [d|]]; [| destruct (http_ok code) ..];
      try (match goal with |- context [onFailure o ?m ?s] =>
             destruct (onFailure_counts m s) as (H1 & H2 & H3);
             apply Hs; [rewrite H1 | rewrite H2 | rewrite H3]; reflexivity
           end).
    match goal with |- context [onSuccess o d ?s] =>
      destruct (onSuccess_counts d s) as (H1 & H2 & H3);
      apply Hs; [rewrite H1 | rewrite H2 | rewrite H3]; reflexivity
    end.
Qed.

Lemma count_inv_run es st : count_inv st -> count_inv (run o st es).
Proof.
  revert st. induction es as [|e es IH]; intros st H; simpl; [exact H|].
  apply IH, count_inv_step, H.
Qed.

Lemma count_inv_init : count_inv init.
Proof. split; reflexivity. Qed.

Lemma strict_eq_strings a b : strict_eq (JStr a) (JStr b) = String.eqb a b.
Proof.
  unfold strict_eq. destruct (String.eqb_spec a b) as [->|Hne].
  - apply bool_decide_eq_true_2. reflexivity.
  - apply bool_decide_eq_false_2. intros [= E]. contradiction.
Qed.

End JobProgressRuns.

(** A terminal payload that carries no error ends the polling of a
    JobProgress instance for good: in any state reached from the
    constructor, the response stops the instance, clears its timer, hands
    the payload to onComplete, and whatever timers fire or responses
    arrive later (short of a new startTracking), no request is sent
    again. *)
Theorem progress_terminal_ends_polling
    (o : JobProgress.Options) (es later : list JobProgress.Event)
    (code : Z) (data : obj) :
  let st := JobProgress.run o JobProgress.init es in
  JobProgress.inflight st <> 0%nat ->
  http_ok code = true ->
  truthy (get data "error") = false ->
  JobProgress.terminal (get data "status") = true ->
  forallb JobProgress.not_start later = true ->
  let st' := JobProgress.settle o (Http code (Some data)) st in
  JobProgress.isActive st' = false
  /\ JobProgress.timer st' = None
  /\ JobProgress.intervals st' = []
  /\ JobProgress.completions st'
     = (JobProgress.completions st
        ++ if JobProgress.hasOnComplete o then [data] else [])%list
  /\ JobProgress.fetched (JobProgress.run o st' later) = JobProgress.fetched st
  /\ JobProgress.isActive (JobProgress.run o st' later) = false.
Proof.
  intros st Hn Hok Herr Hterm Hlater st'.
  assert (Hinv : JobProgress.timer_inv st)
    by (apply timer_inv_run, timer_inv_init).
  destruct (JobProgress.inflight st) as [|n] eqn:En; [congruence|].
  destruct (progress_terminal_stops o code data st n Hinv En Hok Herr Hterm)
    as (Ha & Ht & Hi & Hf & Hc).
  fold st' in Ha, Ht, Hi, Hf, Hc.
  destruct (stopped_run o later st' Hi Ha Hlater) as [Hf' Ha'].
  rewrite Hf', Hf.
  split; [exact Ha|]. split; [exact Ht|]. split; [exact Hi|].
  split; [exact Hc|]. split; [reflexivity | exact Ha'].
Qed.

Lemma progress_terminal_ends_polling_witness :
  let st := JobProgress.run Samples.progress_options JobProgress.init
              [JobProgress.CallStart] in
  let data : obj := {[ "status" := JStr "completed" ]} in
  let st' := JobProgress.settle Samples.progress_options
               (Http 200 (Some data)) st in
  JobProgress.inflight st <> 0%nat
  /\ JobProgress.isActive st' = false
  /\ JobProgress.completions st' = [data]
  /\ JobProgress.fetched
       (JobProgress.run Samples.progress_options st'
          [JobProgress.TimerFires 1; JobProgress.CallStop])
     = JobProgress.fetched st.
Proof.
  intros st data st'.
  assert (Hn : JobProgress.inflight st <> 0%nat) by discriminate.
  destruct (progress_terminal_ends_polling Samples.progress_options
              [JobProgress.CallStart]
              [JobProgress.TimerFires 1; JobProgress.CallStop]
              200 data Hn eq_refl eq_refl eq_refl eq_refl)
    as (Ha & _ & _ & Hc & Hf & _).
  split; [exact Hn|]. split; [exact Ha|]. split; [exact Hc | exact Hf].
Defined.

(** The failure threshold of JobProgress counts requests, not
    consecutive errors: in any state reached from the constructor, a
    failed poll leaves the instance tracking exactly when it was tracking
    and at most 10 requests have been sent so far, successful ones
    included; the failure itself never sends a request. *)
Theorem progress_failure_threshold
    (o : JobProgress.Options) (es : list JobProgress.Event)
    (r : Response obj) :
  let st := JobProgress.run o JobProgress.init es in
  JobProgress.inflight st <> 0%nat ->
  is_failure r = true ->
  let st' := JobProgress.settle o r st in
  JobProgress.isActive st'
  = JobProgress.isActive st
    && Nat.leb (length (JobProgress.fetched st)) 10
  /\ JobProgress.fetched st' = JobProgress.fetched st
  /\ JobProgress.pollCount st' = length (JobProgress.fetched st).
Proof.
  intros st Hn Hr st'.
  destruct (count_inv_run o es _ count_inv_init) as [Hc _]. fold st in Hc.
  destruct (JobProgress.inflight st) as [|n] eqn:En; [congruence|].
  subst st'. unfold JobProgress.settle. rewrite En.
  assert (Hf : forall m s,
    JobProgress.pollCount s = JobProgress.pollCount st ->
    JobProgress.isActive s = JobProgress.isActive st ->
    JobProgress.fetched s = JobProgress.fetched st ->
    JobProgress.isActive (JobProgress.onFailure o m s)
    = JobProgress.isActive st && Nat.leb (length (JobProgress.fetched st)) 10
    /\ JobProgress.fetched (JobProgress.onFailure o m s) = JobProgress.fetched st
    /\ JobProgress.pollCount (JobProgress.onFailure o m s)
       = length (JobProgress.fetched st)).
  { intros m s H1 H2 H3.
    destruct (onFailure_counts o m s) as (Hp & Hfe & _).
    rewrite Hp, Hfe, H1, H3, Hc. split; [|auto].
    unfold JobProgress.onFailure. simpl. rewrite H1, Hc.
    destruct (Nat.ltb_spec 10 (length (JobProgress.fetched st))) as [Hlt|Hge].
    - assert (Hl : Nat.leb (length (JobProgress.fetched st)) 10 = false)
        by (apply Nat.leb_gt; exact Hlt).
      rewrite Hl, andb_false_r.
      destruct (JobProgress.hasOnError o); apply stop_inactive.
    - assert (Hl : Nat.leb (length (JobProgress.fetched st)) 10 = true)
        by (apply Nat.leb_le; exact Hge).
      rewrite Hl, andb_true_r.
      destruct (JobProgress.hasOnError o); exact H2. }
  destruct r as [|code body]; simpl in Hr.
  - apply Hf; reflexivity.
  - apply negb_true_iff in Hr. rewrite Hr. apply Hf; reflexivity.
Qed.

Lemma progress_failure_threshold_witness :
  let st := JobProgress.run Samples.progress_options JobProgress.init
              [JobProgress.CallStart; JobProgress.Settles NetworkError;
               JobProgress.TimerFires 1] in
  JobProgress.inflight st <> 0%nat
  /\ is_failure (@Http obj 502 None) = true
  /\ JobProgress.isActive
       (JobProgress.settle Samples.progress_options (Http 502 None) st)
     = JobProgress.isActive st
       && Nat.leb (length (JobProgress.fetched st)) 10.
Proof.
  intros st.
  assert (Hn : JobProgress.inflight st <> 0%nat) by (vm_compute; discriminate).
  split; [exact Hn|]. split; [reflexivity|].
  exact (proj1 (progress_failure_threshold Samples.progress_options
                  [JobProgress.CallStart; JobProgress.Settles NetworkError;
                   JobProgress.TimerFires 1]
                  (Http 502 None) Hn eq_refl)).
Defined.

(** The completion callback of JobProgress is not guarded by the
    tracking flag: every terminal payload without an error field that
    arrives is passed to onComplete, also when the instance has already
    stopped (a response to a request that was still in flight); no
    request is sent and the instance is inactive afterwards. *)
Theorem progress_completion_on_every_terminal_response
    (o : JobProgress.Options) (st : JobProgress.State) (n : nat)
    (code : Z) (data : obj) :
  JobProgress.inflight st = S n ->
  JobProgress.hasOnComplete o = true ->
  http_ok code = true ->
  truthy (get data "error") = false ->
  JobProgress.terminal (get data "status") = true ->
  let st' := JobProgress.settle o (Http code (Some data)) st in
  JobProgress.completions st' = (JobProgress.completions st ++ [data])%list
  /\ JobProgress.isActive st' = false
  /\ JobProgress.fetched st' = JobProgress.fetched st
  /\ JobProgress.inflight st' = n.
Proof.
  intros Hn Hc Hok Herr Hterm. simpl.
  unfold JobProgress.settle. rewrite Hn, Hok.
  unfold JobProgress.onSuccess. rewrite Herr, Hterm, Hc.
  unfold JobProgress.emit_if, JobProgress.stopTracking,
    JobProgress.completions, JobProgress.fetched.
  destruct (JobProgress.hasOnUpdate o); simpl;
    (destruct (JobProgress.isActive st) eqn:Ha;
     [destruct (JobProgress.timer st)|]); simpl; rewrite ?Ha; auto.
Qed.

Lemma progress_completion_on_every_terminal_response_witness :
  let data : obj := {[ "status" := JStr "completed" ]} in
  let st := JobProgress.run Samples.progress_options JobProgress.init
              [JobProgress.CallStart; JobProgress.TimerFires 1;
               JobProgress.Settles (Http 200 (Some data))] in
  JobProgress.isActive st = false
  /\ JobProgress.inflight st = 1%nat
  /\ JobProgress.completions
       (JobProgress.settle Samples.progress_options (Http 200 (Some data)) st)
     = [data; data].
Proof.
  intros data st.
  destruct (progress_completion_on_every_terminal_response
              Samples.progress_options st 0 200 data
              eq_refl eq_refl eq_refl eq_refl eq_refl) as (Hc & _).
  split; [reflexivity|]. split; [reflexivity|]. exact Hc.
Defined.

(** ** StatusUpdater: what a polling chain does *)

Section StatusUpdaterChains.
Import StatusUpdater.
Variable o : Options.

(** While something is pending, the job id is truthy. *)
Lemma pending_job_id jobId es :
  forallb not_start es = true ->
  let st := run o (startPolling o jobId init) es in
  (inflight st + length (timeouts st))%nat <> 0%nat ->
  truthy (currentJobId st) = true.
Proof.
  intros Hes.
  assert (Hgen : forall st,
    ((inflight st + length (timeouts st))%nat <> 0%nat ->
     truthy (currentJobId st) = true) ->
    (inflight (run o st es) + length (timeouts (run o st es)))%nat <> 0%nat ->
    truthy (currentJobId (run o st es)) = true).
  { induction es as [|e es IH]; intros st H; simpl; [exact H|].
    simpl in Hes. apply andb_true_iff in Hes as [He Hes].
    apply (IH Hes). destruct e as [j| |id|r]; simpl in *; try discriminate.
    - unfold stopPolling. destruct (pollTimer st); [|exact H].
      simpl. intros Hs. apply H.
      pose proof (disarm_length n (timeouts st)). lia.
    - unfold fire. destruct (armed id (timeouts st)) eqn:Ha; [|exact H].
      unfold pollStatus. simpl.
      destruct (truthy (currentJobId st)) eqn:Hj; simpl; [auto|].
      intros Hs. rewrite Hj. apply H. intros E.
      assert (Et : timeouts st = [])
        by (destruct (timeouts st); [reflexivity | simpl in E; lia]).
      rewrite Et in Ha. discriminate.
    - unfold settle. destruct (inflight st) as [|n] eqn:En;
        [rewrite En; exact H|].
      assert (Hj : truthy (currentJobId st) = true) by (apply H; lia).
      assert (Hf : forall s, currentJobId s = currentJobId st ->
                currentJobId (onFailure o s) = currentJobId st)
        by (intros s Hs; unfold onFailure; simpl; destruct (_ <=? _); exact Hs).
      intros _.
      destruct r as [|code [d|]]; [| destruct (http_ok code) ..];
        try (rewrite Hf; [exact Hj | reflexivity]).
      unfold onSuccess.
      destruct (updateStatus_throws _);
        [rewrite Hf; [exact Hj | reflexivity]|].
      destruct (shouldContinuePolling d) as [[|]|];
        [exact Hj | exact Hj | rewrite Hf; [exact Hj | reflexivity]]. }
  intros st. apply Hgen.
  unfold startPolling, pollStatus. destruct (truthy jobId) eqn:Hj; simpl.
  - rewrite Hj. simpl. intros _. exact Hj.
  - intros H. lia.
Qed.

Lemma armed_inv_stop st : armed_inv st -> armed_inv (stopPolling st).
Proof.
  unfold armed_inv, stopPolling. intros H.
  destruct (pollTimer st) as [id|] eqn:Hp; [|rewrite Hp; exact H]. simpl.
  destruct (timeouts st) as [|[id' d] [|t ts]]; simpl in *; try contradiction.
  - exact H.
  - destruct H as [[= ->] Hn]. rewrite Nat.eqb_refl. simpl. lia.
Qed.

Lemma armed_inv_fire id st : armed_inv st -> armed_inv (fire o id st).
Proof.
  unfold armed_inv, fire. intros H.
  destruct (armed id (timeouts st)) eqn:Ha; [|exact H].
  destruct (timeouts st) as [|[id' d] [|t ts]]; simpl in *; try contradiction;
    try discriminate.
  rewrite orb_false_r in Ha. rewrite Ha. simpl.
  destruct H as [_ Hn]. unfold pollStatus. simpl.
  destruct (truthy (currentJobId st)); simpl; lia.
Qed.

Lemma armed_inv_onFailure st :
  timeouts st = [] -> inflight st = 0%nat -> armed_inv (onFailure o st).
Proof.
  intros Ht Hn. unfold armed_inv, onFailure. simpl.
  destruct (_ <=? _); simpl; rewrite Ht; simpl; [lia | auto].
Qed.

Lemma armed_inv_settle r st : armed_inv st -> armed_inv (settle o r st).
Proof.
  intros H. unfold settle. destruct (inflight st) as [|n] eqn:En; [exact H|].
  unfold armed_inv in H. rewrite En in H.
  destruct (timeouts st) as [|[id' d] [|t ts]] eqn:Et; try contradiction;
    [|destruct H; discriminate].
  assert (n = 0%nat) as -> by lia.
  destruct r as [|code [d|]]; [| destruct (http_ok code) ..];
    try (apply armed_inv_onFailure; [exact Et | reflexivity]).
  unfold onSuccess.
  destruct (updateStatus_throws _);
    [apply armed_inv_onFailure; [exact Et | reflexivity]|].
  destruct (shouldContinuePolling d) as [[|]|];
    [| | apply armed_inv_onFailure; [exact Et | reflexivity]];
    unfold armed_inv; simpl; rewrite Et; simpl; auto.
Qed.

Lemma armed_inv_run jobId es :
  forallb not_start es = true ->
  armed_inv (run o (startPolling o jobId init) es).
Proof.
  intros Hes.
  assert (Hgen : forall st, armed_inv st -> armed_inv (run o st es)).
  { induction es as [|e es IH]; intros st H; simpl; [exact H|].
    simpl in Hes. apply andb_true_iff in Hes as [He Hes].
    apply (IH Hes). destruct e; simpl in *; try discriminate;
      auto using armed_inv_stop, armed_inv_fire, armed_inv_settle. }
  apply Hgen. unfold armed_inv, startPolling, pollStatus.
  destruct (truthy jobId) eqn:Hj; simpl; [rewrite Hj; simpl|]; lia.
Qed.


Lemma fetched_emit_Fetch u st :
  fetched (emit (Fetch u) st) = (fetched st ++ [u])%list.
Proof. reflexivity. Qed.




End StatusUpdaterChains.

Lemma finished_nonempty s : StatusUpdater.finished s = true -> s <> "".
Proof. intros H ->. discriminate H. Qed.

Lemma finished_stops (d : StatusUpdater.Payload) s :
  get (StatusUpdater.top d) "status" = JStr s
  \/ (truthy (get (StatusUpdater.top d) "status") = false
      /\ exists j, StatusUpdater.job d = Some j /\ get j "status" = JStr s) ->
  StatusUpdater.finished s = true ->
  StatusUpdater.shouldContinuePolling d = Some false.
Proof.
  intros Hs Hfin. pose proof (finished_nonempty s Hfin) as Hne.
  assert (Htr : truthy (JStr s) = true).
  { simpl. destruct (String.eqb_spec s ""); [contradiction | reflexivity]. }
  unfold StatusUpdater.finished in Hfin. apply negb_true_iff in Hfin.
  unfold StatusUpdater.shouldContinuePolling.
  destruct Hs as [Hs|(Hf & j & Hj & Hs)].
  - rewrite Hs, Htr, Hfin. reflexivity.
  - rewrite Hf, Hj, Hs, Htr, Hfin. reflexivity.
Qed.

(** StatusUpdater stops for good on a successful poll that reports a
    final status: in a chain started by one startPolling, a 2xx response
    whose payload is rendered without an exception and whose status, at
    the top level or in the nested job when the top level has none, is
    completed, failed or error in any letter case leaves no timer armed
    and nothing in flight, resets the retry counter, and whatever the
    browser delivers afterwards sends no request. *)
Theorem updater_terminal_ends_polling
    (o : StatusUpdater.Options) (jobId : jsval)
    (es later : list StatusUpdater.Event) (code : Z)
    (d : StatusUpdater.Payload) (s : string) :
  forallb StatusUpdater.not_start es = true ->
  let st := StatusUpdater.run o (StatusUpdater.startPolling o jobId StatusUpdater.init) es in
  StatusUpdater.inflight st <> 0%nat ->
  http_ok code = true ->
  StatusUpdater.updateStatus_throws (StatusUpdater.statusData d) = false ->
  get (StatusUpdater.top d) "status" = JStr s
  \/ (truthy (get (StatusUpdater.top d) "status") = false
      /\ exists j, StatusUpdater.job d = Some j /\ get j "status" = JStr s) ->
  StatusUpdater.finished s = true ->
  forallb StatusUpdater.env_event later = true ->
  let st' := StatusUpdater.settle o (Http code (Some d)) st in
  StatusUpdater.timeouts st' = []
  /\ StatusUpdater.inflight st' = 0%nat
  /\ StatusUpdater.retryCount st' = 0
  /\ StatusUpdater.fetched st' = StatusUpdater.fetched st
  /\ StatusUpdater.run o st' later = st'.
Proof.
  intros Hes st Hn Hok Hth Hs Hfin Hlater st'.
  pose proof (chain_inv_run o es _ (chain_inv_started o jobId) Hes) as Hc.
  fold st in Hc. unfold StatusUpdater.chain_inv in Hc.
  destruct (StatusUpdater.inflight st) as [|n] eqn:En; [congruence|].
  assert (Et : StatusUpdater.timeouts st = [])
    by (destruct (StatusUpdater.timeouts st); [reflexivity | simpl in Hc; lia]).
  assert (n = 0%nat) as -> by lia.
  pose proof (finished_stops d s Hs Hfin) as Hsc.
  assert (E : st' = StatusUpdater.updateStatus d
                      (StatusUpdater.set_retryCount 0
                         (StatusUpdater.set_inflight 0 st))).
  { subst st'. unfold StatusUpdater.settle. rewrite En, Hok.
    unfold StatusUpdater.onSuccess. rewrite Hth, Hsc. reflexivity. }
  assert (Ht' : StatusUpdater.timeouts st' = []) by (rewrite E; exact Et).
  assert (Hn' : StatusUpdater.inflight st' = 0%nat) by (rewrite E; reflexivity).
  split; [exact Ht'|]. split; [exact Hn'|].
  split; [rewrite E; reflexivity|]. split; [rewrite E; reflexivity|].
  apply quiescent_run; assumption.
Qed.

Lemma updater_terminal_ends_polling_witness :
  let d := {| StatusUpdater.top := {[ "success" := JBool true ]};
              StatusUpdater.job := Some {[ "status" := JStr "FAILED" ]} |} in
  let st := StatusUpdater.run StatusUpdater.defaults
              (StatusUpdater.startPolling StatusUpdater.defaults (JStr "j1")
                 StatusUpdater.init) [] in
  let st' := StatusUpdater.settle StatusUpdater.defaults (Http 200 (Some d)) st in
  StatusUpdater.inflight st <> 0%nat
  /\ StatusUpdater.finished "FAILED" = true
  /\ StatusUpdater.timeouts st' = []
  /\ StatusUpdater.run StatusUpdater.defaults st'
       [StatusUpdater.TimerFires 1; StatusUpdater.Settles NetworkError] = st'.
Proof.
  intros d st st'.
  assert (Hn : StatusUpdater.inflight st <> 0%nat) by (vm_compute; discriminate).
  assert (Hs : get (StatusUpdater.top d) "status" = JStr "FAILED"
               \/ (truthy (get (StatusUpdater.top d) "status") = false
                   /\ exists j, StatusUpdater.job d = Some j
                                /\ get j "status" = JStr "FAILED")).
  { right. split; [reflexivity|]. eexists. split; reflexivity. }
  destruct (updater_terminal_ends_polling StatusUpdater.defaults (JStr "j1") []
              [StatusUpdater.TimerFires 1; StatusUpdater.Settles NetworkError]
              200 d "FAILED" eq_refl Hn eq_refl eq_refl Hs eq_refl
              eq_refl) as (Ht & _ & _ & _ & Hrun).
  split; [exact Hn|]. split; [reflexivity|]. split; [exact Ht | exact Hrun].
Defined.



(** stopPolling cancels the pending poll when the timer it knows is the
    only one: with no request in flight and no timer armed but the one
    recorded in pollTimer, stopPolling leaves no timer armed and clears
    pollTimer, and nothing the browser delivers afterwards sends a
    request.  That is the situation throughout a chain started by one
    startPolling; after a second startPolling made while a request was
    in flight an older timer can stay armed, and stopPolling leaves it
    so. *)
Theorem updater_stop_cancels_pending_poll :
  (forall (o : StatusUpdater.Options) (st : StatusUpdater.State)
          (later : list StatusUpdater.Event),
     StatusUpdater.inflight st = 0%nat ->
     (forall t, In t (StatusUpdater.timeouts st) ->
                StatusUpdater.pollTimer st = Some (fst t)) ->
     forallb StatusUpdater.env_event later = true ->
     let st' := StatusUpdater.stopPolling st in
     StatusUpdater.timeouts st' = []
     /\ StatusUpdater.pollTimer st' = None
     /\ StatusUpdater.fetched st' = StatusUpdater.fetched st
     /\ StatusUpdater.run o st' later = st')
  /\ (forall (o : StatusUpdater.Options) (jobId : jsval)
             (es : list StatusUpdater.Event),
        forallb StatusUpdater.not_start es = true ->
        let st := StatusUpdater.run o
                    (StatusUpdater.startPolling o jobId StatusUpdater.init) es in
        forall t, In t (StatusUpdater.timeouts st) ->
                  StatusUpdater.pollTimer st = Some (fst t))
  /\ (let st := StatusUpdater.run StatusUpdater.defaults StatusUpdater.init
                  Samples.updater_double_start in
      StatusUpdater.inflight st = 0%nat
      /\ StatusUpdater.timeouts (StatusUpdater.stopPolling st) = [(1%nat, 2000)]
      /\ length (StatusUpdater.fetched
                   (StatusUpdater.fire StatusUpdater.defaults 1
                      (StatusUpdater.stopPolling st)))
         = S (length (StatusUpdater.fetched st))).
Proof.
  split; [|split].
  - intros o st later Hn Hall Hlater st'.
    assert (Ht : StatusUpdater.timeouts st' = []).
    { subst st'. unfold StatusUpdater.stopPolling.
      destruct (StatusUpdater.pollTimer st) as [id|] eqn:Hp.
      - cbn [StatusUpdater.timeouts]. unfold StatusUpdater.disarm.
        assert (Hf : forall l, (forall t, In t l -> Some id = Some (fst t)) ->
                  List.filter (fun t : nat * Z => negb (Nat.eqb (fst t) id)) l
                  = []).
        { induction l as [|t l IH]; intros Hl; [reflexivity|]. simpl.
          assert (E : fst t = id)
            by (specialize (Hl t (or_introl eq_refl)); congruence).
          rewrite E, Nat.eqb_refl. simpl. apply IH.
          intros t' Ht'. apply Hl. right. exact Ht'. }
        apply Hf. exact Hall.
      - destruct (StatusUpdater.timeouts st) as [|t l]; [reflexivity|].
        specialize (Hall t (or_introl eq_refl)). discriminate. }
    assert (Hn' : StatusUpdater.inflight st' = 0%nat).
    { subst st'. unfold StatusUpdater.stopPolling.
      destruct (StatusUpdater.pollTimer st); simpl; exact Hn. }
    split; [exact Ht|]. split.
    { subst st'. unfold StatusUpdater.stopPolling.
      destruct (StatusUpdater.pollTimer st) eqn:Hp; [reflexivity | exact Hp]. }
    split.
    { subst st'. unfold StatusUpdater.stopPolling, StatusUpdater.fetched.
      destruct (StatusUpdater.pollTimer st); reflexivity. }
    apply quiescent_run; assumption.
  - intros o jobId es Hes st t Hin.
    pose proof (armed_inv_run o jobId es Hes) as Ha. fold st in Ha.
    unfold StatusUpdater.armed_inv in Ha.
    destruct (StatusUpdater.timeouts st) as [|[id d] [|t' ts]];
      try contradiction.
    destruct Ha as [-> _]. destruct Hin as [<-|[]]. reflexivity.
  - vm_compute. repeat split; reflexivity.
Qed.

Lemma updater_stop_cancels_pending_poll_witness :
  let es := [StatusUpdater.Settles NetworkError] in
  let st := StatusUpdater.run StatusUpdater.defaults
              (StatusUpdater.startPolling StatusUpdater.defaults (JStr "j1")
                 StatusUpdater.init) es in
  StatusUpdater.inflight st = 0%nat
  /\ StatusUpdater.timeouts st = [(1%nat, 4000)]
  /\ StatusUpdater.timeouts (StatusUpdater.stopPolling st) = []
  /\ StatusUpdater.run StatusUpdater.defaults (StatusUpdater.stopPolling st)
       [StatusUpdater.TimerFires 1] = StatusUpdater.stopPolling st.
Proof.
  intros es st.
  destruct updater_stop_cancels_pending_poll as (Hstop & Hone & _).
  assert (Hn : StatusUpdater.inflight st = 0%nat) by reflexivity.
  destruct (Hstop StatusUpdater.defaults st [StatusUpdater.TimerFires 1] Hn
              (Hone StatusUpdater.defaults (JStr "j1") es eq_refl) eq_refl)
    as (Ht & _ & _ & Hrun).
  split; [exact Hn|]. split; [reflexivity|]. split; [exact Ht | exact Hrun].
Defined.

(** stopPolling does not cancel a request that is in flight: in a chain
    started by one startPolling, if stopPolling is called while a request
    is in flight and that request then succeeds with a status that is not
    terminal, the poll timer is armed again with the poll interval, so
    polling resumes. *)
Theorem updater_stop_in_flight_resumes
    (o : StatusUpdater.Options) (jobId : jsval) (es : list StatusUpdater.Event)
    (code : Z) (d : StatusUpdater.Payload) :
  forallb StatusUpdater.not_start es = true ->
  let st := StatusUpdater.run o (StatusUpdater.startPolling o jobId StatusUpdater.init) es in
  StatusUpdater.inflight st <> 0%nat ->
  http_ok code = true ->
  StatusUpdater.updateStatus_throws (StatusUpdater.statusData d) = false ->
  StatusUpdater.shouldContinuePolling d = Some true ->
  let st' := StatusUpdater.settle o (Http code (Some d))
               (StatusUpdater.stopPolling st) in
  StatusUpdater.inflight (StatusUpdater.stopPolling st) = StatusUpdater.inflight st
  /\ StatusUpdater.timeouts st'
     = [(StatusUpdater.nextTimer st, StatusUpdater.pollInterval o)]
  /\ StatusUpdater.pollTimer st' = Some (StatusUpdater.nextTimer st)
  /\ StatusUpdater.fetched
       (StatusUpdater.fire o (StatusUpdater.nextTimer st) st')
     = (StatusUpdater.fetched st
        ++ [StatusUpdater.statusEndpoint o +:+ "?job_id="
            +:+ to_string (StatusUpdater.currentJobId st)])%list.
Proof.
  intros Hes st Hn Hok Hth Hsc st'.
  pose proof (armed_inv_run o jobId es Hes) as Ha. fold st in Ha.
  pose proof (pending_job_id o jobId es Hes) as Hj. simpl in Hj. fold st in Hj.
  unfold StatusUpdater.armed_inv in Ha.
  destruct (StatusUpdater.inflight st) as [|n] eqn:En; [congruence|].
  destruct (StatusUpdater.timeouts st) as [|[id dl] [|t ts]] eqn:Et;
    try contradiction; [|destruct Ha; discriminate].
  assert (Hjob : truthy (StatusUpdater.currentJobId st) = true)
    by (apply Hj; simpl; lia).
  assert (n = 0%nat) as -> by lia.
  set (s := StatusUpdater.stopPolling st).
  assert (Hs : StatusUpdater.inflight s = 1%nat
               /\ StatusUpdater.timeouts s = []
               /\ StatusUpdater.nextTimer s = StatusUpdater.nextTimer st
               /\ StatusUpdater.currentJobId s = StatusUpdater.currentJobId st
               /\ StatusUpdater.fetched s = StatusUpdater.fetched st).
  { subst s. unfold StatusUpdater.stopPolling, StatusUpdater.fetched.
    destruct (StatusUpdater.pollTimer st); simpl; rewrite ?Et; auto. }
  destruct Hs as (Hs1 & Hs2 & Hs3 & Hs4 & Hs5).
  split; [rewrite Hs1; reflexivity|].
  assert (E : st' = StatusUpdater.schedulePoll o
                      (StatusUpdater.updateStatus d
                         (StatusUpdater.set_retryCount 0
                            (StatusUpdater.set_inflight 0 s)))).
  { subst st'. fold s. unfold StatusUpdater.settle. rewrite Hs1, Hok.
    unfold StatusUpdater.onSuccess. rewrite Hth, Hsc. reflexivity. }
  rewrite E. unfold StatusUpdater.schedulePoll, StatusUpdater.setTimeout_poll.
  cbn [StatusUpdater.timeouts StatusUpdater.pollTimer StatusUpdater.nextTimer
       StatusUpdater.updateStatus StatusUpdater.emit
       StatusUpdater.set_retryCount StatusUpdater.set_inflight].
  rewrite Hs2, Hs3. split; [reflexivity|]. split; [reflexivity|].
  unfold StatusUpdater.fire.
  cbn [StatusUpdater.timeouts StatusUpdater.armed existsb fst].
  rewrite Nat.eqb_refl. cbn [orb].
  unfold StatusUpdater.pollStatus.
  cbn [StatusUpdater.currentJobId StatusUpdater.inflight].
  change (StatusUpdater.currentJobId
            (StatusUpdater.updateStatus d
               (StatusUpdater.set_retryCount 0
                  (StatusUpdater.set_inflight 0 s))))
    with (StatusUpdater.currentJobId s).
  rewrite Hs4, Hjob, fetched_emit_Fetch. f_equal.
  rewrite <- Hs5. reflexivity.
Qed.

Lemma updater_stop_in_flight_resumes_witness :
  let d := {| StatusUpdater.top := {[ "status" := JStr "processing" ]};
              StatusUpdater.job := None |} in
  let st := StatusUpdater.run StatusUpdater.defaults
              (StatusUpdater.startPolling StatusUpdater.defaults (JStr "j1")
                 StatusUpdater.init) [] in
  StatusUpdater.inflight st <> 0%nat
  /\ StatusUpdater.shouldContinuePolling d = Some true
  /\ StatusUpdater.timeouts
       (StatusUpdater.settle StatusUpdater.defaults (Http 200 (Some d))
          (StatusUpdater.stopPolling st))
     = [(StatusUpdater.nextTimer st,
         StatusUpdater.pollInterval StatusUpdater.defaults)].
Proof.
  intros d st.
  assert (Hn : StatusUpdater.inflight st <> 0%nat) by (vm_compute; discriminate).
  destruct (updater_stop_in_flight_resumes StatusUpdater.defaults (JStr "j1") []
              200 d eq_refl Hn eq_refl eq_refl eq_refl) as (_ & Ht & _).
  split; [exact Hn|]. split; [reflexivity | exact Ht].
Defined.

(** ** The banner: which job is polled, and the tracked list *)

Section BannerTracking.
Import JobStatusBanner.
Variable o : Options.

Lemma merged_id (jobData old : obj) :
  get old "id" = get jobData "id" ->
  get (jobData ∪ old) "id" = get old "id".
Proof.
  intros H. rewrite merged_fields. unfold get in *.
  destruct (jobData !! "id"); [symmetry; exact H | reflexivity].
Qed.

Lemma ids_track_existing max (jobData : obj) (tracked : list obj) i :
  findIndex (fun job => strict_eq (get job "id") (get jobData "id")) tracked
  = Some i ->
  ids (track max jobData tracked) = ids tracked.
Proof.
  intros H.
  destruct (track_existing max jobData tracked i H) as (old & Ho & Hid & -> & _).
  unfold ids. rewrite list_fmap_insert. apply list_insert_id.
  rewrite list_lookup_fmap, Ho. simpl. f_equal. symmetry.
  apply merged_id, Hid.
Qed.

Lemma findIndex_None_not_in (jobData : obj) (tracked : list obj) :
  findIndex (fun job => strict_eq (get job "id") (get jobData "id")) tracked
  = None ->
  get jobData "id" ∉ ids tracked.
Proof.
  intros H. apply findIndex_None in H. unfold ids.
  induction H as [|job l Hj _ IH]; simpl.
  - apply not_elem_of_nil.
  - apply not_elem_of_cons. split; [|exact IH].
    apply bool_decide_eq_false in Hj. congruence.
Qed.

Lemma NoDup_track max (jobData : obj) (tracked : list obj) :
  NoDup (ids tracked) -> NoDup (ids (track max jobData tracked)).
Proof.
  intros H.
  destruct (findIndex (fun job => strict_eq (get job "id") (get jobData "id"))
              tracked) as [i|] eqn:Hf.
  - rewrite (ids_track_existing max jobData tracked i Hf). exact H.
  - destruct (track_new max jobData tracked Hf) as [-> _].
    unfold ids. rewrite fmap_take.
    eapply sublist_NoDup; [|apply sublist_take].
    simpl. apply NoDup_cons. split; [|exact H].
    apply findIndex_None_not_in, Hf.
Qed.

Lemma NoDup_trackJob (jobData : obj) st :
  NoDup (ids (trackedJobs st)) -> NoDup (ids (trackedJobs (trackJob o jobData st))).
Proof.
  intros H. destruct (truthy (get jobData "id")) eqn:Hid.
  - rewrite (trackJob_tracked o jobData st Hid). apply NoDup_track, H.
  - unfold trackJob. rewrite Hid. exact H.
Qed.

Lemma NoDup_fold_trackJob jobs st :
  NoDup (ids (trackedJobs st)) ->
  NoDup (ids (trackedJobs (fold_left (fun acc job => trackJob o job acc) jobs st))).
Proof.
  revert st. induction jobs as [|j jobs IH]; intros st H; simpl; [exact H|].
  apply IH, NoDup_trackJob, H.
Qed.

Lemma tracked_fetchJobStatus id st :
  trackedJobs (fetchJobStatus o id st) = trackedJobs st.
Proof. unfold fetchJobStatus. destruct (truthy id); reflexivity. Qed.

Lemma tracked_checkActiveJobs st :
  trackedJobs (checkActiveJobs o st) = trackedJobs st.
Proof.
  unfold checkActiveJobs. destruct (trackedJobs st) eqn:Ht; [exact Ht|].
  destruct (activeBanner st); [destruct (strict_eq _ _)|];
    rewrite tracked_fetchJobStatus; exact Ht.
Qed.

Lemma tracked_updateBanner now (jobData : obj) st :
  trackedJobs (fst (updateBanner o now jobData st))
  = trackedJobs (trackJob o jobData st).
Proof.
  unfold updateBanner. destruct (truthy (get jobData "id")) eqn:Hid; simpl.
  - destruct (paint _ _); simpl; destruct (_ && _); reflexivity.
  - unfold trackJob. rewrite Hid. reflexivity.
Qed.

Lemma NoDup_step st e :
  NoDup (ids (trackedJobs st)) -> NoDup (ids (trackedJobs (step o st e))).
Proof.
  intros H. destruct e as [id|id|r|now r|]; simpl.
  - unfold tick. destruct (existsb _ _); [|exact H].
    rewrite tracked_checkActiveJobs. exact H.
  - unfold hideTimerFires. destruct (List.find _ _) as [[i jid]|]; [|exact H].
    simpl. destruct (activeBanner st); [destruct (strict_eq _ _)|]; exact H.
  - unfold settleActive. destruct (inflightActive st); [exact H|].
    assert (Ha : forall jobs s, trackedJobs s = trackedJobs st ->
              NoDup (ids (trackedJobs (onActiveJobs o jobs s)))).
    { intros jobs s Hs. unfold onActiveJobs.
      destruct jobs as [[|j rest]|].
      - destruct (activeBanner s); simpl; rewrite Hs; exact H.
      - rewrite tracked_fetchJobStatus.
        apply (NoDup_fold_trackJob (j :: rest)). rewrite Hs. exact H.
      - destruct (activeBanner s); simpl; rewrite Hs; exact H. }
    destruct r as [|code body]; [exact H|].
    destruct ((code =? 302) || (code =? 401)); [apply Ha; reflexivity|].
    destruct (negb (http_ok code)); [exact H|].
    destruct body; [apply Ha; reflexivity | exact H].
  - unfold settleStatus. destruct (inflightStatus st); [exact H|].
    destruct r as [|code [d|]]; try exact H.
    destruct (http_ok code); [|exact H].
    destruct (truthy (get d "status")); [|exact H].
    match goal with |- context [updateBanner o now d ?s] =>
      pose proof (tracked_updateBanner now d s) as Hu;
      pose proof (NoDup_trackJob d s H) as Hn;
      destruct (updateBanner o now d s) as [st2 [|]]; simpl in *;
      rewrite Hu; exact Hn
    end.
  - exact H.
Qed.

Lemma ids_filter_sublist (p : obj -> bool) (jobs : list obj) :
  ids (List.filter p jobs) `sublist_of` ids jobs.
Proof.
  induction jobs as [|j jobs IH]; simpl; [constructor|].
  destruct (p j); simpl; [apply sublist_skip | apply sublist_cons]; exact IH.
Qed.

End BannerTracking.

(** ** The banner: what the tracked list and the storage record keep *)

Section BannerStore.
Import JobStatusBanner.
Variable o : Options.

(** A property of job lists that tracking a job, filtering and the empty
    list keep. *)
Variable Q : list obj -> Prop.
Hypothesis Q_nil : Q [].
Hypothesis Q_filter : forall (p : obj -> bool) jobs, Q jobs -> Q (List.filter p jobs).
Hypothesis Q_track :
  forall (jobData : obj) jobs,
    truthy (get jobData "id") = true -> Q jobs ->
    Q (track (maxTrackedJobs o) jobData jobs).

Lemma kept_trackJob (jobData : obj) st :
  (Q (fst (store_view st)) /\ Q (stored_jobs (snd (store_view st)))) -> (Q (fst (store_view (trackJob o jobData st))) /\ Q (stored_jobs (snd (store_view (trackJob o jobData st))))).
Proof.
  intros [H1 H2]. unfold trackJob.
  destruct (truthy (get jobData "id")) eqn:Hid; [|split; assumption].
  destruct (persistInStorage o); unfold store_view; simpl;
    (split; [apply Q_track; assumption|]);
    [apply Q_track; assumption | exact H2].
Qed.

Lemma kept_fold_trackJob jobs st :
  (Q (fst (store_view st)) /\ Q (stored_jobs (snd (store_view st)))) ->
  (Q (fst (store_view (fold_left (fun acc job => trackJob o job acc) jobs st))) /\ Q (stored_jobs (snd (store_view (fold_left (fun acc job => trackJob o job acc) jobs st))))).
Proof.
  revert st. induction jobs as [|j jobs IH]; intros st H; simpl; [exact H|].
  apply IH, kept_trackJob, H.
Qed.

Lemma store_fetchJobStatus id st :
  store_view (fetchJobStatus o id st) = store_view st.
Proof. unfold fetchJobStatus. destruct (truthy id); reflexivity. Qed.

Lemma store_checkActiveJobs st :
  store_view (checkActiveJobs o st) = store_view st.
Proof.
  unfold checkActiveJobs. destruct (trackedJobs st) eqn:Ht.
  - unfold fetchActiveJobs, store_view. simpl. rewrite Ht. reflexivity.
  - destruct (activeBanner st); [destruct (strict_eq _ _)|];
      apply store_fetchJobStatus.
Qed.

Lemma store_updateBanner now (jobData : obj) st :
  store_view (fst (updateBanner o now jobData st))
  = store_view (trackJob o jobData st).
Proof.
  unfold updateBanner. destruct (truthy (get jobData "id")) eqn:Hid; simpl.
  - destruct (paint _ _ _); simpl; destruct (_ && _); reflexivity.
  - unfold trackJob. rewrite Hid. reflexivity.
Qed.

Lemma kept_step st e :
  (Q (fst (store_view st)) /\ Q (stored_jobs (snd (store_view st)))) -> (Q (fst (store_view (step o st e))) /\ Q (stored_jobs (snd (store_view (step o st e))))).
Proof.
  intros H. destruct e as [id|id|r|now r|]; cbn [step].
  - unfold tick. destruct (existsb _ _); [|exact H].
    rewrite store_checkActiveJobs. exact H.
  - unfold hideTimerFires. destruct (List.find _ _) as [[i jid]|]; [|exact H].
    simpl. destruct (activeBanner st); [destruct (strict_eq _ _)|]; exact H.
  - unfold settleActive. destruct (inflightActive st); [exact H|].
    assert (Ha : forall jobs s, store_view s = store_view st ->
              (Q (fst (store_view (onActiveJobs o jobs s))) /\ Q (stored_jobs (snd (store_view (onActiveJobs o jobs s)))))).
    { intros jobs s Hs. unfold onActiveJobs.
      destruct jobs as [[|j rest]|].
      - destruct (activeBanner s);
          [change (store_view (hideBanner s)) with (store_view s)|];
          rewrite Hs; exact H.
      - rewrite store_fetchJobStatus.
        apply (kept_fold_trackJob (j :: rest)). rewrite Hs. exact H.
      - destruct (activeBanner s);
          [change (store_view (hideBanner s)) with (store_view s)|];
          rewrite Hs; exact H. }
    destruct r as [|code body]; [exact H|].
    destruct ((code =? 302) || (code =? 401)); [apply Ha; reflexivity|].
    destruct (negb (http_ok code)); [exact H|].
    destruct body; [apply Ha; reflexivity | exact H].
  - unfold settleStatus. destruct (inflightStatus st); [exact H|].
    destruct r as [|code [d|]]; try exact H.
    destruct (http_ok code); [|exact H].
    destruct (truthy (get d "status")); [|exact H].
    match goal with |- context [updateBanner o now d ?s] =>
      pose proof (store_updateBanner now d s) as Hu;
      pose proof (kept_trackJob d s H) as Hn;
      destruct (updateBanner o now d s) as [st2 [|]]; cbn [fst] in Hu;
      [|change (store_view (emit (ConsoleError "Error fetching job status") st2))
          with (store_view st2)];
      rewrite Hu; exact Hn
    end.
  - exact H.
Qed.

Lemma kept_run es st :
  (Q (fst (store_view st)) /\ Q (stored_jobs (snd (store_view st)))) -> (Q (fst (store_view (run o st es))) /\ Q (stored_jobs (snd (store_view (run o st es))))).
Proof.
  revert st. induction es as [|e es IH]; intros st H; simpl; [exact H|].
  apply IH, kept_step, H.
Qed.

Lemma store_init st :
  store_view (init o st) = store_view st.
Proof.
  unfold init. destruct (initialized st); [reflexivity|].
  rewrite store_checkActiveJobs. reflexivity.
Qed.

Lemma kept_construct now parseDate stored :
  Q (stored_jobs stored) ->
  (Q (fst (store_view (construct o now parseDate stored))) /\ Q (stored_jobs (snd (store_view (construct o now parseDate stored))))).
Proof.
  intros H. unfold construct. rewrite store_init.
  destruct (persistInStorage o); [|split; [apply Q_nil | exact H]].
  unfold loadFromStorage. simpl.
  destruct stored as [| |[jobs|]]; simpl; split;
    try apply Q_nil; try exact H.
  apply Q_filter, H.
Qed.

Lemma kept_reachable now parseDate stored es :
  Q (stored_jobs stored) ->
  (Q (fst (store_view (run o (construct o now parseDate stored) es))) /\ Q (stored_jobs (snd (store_view (run o (construct o now parseDate stored) es))))).
Proof. intros H. apply kept_run, kept_construct, H. Qed.

Lemma kept_reloads parseDate loads stored :
  Q (stored_jobs stored) -> Q (stored_jobs (reloads o parseDate stored loads)).
Proof.
  revert stored. induction loads as [|[now es] loads IH]; intros stored H;
    simpl; [exact H|].
  apply IH. apply (kept_reachable now parseDate stored es H).
Qed.

End BannerStore.

Lemma with_ids_track max (jobData : obj) jobs :
  truthy (get jobData "id") = true ->
  JobStatusBanner.with_ids jobs ->
  JobStatusBanner.with_ids (JobStatusBanner.track max jobData jobs).
Proof.
  intros Hid H. unfold JobStatusBanner.with_ids in *.
  destruct (findIndex (fun job => strict_eq (get job "id") (get jobData "id"))
              jobs) as [i|] eqn:Hf.
  - destruct (track_existing max jobData jobs i Hf) as (old & _ & Ho & -> & _).
    apply Forall_insert; [exact H|].
    rewrite (merged_id jobData old Ho), Ho. exact Hid.
  - destruct (track_new max jobData jobs Hf) as [-> _].
    apply Forall_take. constructor; assumption.
Qed.

Lemma with_ids_filter (p : obj -> bool) jobs :
  JobStatusBanner.with_ids jobs -> JobStatusBanner.with_ids (List.filter p jobs).
Proof.
  unfold JobStatusBanner.with_ids. induction 1 as [|j jobs Hj _ IH]; simpl;
    [constructor|].
  destruct (p j); [constructor; assumption | exact IH].
Qed.

Lemma bound_filter max (p : obj -> bool) (jobs : list obj) :
  (length jobs <= max)%nat -> (length (List.filter p jobs) <= max)%nat.
Proof. intros H. pose proof (List.filter_length_le p jobs). lia. Qed.

Lemma banner_tick_pending o id st :
  existsb (fun t => Nat.eqb (fst t) id) (JobStatusBanner.intervals st) = true ->
  JobStatusBanner.pending (JobStatusBanner.tick o id st)
  = (JobStatusBanner.pending st
     + match JobStatusBanner.trackedJobs st with
       | [] => 1
       | mostRecentJob :: _ => if truthy (get mostRecentJob "id") then 1 else 0
       end)%nat.
Proof.
  intros H. unfold JobStatusBanner.tick. rewrite H.
  unfold JobStatusBanner.checkActiveJobs, JobStatusBanner.pending.
  destruct (JobStatusBanner.trackedJobs st) as [|job rest].
  - simpl. lia.
  - assert (Hf : forall v, v = get job "id" ->
              (JobStatusBanner.inflightActive
                 (JobStatusBanner.fetchJobStatus o v st)
               + JobStatusBanner.inflightStatus
                   (JobStatusBanner.fetchJobStatus o v st)
               = JobStatusBanner.inflightActive st
                 + JobStatusBanner.inflightStatus st
                 + (if truthy (get job "id") then 1 else 0))%nat).
    { intros v ->. unfold JobStatusBanner.fetchJobStatus.
      destruct (truthy (get job "id")); simpl; lia. }
    destruct (JobStatusBanner.activeBanner st) as [b|]; [|apply Hf; reflexivity].
    destruct (strict_eq (JobStatusBanner.jobId b) (get job "id")) eqn:E;
      [|apply Hf; reflexivity].
    apply Hf. apply bool_decide_eq_true in E. exact E.
Qed.

(** C4 (amended): StatusUpdater arms the timer for the next fetch only
    when the previous request has settled: after one startPolling, and
    whatever timers fire, responses arrive or stopPolling calls follow,
    it has at most one request in flight and no timer armed beside it.
    JobProgress and the banner poll on a fixed interval: every tick of
    their running timer sends a request whatever is still in flight.
    For the banner that is so when it tracks no job or its most recent
    tracked job has an id, as in every state it reaches from a storage
    record whose jobs have ids, and such are the records it writes; a
    most recent job without id makes the tick send nothing. *)
Theorem C4_polling_discipline :
  (forall o jobId es,
     forallb StatusUpdater.not_start es = true ->
     let st := StatusUpdater.run o
                 (StatusUpdater.startPolling o jobId StatusUpdater.init) es in
     (StatusUpdater.inflight st + length (StatusUpdater.timeouts st) <= 1)%nat)
  /\ (forall o id st,
        JobProgress.running id (JobProgress.intervals st) = true ->
        JobProgress.inflight (JobProgress.tick o id st)
        = S (JobProgress.inflight st))
  /\ (forall o id st,
        existsb (fun t => Nat.eqb (fst t) id) (JobStatusBanner.intervals st)
        = true ->
        JobStatusBanner.pending (JobStatusBanner.tick o id st)
        = (JobStatusBanner.pending st
           + match JobStatusBanner.trackedJobs st with
             | [] => 1
             | mostRecentJob :: _ =>
                 if truthy (get mostRecentJob "id") then 1 else 0
             end)%nat)
  /\ (forall o now parseDate stored es,
        JobStatusBanner.with_ids (JobStatusBanner.stored_jobs stored) ->
        let st := JobStatusBanner.run o
                    (JobStatusBanner.construct o now parseDate stored) es in
        JobStatusBanner.with_ids (JobStatusBanner.trackedJobs st)
        /\ JobStatusBanner.with_ids
             (JobStatusBanner.stored_jobs (JobStatusBanner.storage st))
        /\ (forall id,
              existsb (fun t => Nat.eqb (fst t) id)
                (JobStatusBanner.intervals st) = true ->
              JobStatusBanner.pending (JobStatusBanner.tick o id st)
              = S (JobStatusBanner.pending st))).
Proof.
  split; [|split; [|split]].
  - intros o jobId es Hes. apply chain_inv_run; [|exact Hes].
    apply chain_inv_started.
  - intros o id st H. apply (tick_sends_request o id st H).
  - apply banner_tick_pending.
  - intros o now parseDate stored es Hs st.
    destruct (kept_reachable o JobStatusBanner.with_ids (Forall_nil_2 _)
                with_ids_filter
                (fun j l => with_ids_track (JobStatusBanner.maxTrackedJobs o) j l)
                now parseDate stored es Hs) as [Ht Hst].
    fold st in Ht, Hst. split; [exact Ht|]. split; [exact Hst|].
    intros id Hrun. rewrite (banner_tick_pending o id st Hrun).
    unfold JobStatusBanner.store_view in Ht. cbn [fst] in Ht.
    destruct (JobStatusBanner.trackedJobs st) as [|job rest]; [lia|].
    apply Forall_cons in Ht as [Hj _]. rewrite Hj. lia.
Qed.

Lemma C4_polling_discipline_witness :
  let es := [StatusUpdater.Settles NetworkError; StatusUpdater.TimerFires 1] in
  forallb StatusUpdater.not_start es = true
  /\ (StatusUpdater.inflight
        (StatusUpdater.run StatusUpdater.defaults
           (StatusUpdater.startPolling StatusUpdater.defaults (JStr "j1")
              StatusUpdater.init) es)
      + length (StatusUpdater.timeouts
          (StatusUpdater.run StatusUpdater.defaults
             (StatusUpdater.startPolling StatusUpdater.defaults (JStr "j1")
                StatusUpdater.init) es)) <= 1)%nat
  /\ JobProgress.inflight
       (JobProgress.tick Samples.progress_options 1
          (JobProgress.startTracking Samples.progress_options JobProgress.init))
     = 2%nat
  /\ JobStatusBanner.with_ids
       (JobStatusBanner.stored_jobs
          (JobStatusBanner.Item (Some [Samples.running_job 1])))
  /\ JobStatusBanner.pending
       (JobStatusBanner.tick JobStatusBanner.defaults 1
          (JobStatusBanner.run JobStatusBanner.defaults
             (JobStatusBanner.construct JobStatusBanner.defaults 0
                (fun _ => None)
                (JobStatusBanner.Item (Some [Samples.running_job 1])))
             []))
     = 2%nat.
Proof.
  destruct C4_polling_discipline as (Hsu & Hjp & _ & Hb).
  assert (Hs : JobStatusBanner.with_ids
                 (JobStatusBanner.stored_jobs
                    (JobStatusBanner.Item (Some [Samples.running_job 1]))))
    by (repeat constructor).
  split; [reflexivity|]. split; [|split; [|split; [exact Hs|]]].
  - apply (Hsu StatusUpdater.defaults (JStr "j1")
             [StatusUpdater.Settles NetworkError; StatusUpdater.TimerFires 1]).
    reflexivity.
  - apply (Hjp Samples.progress_options 1%nat
             (JobProgress.startTracking Samples.progress_options JobProgress.init)).
    reflexivity.
  - apply (proj2 (proj2 (Hb JobStatusBanner.defaults 0 (fun _ => None)
                           (JobStatusBanner.Item (Some [Samples.running_job 1]))
                           [] Hs)) 1%nat).
    reflexivity.
Defined.

(** A storage record with more jobs than maxTrackedJobs, which the
    banner itself never writes, is loaded as it is: loadFromStorage
    filters by age and does not cut the list. *)
Example banner_loads_record_uncut :
  length (JobStatusBanner.trackedJobs
            (JobStatusBanner.construct JobStatusBanner.defaults 0
               (fun _ => None) Samples.six_stored)) = 6%nat.
Proof. reflexivity. Qed.

(** C8: the tracked-jobs list never exceeds maxTrackedJobs, 5 unless
    configured otherwise: through any series of page loads that begins
    with an empty storage, the list a page load finds in storage at
    startup and the list after any event hold at most maxTrackedJobs
    jobs, and more generally so from any storage record within the
    bound, which every record written stays.  A job whose id is not yet
    tracked is put first and the list is cut to its first maxTrackedJobs
    entries, which drops the oldest; a job whose id is tracked is merged
    over the old entry in place, at the same index and without changing
    the length, the new properties winning; with persistence on, the
    list is saved after each such change. *)
Theorem C8_tracked_jobs :
  JobStatusBanner.maxTrackedJobs JobStatusBanner.defaults = 5%nat
  /\ (forall o parseDate loads now es,
        let stored := JobStatusBanner.reloads o parseDate
                        JobStatusBanner.NoItem loads in
        let st := JobStatusBanner.construct o now parseDate stored in
        (length (JobStatusBanner.trackedJobs st)
         <= JobStatusBanner.maxTrackedJobs o)%nat
        /\ (length (JobStatusBanner.trackedJobs (JobStatusBanner.run o st es))
            <= JobStatusBanner.maxTrackedJobs o)%nat)
  /\ (forall o now parseDate stored es,
        (length (JobStatusBanner.stored_jobs stored)
         <= JobStatusBanner.maxTrackedJobs o)%nat ->
        let st := JobStatusBanner.run o
                    (JobStatusBanner.construct o now parseDate stored) es in
        (length (JobStatusBanner.trackedJobs st)
         <= JobStatusBanner.maxTrackedJobs o)%nat
        /\ (length (JobStatusBanner.stored_jobs (JobStatusBanner.storage st))
            <= JobStatusBanner.maxTrackedJobs o)%nat)
  /\ (forall o (jobData : obj) st,
        truthy (get jobData "id") = true ->
        findIndex (fun job => strict_eq (get job "id") (get jobData "id"))
          (JobStatusBanner.trackedJobs st) = None ->
        JobStatusBanner.trackedJobs (JobStatusBanner.trackJob o jobData st)
        = take (JobStatusBanner.maxTrackedJobs o)
            (jobData :: JobStatusBanner.trackedJobs st)
        /\ (length (JobStatusBanner.trackedJobs
                      (JobStatusBanner.trackJob o jobData st))
            <= JobStatusBanner.maxTrackedJobs o)%nat)
  /\ (forall o (jobData : obj) st i,
        truthy (get jobData "id") = true ->
        findIndex (fun job => strict_eq (get job "id") (get jobData "id"))
          (JobStatusBanner.trackedJobs st) = Some i ->
        exists old,
          JobStatusBanner.trackedJobs st !! i = Some old
          /\ get old "id" = get jobData "id"
          /\ JobStatusBanner.trackedJobs (JobStatusBanner.trackJob o jobData st)
             = <[i := jobData ∪ old]> (JobStatusBanner.trackedJobs st)
          /\ length (JobStatusBanner.trackedJobs
                       (JobStatusBanner.trackJob o jobData st))
             = length (JobStatusBanner.trackedJobs st))
  /\ (forall (jobData old : obj) k,
        get (jobData ∪ old) k
        = match jobData !! k with
          | Some v => v
          | None => get old k
          end)
  /\ (forall o (jobData : obj) st,
        truthy (get jobData "id") = true ->
        JobStatusBanner.persistInStorage o = true ->
        JobStatusBanner.storage (JobStatusBanner.trackJob o jobData st)
        = JobStatusBanner.Item
            (Some (JobStatusBanner.trackedJobs
                     (JobStatusBanner.trackJob o jobData st)))).
Proof.
  assert (Hgen : forall o now parseDate stored es,
            (length (JobStatusBanner.stored_jobs stored)
             <= JobStatusBanner.maxTrackedJobs o)%nat ->
            let st := JobStatusBanner.run o
                        (JobStatusBanner.construct o now parseDate stored) es in
            (length (JobStatusBanner.trackedJobs st)
             <= JobStatusBanner.maxTrackedJobs o)%nat
            /\ (length (JobStatusBanner.stored_jobs (JobStatusBanner.storage st))
                <= JobStatusBanner.maxTrackedJobs o)%nat).
  { intros o now parseDate stored es Hs.
    apply (kept_reachable o
             (fun l => (length l <= JobStatusBanner.maxTrackedJobs o)%nat)
             (Nat.le_0_l _)
             (bound_filter (JobStatusBanner.maxTrackedJobs o))
             (fun j l _ => track_bound (JobStatusBanner.maxTrackedJobs o) j l)
             now parseDate stored es Hs). }
  split; [reflexivity|]. split; [|split; [exact Hgen|]].
  - intros o parseDate loads now es stored st.
    assert (Hs : (length (JobStatusBanner.stored_jobs stored)
                  <= JobStatusBanner.maxTrackedJobs o)%nat).
    { apply (kept_reloads o
               (fun l => (length l <= JobStatusBanner.maxTrackedJobs o)%nat)
               (Nat.le_0_l _)
               (bound_filter (JobStatusBanner.maxTrackedJobs o))
               (fun j l _ => track_bound (JobStatusBanner.maxTrackedJobs o) j l)
               parseDate loads JobStatusBanner.NoItem).
      apply Nat.le_0_l. }
    split.
    + exact (proj1 (Hgen o now parseDate stored [] Hs)).
    + exact (proj1 (Hgen o now parseDate stored es Hs)).
  - split; [|split; [|split]].
    + intros o jobData st Hid Hf. rewrite (trackJob_tracked o jobData st Hid).
      apply track_new, Hf.
    + intros o jobData st i Hid Hf. rewrite (trackJob_tracked o jobData st Hid).
      apply track_existing, Hf.
    + apply merged_fields.
    + intros o jobData st Hid Hp. unfold JobStatusBanner.trackJob.
      rewrite Hid, Hp. reflexivity.
Qed.

Lemma C8_tracked_jobs_witness :
  let six := map Samples.running_job [1; 2; 3; 4; 5; 6] in
  let loads := [(0, [JobStatusBanner.SettlesActive (Http 200 (Some (Some six)))])] in
  let stored := JobStatusBanner.reloads JobStatusBanner.defaults (fun _ => None)
                  JobStatusBanner.NoItem loads in
  let st := JobStatusBanner.construct JobStatusBanner.defaults 1
              (fun _ => None) stored in
  stored = JobStatusBanner.Item (Some (map Samples.running_job [6; 5; 4; 3; 2]))
  /\ (length (JobStatusBanner.trackedJobs st) <= 5)%nat
  /\ (length (JobStatusBanner.trackedJobs
                (JobStatusBanner.run JobStatusBanner.defaults st
                   [JobStatusBanner.SettlesStatus 2
                      (Http 200 (Some (Samples.running_job 9)))])) <= 5)%nat.
Proof.
  intros six loads stored st.
  destruct C8_tracked_jobs as (_ & Hloads & _).
  split; [vm_compute; reflexivity|].
  exact (Hloads JobStatusBanner.defaults (fun _ => None) loads 1
           [JobStatusBanner.SettlesStatus 2
              (Http 200 (Some (Samples.running_job 9)))]).
Defined.

(** A job id occurs at most once in the tracked-jobs list: started from
    a storage record whose jobs have distinct ids (or from none), the
    list never holds two entries with the same id, whatever responses
    arrive and whatever timers fire. *)
Theorem banner_tracked_ids_distinct
    (o : JobStatusBanner.Options) (now : Z) (parseDate : jsval -> option Z)
    (stored : JobStatusBanner.Stored) (es : list JobStatusBanner.Event) :
  match stored with
  | JobStatusBanner.Item (Some jobs) => NoDup (JobStatusBanner.ids jobs)
  | _ => True
  end ->
  NoDup (JobStatusBanner.ids
           (JobStatusBanner.trackedJobs
              (JobStatusBanner.run o
                 (JobStatusBanner.construct o now parseDate stored) es))).
Proof.
  intros Hs.
  assert (Hgen : forall st,
    NoDup (JobStatusBanner.ids (JobStatusBanner.trackedJobs st)) ->
    NoDup (JobStatusBanner.ids
             (JobStatusBanner.trackedJobs (JobStatusBanner.run o st es)))).
  { induction es as [|e es IH]; intros st H; simpl; [exact H|].
    apply IH, NoDup_step, H. }
  apply Hgen. unfold JobStatusBanner.construct.
  assert (Hinit : forall st,
    JobStatusBanner.trackedJobs (JobStatusBanner.init o st)
    = JobStatusBanner.trackedJobs st).
  { intros st. unfold JobStatusBanner.init.
    destruct (JobStatusBanner.initialized st); [reflexivity|].
    rewrite tracked_checkActiveJobs. reflexivity. }
  rewrite Hinit.
  destruct (JobStatusBanner.persistInStorage o); [|apply NoDup_nil_2].
  unfold JobStatusBanner.loadFromStorage. simpl.
  destruct stored as [| |[jobs|]]; simpl; try apply NoDup_nil_2.
  eapply sublist_NoDup; [exact Hs | apply ids_filter_sublist].
Qed.

Lemma banner_tracked_ids_distinct_witness :
  NoDup (JobStatusBanner.ids (map Samples.running_job [1; 2; 3; 4; 5; 6]))
  /\ NoDup (JobStatusBanner.ids
              (JobStatusBanner.trackedJobs
                 (JobStatusBanner.run JobStatusBanner.defaults
                    (JobStatusBanner.construct JobStatusBanner.defaults 0
                       (fun _ => None) Samples.six_stored)
                    [JobStatusBanner.SettlesStatus 5
                       (Http 200 (Some (Samples.running_job 3)))]))).
Proof.
  assert (H : NoDup (JobStatusBanner.ids
                       (map Samples.running_job [1; 2; 3; 4; 5; 6]))).
  { vm_compute. repeat (apply NoDup_cons; split;
      [rewrite ?elem_of_cons, elem_of_nil; intros Hx;
       repeat (destruct Hx as [Hx|Hx]; [discriminate Hx|]); exact Hx|]).
    apply NoDup_nil_2. }
  split; [exact H|].
  exact (banner_tracked_ids_distinct JobStatusBanner.defaults 0
           (fun _ => None) Samples.six_stored
           [JobStatusBanner.SettlesStatus 5
              (Http 200 (Some (Samples.running_job 3)))] H).
Defined.

(** With a non-empty tracked list the banner always polls the most
    recent tracked job, whichever job the banner currently shows: the
    list-active-jobs endpoint is not called, and when that job has no
    usable id nothing is requested at all. *)
Theorem banner_polls_most_recent_job
    (o : JobStatusBanner.Options) (st : JobStatusBanner.State)
    (mostRecentJob : obj) (rest : list obj) :
  JobStatusBanner.trackedJobs st = mostRecentJob :: rest ->
  JobStatusBanner.checkActiveJobs o st
  = JobStatusBanner.fetchJobStatus o (get mostRecentJob "id") st
  /\ JobStatusBanner.inflightActive (JobStatusBanner.checkActiveJobs o st)
     = JobStatusBanner.inflightActive st
  /\ (truthy (get mostRecentJob "id") = false ->
      JobStatusBanner.checkActiveJobs o st = st)
  /\ (truthy (get mostRecentJob "id") = true ->
      JobStatusBanner.fetched (JobStatusBanner.checkActiveJobs o st)
      = (JobStatusBanner.fetched st
         ++ [strip_trailing_slash (JobStatusBanner.checkEndpoint o)
             +:+ "/?job_id=" +:+ to_string (get mostRecentJob "id")])%list).
Proof.
  intros Ht.
  assert (E : JobStatusBanner.checkActiveJobs o st
              = JobStatusBanner.fetchJobStatus o (get mostRecentJob "id") st).
  { unfold JobStatusBanner.checkActiveJobs. rewrite Ht.
    destruct (JobStatusBanner.activeBanner st) as [b|]; [|reflexivity].
    destruct (strict_eq _ _) eqn:Hb; [|reflexivity].
    apply bool_decide_eq_true in Hb. rewrite Hb. reflexivity. }
  rewrite E. unfold JobStatusBanner.fetchJobStatus.
  split; [reflexivity|].
  destruct (truthy (get mostRecentJob "id")); split; try reflexivity;
    split; intros H; try discriminate H; reflexivity.
Qed.

Lemma banner_polls_most_recent_job_witness :
  let st := JobStatusBanner.loadFromStorage 0 (fun _ => None)
              (JobStatusBanner.fresh Samples.six_stored) in
  JobStatusBanner.trackedJobs st
  = Samples.running_job 1 :: map Samples.running_job [2; 3; 4; 5; 6]
  /\ JobStatusBanner.fetched
       (JobStatusBanner.checkActiveJobs JobStatusBanner.defaults st)
     = ["/check-job-status/?job_id=1"].
Proof.
  intros st.
  assert (Ht : JobStatusBanner.trackedJobs st
               = Samples.running_job 1
                 :: map Samples.running_job [2; 3; 4; 5; 6]) by reflexivity.
  destruct (banner_polls_most_recent_job JobStatusBanner.defaults st _ _ Ht)
    as (_ & _ & _ & Hf).
  split; [exact Ht|]. rewrite Hf; reflexivity.
Defined.

(** Reloading the page resumes tracking: the list a new instance loads
    from the storage record written by trackJob is the tracked list
    itself, in the same order, without the jobs that completed more than
    an hour ago; in particular it is never longer, and it is identical
    when no tracked job is completed. *)
Theorem banner_reload_resumes_tracking
    (o : JobStatusBanner.Options) (now : Z) (parseDate : jsval -> option Z)
    (jobData : obj) (st : JobStatusBanner.State) :
  truthy (get jobData "id") = true ->
  JobStatusBanner.persistInStorage o = true ->
  let tracked := JobStatusBanner.trackedJobs
                   (JobStatusBanner.trackJob o jobData st) in
  let st' := JobStatusBanner.construct o now parseDate
               (JobStatusBanner.storage (JobStatusBanner.trackJob o jobData st)) in
  JobStatusBanner.trackedJobs st'
  = List.filter (JobStatusBanner.keep_stored now parseDate) tracked
  /\ (length (JobStatusBanner.trackedJobs st') <= length tracked)%nat
  /\ (Forall (fun job => get job "status" <> JStr "completed") tracked ->
      JobStatusBanner.trackedJobs st' = tracked).
Proof.
  intros Hid Hp tracked st'.
  assert (Hsto : JobStatusBanner.storage (JobStatusBanner.trackJob o jobData st)
                 = JobStatusBanner.Item (Some tracked)).
  { subst tracked. unfold JobStatusBanner.trackJob. rewrite Hid, Hp.
    reflexivity. }
  assert (Hinit : forall s,
    JobStatusBanner.trackedJobs (JobStatusBanner.init o s)
    = JobStatusBanner.trackedJobs s).
  { intros s. unfold JobStatusBanner.init.
    destruct (JobStatusBanner.initialized s); [reflexivity|].
    rewrite tracked_checkActiveJobs. reflexivity. }
  subst st'. unfold JobStatusBanner.construct. rewrite Hinit, Hp, Hsto.
  apply (loadFromStorage_tracked now parseDate
           (JobStatusBanner.fresh (JobStatusBanner.Item (Some tracked)))
           tracked eq_refl).
Qed.

Lemma banner_reload_resumes_tracking_witness :
  let st := JobStatusBanner.fresh JobStatusBanner.NoItem in
  truthy (get (Samples.running_job 1) "id") = true
  /\ JobStatusBanner.persistInStorage JobStatusBanner.defaults = true
  /\ JobStatusBanner.trackedJobs
       (JobStatusBanner.construct JobStatusBanner.defaults 0 (fun _ => None)
          (JobStatusBanner.storage
             (JobStatusBanner.trackJob JobStatusBanner.defaults
                (Samples.running_job 1) st)))
     = List.filter (JobStatusBanner.keep_stored 0 (fun _ => None))
         (JobStatusBanner.trackedJobs
            (JobStatusBanner.trackJob JobStatusBanner.defaults
               (Samples.running_job 1) st)).
Proof.
  intros st. split; [reflexivity|]. split; [reflexivity|].
  exact (proj1 (banner_reload_resumes_tracking JobStatusBanner.defaults 0
                  (fun _ => None) (Samples.running_job 1) st
                  eq_refl eq_refl)).
Defined.

Section BannerAdoption.
Import JobStatusBanner.
Variable o : Options.

Lemma not_in_findIndex_None (jobData : obj) (tracked : list obj) :
  get jobData "id" ∉ ids tracked ->
  findIndex (fun job => strict_eq (get job "id") (get jobData "id")) tracked
  = None.
Proof.
  unfold ids. induction tracked as [|job l IH]; simpl; [reflexivity|].
  intros H. apply not_elem_of_cons in H as [Hne Hl].
  unfold strict_eq at 1. rewrite bool_decide_eq_false_2 by congruence.
  rewrite (IH Hl). reflexivity.
Qed.

Lemma take_cons_take {A : Type} n (x : A) l :
  take n (x :: take n l) = take n (x :: l).
Proof.
  destruct n as [|n]; simpl; [reflexivity|].
  rewrite take_take. f_equal. f_equal. lia.
Qed.

Lemma fold_trackJob_new jobs acc st :
  trackedJobs st = take (maxTrackedJobs o) acc ->
  Forall (fun job => truthy (get job "id") = true) jobs ->
  NoDup (ids (reverse jobs ++ acc)) ->
  trackedJobs (fold_left (fun s job => trackJob o job s) jobs st)
  = take (maxTrackedJobs o) (reverse jobs ++ acc).
Proof.
  revert acc st. induction jobs as [|j jobs IH]; intros acc st Ht Hall Hnd.
  - exact Ht.
  - inversion Hall as [|? ? Hj Hjobs]; subst. simpl.
    rewrite reverse_cons, <- app_assoc in *. simpl in *.
    apply IH; [|exact Hjobs | exact Hnd].
    rewrite (trackJob_tracked o j st Hj), Ht.
    assert (Hnot : get j "id" ∉ ids (take (maxTrackedJobs o) acc)).
    { unfold ids in *. rewrite fmap_app in Hnd.
      apply NoDup_app in Hnd as (_ & _ & Hnd). simpl in Hnd.
      apply NoDup_cons in Hnd as [Hnot _].
      intros Hin. apply Hnot. rewrite fmap_take in Hin.
      exact (elem_of_sublist _ _ _ Hin (sublist_take _ _)). }
    destruct (track_new (maxTrackedJobs o) j _ (not_in_findIndex_None j _ Hnot))
      as [-> _].
    apply take_cons_take.
Qed.

Lemma updateBanner_completed now (data : obj) st :
  truthy (get data "id") = true ->
  get data "status" = JStr "completed" ->
  let st1 := fst (updateBanner o now data st) in
  completion_seen (get data "id") st1 = true
  /\ shown st1 = true
  /\ hideTimers st1
     = (if completion_seen (get data "id") st then hideTimers st
        else (nextTimer st, get data "id") :: hideTimers st)
  /\ nextTimer st1
     = (if completion_seen (get data "id") st then nextTimer st
        else S (nextTimer st)).
Proof.
  intros Hid Hs. unfold updateBanner. rewrite Hid, Hs. simpl negb.
  cbv iota.
  assert (Hv : view (trackJob o data st) = view st) by apply trackJob_view.
  assert (Hh : hideTimers (trackJob o data st) = hideTimers st
               /\ nextTimer (trackJob o data st) = nextTimer st).
  { unfold trackJob. rewrite Hid. destruct (persistInStorage o); auto. }
  destruct Hh as [Hh Hn]. unfold view in Hv. injection Hv as Ha Hsh.
  change (or_else (JStr "completed") (JStr "unknown")) with (JStr "completed").
  change (paint (currentWidth (painted st)) (JStr "completed")
            (or_else (get data "progress_percent") (JNum 0)))
    with (Some {| badgeText := "Completed";
                  badgeClass := "status-badge bg-success";
                  barWidth := assign_width
                                (or_else (get data "progress_percent") (JNum 0))
                                (currentWidth (painted st));
                  progressText := to_string (or_else (get data "progress_percent")
                                               (JNum 0)) +:+ "%" |}).
  rewrite Ha. unfold completion_seen.
  change (strict_eq (JStr "completed") (JStr "completed")) with true.
  assert (Hrefl : forall v, strict_eq v v = true)
    by (intros v; apply bool_decide_eq_true_2; reflexivity).
  destruct (activeBanner st) as [b|]; simpl.
  - destruct (strict_eq (jobId b) (get data "id")) eqn:Hb; simpl.
    + destruct (completedTime b) as [t|] eqn:Hc; simpl;
        rewrite ?Hb, ?Hrefl, ?Hh, ?Hn; simpl; auto.
    + rewrite ?Hrefl, ?Hh, ?Hn; simpl; auto.
  - rewrite ?Hrefl, ?Hh, ?Hn; simpl; auto.
Qed.

End BannerAdoption.

(** When the banner tracks nothing and the list-active-jobs call returns
    jobs with distinct usable ids, it adopts them in reverse order, cut to
    maxTrackedJobs: the last job of the response becomes the most recent
    tracked job, while the status request sent at once is for the first
    job of the response. *)
Theorem banner_adopts_active_jobs_reversed
    (o : JobStatusBanner.Options) (st : JobStatusBanner.State)
    (first : obj) (rest : list obj) :
  JobStatusBanner.trackedJobs st = [] ->
  Forall (fun job => truthy (get job "id") = true) (first :: rest) ->
  NoDup (JobStatusBanner.ids (first :: rest)) ->
  let st' := JobStatusBanner.onActiveJobs o (Some (first :: rest)) st in
  JobStatusBanner.trackedJobs st'
  = take (JobStatusBanner.maxTrackedJobs o) (reverse (first :: rest))
  /\ JobStatusBanner.fetched st'
     = (JobStatusBanner.fetched st
        ++ [strip_trailing_slash (JobStatusBanner.checkEndpoint o)
            +:+ "/?job_id=" +:+ to_string (get first "id")])%list.
Proof.
  intros Ht Hall Hnd st'. subst st'. unfold JobStatusBanner.onActiveJobs.
  rewrite tracked_fetchJobStatus.
  split.
  - rewrite (fold_trackJob_new o (first :: rest) [] st);
      [rewrite app_nil_r; reflexivity | rewrite Ht; destruct (JobStatusBanner.maxTrackedJobs o); reflexivity | exact Hall |].
    rewrite app_nil_r. unfold JobStatusBanner.ids in *.
    rewrite fmap_reverse, reverse_Permutation. exact Hnd.
  - inversion Hall as [|? ? Hf _]; subst.
    unfold JobStatusBanner.fetchJobStatus. rewrite Hf.
    unfold JobStatusBanner.fetched. simpl. f_equal. f_equal.
    assert (Hlog : forall jobs s,
      omap (fun e => match e with
                     | JobStatusBanner.Fetch u => Some u
                     | _ => None
                     end)
        (JobStatusBanner.log
           (fold_left (fun acc job => JobStatusBanner.trackJob o job acc) jobs s))
      = omap (fun e => match e with
                       | JobStatusBanner.Fetch u => Some u
                       | _ => None
                       end)
          (JobStatusBanner.log s)).
    { induction jobs as [|j jobs IH]; intros s; simpl; [reflexivity|].
      rewrite IH. unfold JobStatusBanner.trackJob.
      destruct (truthy (get j "id")); [|reflexivity].
      destruct (JobStatusBanner.persistInStorage o); reflexivity. }
    apply (Hlog (first :: rest) st).
Qed.

Lemma banner_adopts_active_jobs_reversed_witness :
  let st := JobStatusBanner.fresh JobStatusBanner.NoItem in
  let jobs := [Samples.running_job 1; Samples.running_job 2] in
  JobStatusBanner.trackedJobs
    (JobStatusBanner.onActiveJobs JobStatusBanner.defaults (Some jobs) st)
  = take 5 (reverse jobs)
  /\ JobStatusBanner.fetched
       (JobStatusBanner.onActiveJobs JobStatusBanner.defaults (Some jobs) st)
     = ["/check-job-status/?job_id=1"].
Proof.
  intros st jobs.
  assert (Hall : Forall (fun job : obj => truthy (get job "id") = true) jobs)
    by (repeat constructor).
  assert (Hnd : NoDup (JobStatusBanner.ids jobs)).
  { vm_compute. apply NoDup_cons. split.
    - rewrite elem_of_cons, elem_of_nil. intros [Hx|Hx]; [discriminate Hx | exact Hx].
    - apply NoDup_cons. split; [apply not_elem_of_nil | apply NoDup_nil_2]. }
  destruct (banner_adopts_active_jobs_reversed JobStatusBanner.defaults st
              (Samples.running_job 1) [Samples.running_job 2]
              eq_refl Hall Hnd) as [Ht Hf].
  split; [exact Ht | exact Hf].
Defined.

(** The auto-hide timer of the banner is armed when the completion of a
    job is first observed and not on later polls of the same job: showing
    a completed job arms one timer unless the banner already shows that
    job with its completion recorded, and a second poll of the same
    payload arms none.  When the timer armed for the job fires while the
    banner still shows it, the banner is hidden. *)
Theorem banner_hide_timer_armed_once
    (o : JobStatusBanner.Options) (now now' : Z) (data : obj)
    (st : JobStatusBanner.State) :
  truthy (get data "id") = true ->
  get data "status" = JStr "completed" ->
  let st1 := fst (JobStatusBanner.updateBanner o now data st) in
  let st2 := fst (JobStatusBanner.updateBanner o now' data st1) in
  JobStatusBanner.shown st1 = true
  /\ JobStatusBanner.hideTimers st1
     = (if JobStatusBanner.completion_seen (get data "id") st
        then JobStatusBanner.hideTimers st
        else (JobStatusBanner.nextTimer st, get data "id")
             :: JobStatusBanner.hideTimers st)
  /\ JobStatusBanner.hideTimers st2 = JobStatusBanner.hideTimers st1
  /\ (forall id rest,
        JobStatusBanner.hideTimers st1 = (id, get data "id") :: rest ->
        JobStatusBanner.shown (JobStatusBanner.hideTimerFires id st1) = false
        /\ JobStatusBanner.activeBanner (JobStatusBanner.hideTimerFires id st1)
           = None).
Proof.
  intros Hid Hs st1 st2.
  destruct (updateBanner_completed o now data st Hid Hs) as (Hc & Hsh & Hh & _).
  fold st1 in Hc, Hsh, Hh.
  destruct (updateBanner_completed o now' data st1 Hid Hs) as (_ & _ & Hh2 & _).
  fold st2 in Hh2. rewrite Hc in Hh2.
  split; [exact Hsh|]. split; [exact Hh|]. split; [exact Hh2|].
  intros id rest Ht. unfold JobStatusBanner.hideTimerFires. rewrite Ht.
  simpl. rewrite Nat.eqb_refl. simpl.
  unfold JobStatusBanner.completion_seen in Hc.
  destruct (JobStatusBanner.activeBanner st1) as [b|]; [|discriminate].
  apply andb_true_iff in Hc as [Hb _]. rewrite Hb. auto.
Qed.

Lemma banner_hide_timer_armed_once_witness :
  let data : obj := {[ "id" := JNum 7; "status" := JStr "completed" ]} in
  let st := JobStatusBanner.fresh JobStatusBanner.NoItem in
  let st1 := fst (JobStatusBanner.updateBanner JobStatusBanner.defaults 0 data st) in
  let st2 := fst (JobStatusBanner.updateBanner JobStatusBanner.defaults 5000 data st1) in
  truthy (get data "id") = true
  /\ JobStatusBanner.hideTimers st1 = [(1%nat, JNum 7)]
  /\ JobStatusBanner.hideTimers st2 = JobStatusBanner.hideTimers st1
  /\ JobStatusBanner.shown (JobStatusBanner.hideTimerFires 1 st1) = false.
Proof.
  intros data st st1 st2.
  destruct (banner_hide_timer_armed_once JobStatusBanner.defaults 0 5000 data st
              eq_refl eq_refl) as (_ & Hh & Hh2 & Hfire).
  fold st1 in Hh, Hh2, Hfire. fold st2 in Hh2.
  split; [reflexivity|]. split; [exact Hh|]. split; [exact Hh2|].
  exact (proj1 (Hfire 1%nat [] Hh)).
Defined.

(** ** Phase marks *)

Section PhaseMarks.
Import JobProgress.

Ltac fold_omap :=
  repeat match goal with
         | |- context [list_omap ?A ?B ?g ?l] =>
             change (list_omap A B g l) with (omap g l)
         end.

Lemma active_count_omap (present : string -> bool) (f : string -> PhaseClass)
    (l : list string) :
  (active_count
     (omap (fun n => if present n then Some (n, f n) else None) l)
   <= length (List.filter (fun n => match f n with
                                    | PhaseActive => true
                                    | _ => false
                                    end) l))%nat.
Proof.
  unfold active_count. induction l as [|n l IH]; simpl; [lia|].
  destruct (present n); simpl; destruct (f n); simpl; fold_omap; lia.
Qed.

Lemma pending_omap (present : string -> bool) (f : string -> PhaseClass)
    (l : list string) :
  Forall (fun n => f n = PhasePending) l ->
  Forall (fun m => snd m = PhasePending)
    (omap (fun n => if present n then Some (n, f n) else None) l).
Proof.
  induction 1 as [|n l Hn _ IH]; simpl; [constructor|].
  destruct (present n); simpl; fold_omap;
    [constructor; [exact Hn | exact IH] | exact IH].
Qed.

Lemma names_omap (present : string -> bool) (f : string -> PhaseClass)
    (l : list string) :
  map fst (omap (fun n => if present n then Some (n, f n) else None) l)
  = List.filter present l.
Proof.
  induction l as [|n l IH]; simpl; [reflexivity|].
  destruct (present n); simpl; fold_omap; rewrite IH; reflexivity.
Qed.

Lemma classic_string (v : jsval) :
  (exists s, v = JStr s) \/ (forall s, v <> JStr s).
Proof.
  destruct v; try (right; intros s0; discriminate). left. eexists. reflexivity.
Qed.

Lemma order_of_range v : 0 <= order_of v <= 5.
Proof.
  destruct v; unfold order_of; try lia.
  unfold phaseOrder, lookup_order.
  repeat match goal with
         | |- context [String.eqb ?a ?s] => destruct (String.eqb a s)
         end; lia.
Qed.

Lemma phaseClass_not_string phase name :
  (forall s, phase <> JStr s) -> phaseClass phase name = PhasePending.
Proof.
  intros H. unfold phaseClass, strict_eq.
  rewrite bool_decide_eq_false_2 by (intros E; apply (H name); congruence).
  pose proof (order_of_range (JStr name)) as Hr.
  destruct phase; try (exfalso; eapply H; reflexivity);
    change (order_of _) with 0 at 2;
    (destruct (Z.ltb_spec (order_of (JStr name)) 0); [lia|reflexivity]).
Qed.

Lemma phaseClass_unknown s name :
  ~ In s phaseElements -> name <> s -> phaseClass (JStr s) name = PhasePending.
Proof.
  intros H Hne. unfold phaseClass. rewrite strict_eq_strings.
  destruct (String.eqb_spec name s) as [E|_]; [contradiction|].
  assert (Ho : order_of (JStr s) = 0).
  { unfold order_of, phaseOrder, lookup_order.
    repeat match goal with
           | |- context [String.eqb ?a s] =>
               destruct (String.eqb_spec a s) as [E|_];
               [exfalso; apply H; rewrite <- E; simpl; tauto|]
           end.
    reflexivity. }
  rewrite Ho.
  pose proof (order_of_range (JStr name)) as Hr.
  destruct (Z.ltb_spec (order_of (JStr name)) 0); [lia|reflexivity].
Qed.

(** The pipeline phases and the classes they give, name by name. *)
Lemma active_filter_le_1 phase :
  (length (List.filter (fun n => match phaseClass phase n with
                                 | PhaseActive => true
                                 | _ => false
                                 end) phaseElements) <= 1)%nat.
Proof.
  destruct (classic_string phase) as [[s ->]|Hn].
  - unfold phaseElements.
    assert (Hin : In s phaseElements \/ ~ In s phaseElements).
    { destruct (in_dec String.string_dec s phaseElements); [left|right]; assumption. }
    destruct Hin as [Hin|Hout].
    + simpl in Hin.
      repeat (destruct Hin as [<-|Hin]; [vm_compute; lia|]). destruct Hin.
    + assert (Hp : forall n, In n phaseElements ->
                             phaseClass (JStr s) n = PhasePending).
      { intros n Hn. apply phaseClass_unknown; [exact Hout|].
        intros ->. contradiction. }
      cbn [List.filter].
      rewrite !Hp by (simpl; tauto). simpl. lia.
  - cbn [List.filter phaseElements].
    rewrite !(phaseClass_not_string _ _ Hn). simpl. lia.
Qed.

End PhaseMarks.

(** updatePhaseDisplay touches exactly the phase elements that exist, in
    the order of the phase table, and never marks more than one of them
    active.  When the phase is not one of the six names (another
    spelling or letter case, or a value that is not a string) every
    element is marked pending: nothing is active and nothing complete. *)
Theorem progress_phase_marks (present : string -> bool) (phase : jsval) :
  map fst (JobProgress.updatePhaseDisplay present phase)
  = List.filter present JobProgress.phaseElements
  /\ (JobProgress.active_count (JobProgress.updatePhaseDisplay present phase)
      <= 1)%nat
  /\ ((forall n, In n JobProgress.phaseElements -> phase <> JStr n) ->
      Forall (fun m => snd m = JobProgress.PhasePending)
        (JobProgress.updatePhaseDisplay present phase)).
Proof.
  unfold JobProgress.updatePhaseDisplay.
  split; [apply names_omap|]. split.
  - etransitivity; [apply active_count_omap | apply active_filter_le_1].
  - intros H. apply pending_omap. apply Forall_forall. intros n Hn.
    apply list_elem_of_In in Hn.
    destruct (classic_string phase) as [[s ->]|Hs].
    + apply phaseClass_unknown.
      * intros Hin. exact (H s Hin eq_refl).
      * intros ->. exact (H s Hn eq_refl).
    + apply phaseClass_not_string, Hs.
Qed.

Lemma progress_phase_marks_witness :
  Forall (fun m => snd m = JobProgress.PhasePending)
    (JobProgress.updatePhaseDisplay (fun _ => true) (JStr "Extracting")).
Proof.
  apply (proj2 (proj2 (progress_phase_marks (fun _ => true) (JStr "Extracting")))).
  intros n Hn. simpl in Hn.
  repeat (destruct Hn as [<-|Hn]; [discriminate|]). destruct Hn.
Defined.

Lemma markIndicators_after current l :
  StatusUpdater.markIndicators current true l
  = map (fun p => String.eqb p current) l.
Proof.
  induction l as [|p l IH]; simpl; [reflexivity|].
  rewrite IH. destruct (String.eqb p current); reflexivity.
Qed.

(** The step indicators of StatusUpdater: every indicator up to and
    including the first one whose phase is the current phase is active,
    after it only indicators that repeat the current phase are; when no
    indicator carries the current phase, all of them are active. *)
Theorem updater_indicator_marks (current : string) (before after : list string) :
  ~ In current before ->
  StatusUpdater.markIndicators current false before
  = repeat true (length before)
  /\ StatusUpdater.markIndicators current false (before ++ current :: after)
     = (repeat true (S (length before))
        ++ map (fun p => String.eqb p current) after)%list.
Proof.
  induction before as [|p l IH]; intros Hn.
  - split; [reflexivity|]. simpl. rewrite String.eqb_refl, markIndicators_after.
    reflexivity.
  - assert (Hp : String.eqb p current = false).
    { apply String.eqb_neq. intros ->. apply Hn. left. reflexivity. }
    destruct IH as [IH1 IH2]; [intros Hin; apply Hn; right; exact Hin|].
    split; simpl; rewrite Hp; [rewrite IH1 | rewrite IH2]; reflexivity.
Qed.

Lemma updater_indicator_marks_witness :
  StatusUpdater.markIndicators "sending" false
    (["initializing"; "preparing"] ++ "sending" :: ["sending"; "completed"])
  = (repeat true 3 ++ [true; false])%list.
Proof.
  refine (proj2 (updater_indicator_marks "sending" ["initializing"; "preparing"]
                   ["sending"; "completed"] _)).
  simpl. intros [H|[H|[]]]; discriminate.
Defined.

(** A successful response wipes the failure history of StatusUpdater: in
    any run started with startPolling, after a success that keeps polling
    the next request is due after pollInterval, and if that request fails
    the retry counter is 1 and the retry is due after
    min(30000, 2 * pollInterval), whatever number of failures came
    before. *)
Theorem updater_success_resets_backoff
    (o : StatusUpdater.Options) (jobId : jsval) (es : list StatusUpdater.Event)
    (code : Z) (d : StatusUpdater.Payload) (r : Response StatusUpdater.Payload) :
  forallb StatusUpdater.not_start es = true ->
  let st := StatusUpdater.run o (StatusUpdater.startPolling o jobId StatusUpdater.init) es in
  StatusUpdater.inflight st <> 0%nat ->
  http_ok code = true ->
  StatusUpdater.updateStatus_throws (StatusUpdater.statusData d) = false ->
  StatusUpdater.shouldContinuePolling d = Some true ->
  is_failure r = true ->
  1 < StatusUpdater.maxRetries o ->
  let st1 := StatusUpdater.settle o (Http code (Some d)) st in
  let st2 := StatusUpdater.settle o r
               (StatusUpdater.fire o (StatusUpdater.nextTimer st) st1) in
  StatusUpdater.retryCount st1 = 0
  /\ StatusUpdater.timeouts st1
     = [(StatusUpdater.nextTimer st, StatusUpdater.pollInterval o)]
  /\ StatusUpdater.retryCount st2 = 1
  /\ StatusUpdater.timeouts st2
     = [(S (StatusUpdater.nextTimer st),
         Z.min 30000 (StatusUpdater.pollInterval o * 2))].
Proof.
  intros Hes st Hn Hok Hth Hsc Hr Hmax st1 st2.
  pose proof (armed_inv_run o jobId es Hes) as Ha. fold st in Ha.
  pose proof (pending_job_id o jobId es Hes) as Hj. simpl in Hj. fold st in Hj.
  unfold StatusUpdater.armed_inv in Ha.
  destruct (StatusUpdater.inflight st) as [|n] eqn:En; [congruence|].
  destruct (StatusUpdater.timeouts st) as [|[id dl] [|t ts]] eqn:Et;
    try contradiction; [|destruct Ha; discriminate].
  assert (Hjob : truthy (StatusUpdater.currentJobId st) = true)
    by (apply Hj; simpl; lia).
  assert (n = 0%nat) as -> by lia.
  assert (E : st1 = StatusUpdater.schedulePoll o
                      (StatusUpdater.updateStatus d
                         (StatusUpdater.set_retryCount 0
                            (StatusUpdater.set_inflight 0 st)))).
  { subst st1. unfold StatusUpdater.settle. rewrite En, Hok.
    unfold StatusUpdater.onSuccess. rewrite Hth, Hsc. reflexivity. }
  assert (H1 : StatusUpdater.retryCount st1 = 0
               /\ StatusUpdater.timeouts st1
                  = [(StatusUpdater.nextTimer st, StatusUpdater.pollInterval o)]
               /\ StatusUpdater.nextTimer st1 = S (StatusUpdater.nextTimer st)
               /\ StatusUpdater.currentJobId st1 = StatusUpdater.currentJobId st
               /\ StatusUpdater.inflight st1 = 0%nat).
  { rewrite E. unfold StatusUpdater.schedulePoll, StatusUpdater.setTimeout_poll.
    cbn [StatusUpdater.timeouts StatusUpdater.pollTimer StatusUpdater.nextTimer
         StatusUpdater.updateStatus StatusUpdater.emit StatusUpdater.retryCount
         StatusUpdater.currentJobId StatusUpdater.inflight
         StatusUpdater.set_retryCount StatusUpdater.set_inflight].
    rewrite Et. auto. }
  destruct H1 as (R1 & T1 & N1 & J1 & I1).
  split; [exact R1|]. split; [exact T1|].
  set (f := StatusUpdater.fire o (StatusUpdater.nextTimer st) st1) in *.
  assert (Hf : StatusUpdater.inflight f = 1%nat
               /\ StatusUpdater.timeouts f = []
               /\ StatusUpdater.retryCount f = 0
               /\ StatusUpdater.nextTimer f = S (StatusUpdater.nextTimer st)).
  { subst f. unfold StatusUpdater.fire. rewrite T1.
    cbn [StatusUpdater.armed existsb fst]. rewrite Nat.eqb_refl. cbn [orb].
    unfold StatusUpdater.pollStatus.
    cbn [StatusUpdater.currentJobId StatusUpdater.inflight].
    rewrite J1, Hjob, I1, R1, N1.
    cbn [StatusUpdater.emit StatusUpdater.set_inflight StatusUpdater.inflight
         StatusUpdater.timeouts StatusUpdater.retryCount StatusUpdater.nextTimer
         StatusUpdater.disarm List.filter fst negb].
    rewrite Nat.eqb_refl. auto. }
  destruct Hf as (F1 & F2 & F3 & F4).
  subst st2. rewrite (settle_failure o r f 0 F1 Hr).
  unfold StatusUpdater.onFailure.
  cbn [StatusUpdater.set_retryCount StatusUpdater.retryCount StatusUpdater.emit
       StatusUpdater.set_inflight].
  rewrite F3. change (0 + 1) with 1.
  destruct (Z.leb_spec (StatusUpdater.maxRetries o) 1) as [Hle|_]; [lia|].
  unfold StatusUpdater.setTimeout_poll, StatusUpdater.backoffTime.
  cbn [StatusUpdater.retryCount StatusUpdater.timeouts StatusUpdater.nextTimer
       StatusUpdater.set_retryCount StatusUpdater.emit StatusUpdater.set_inflight].
  rewrite F2, F4. split; [reflexivity|]. reflexivity.
Qed.

Lemma updater_success_resets_backoff_witness :
  let d := {| StatusUpdater.top := {[ "status" := JStr "processing" ]};
              StatusUpdater.job := None |} in
  let st := StatusUpdater.run StatusUpdater.defaults
              (StatusUpdater.startPolling StatusUpdater.defaults (JStr "j1")
                 StatusUpdater.init) [] in
  let st1 := StatusUpdater.settle StatusUpdater.defaults (Http 200 (Some d)) st in
  let st2 := StatusUpdater.settle StatusUpdater.defaults NetworkError
               (StatusUpdater.fire StatusUpdater.defaults
                  (StatusUpdater.nextTimer st) st1) in
  StatusUpdater.retryCount st2 = 1
  /\ StatusUpdater.timeouts st2
     = [(S (StatusUpdater.nextTimer st),
         Z.min 30000 (StatusUpdater.pollInterval StatusUpdater.defaults * 2))].
Proof.
  intros d st st1 st2.
  assert (Hn : StatusUpdater.inflight st <> 0%nat) by (vm_compute; discriminate).
  destruct (updater_success_resets_backoff StatusUpdater.defaults (JStr "j1") []
              200 d NetworkError eq_refl Hn eq_refl eq_refl eq_refl eq_refl
              eq_refl) as (_ & _ & H3 & H4).
  split; [exact H3 | exact H4].
Defined.

(** ** The page written by JobProgress *)

Lemma classList_remove_idem names cl :
  JobProgress.classList_remove names (JobProgress.classList_remove names cl)
  = JobProgress.classList_remove names cl.
Proof.
  unfold JobProgress.classList_remove. induction cl as [|c cl IH]; simpl;
    [reflexivity|].
  destruct (existsb (String.eqb c) names) eqn:E; simpl; [exact IH|].
  rewrite E. simpl. rewrite IH. reflexivity.
Qed.

Lemma existsb_eqb_In (c : string) (l : list string) :
  existsb (String.eqb c) l = true <-> In c l.
Proof.
  rewrite existsb_exists. split.
  - intros (x & Hx & E). apply String.eqb_eq in E. subst. exact Hx.
  - intros H. exists c. split; [exact H | apply String.eqb_refl].
Qed.

Lemma not_in_classList_remove c names cl :
  In c names -> existsb (String.eqb c) (JobProgress.classList_remove names cl) = false.
Proof.
  intros Hc. apply not_true_is_false. intros H.
  apply existsb_eqb_In in H. unfold JobProgress.classList_remove in H.
  apply filter_In in H as [_ H]. apply negb_true_iff in H.
  apply not_true_iff_false in H. apply H. apply existsb_eqb_In. exact Hc.
Qed.

Lemma classList_remove_add c names cl :
  In c names ->
  JobProgress.classList_remove names
    (JobProgress.classList_add c (JobProgress.classList_remove names cl))
  = JobProgress.classList_remove names cl.
Proof.
  intros Hc. unfold JobProgress.classList_add.
  rewrite (not_in_classList_remove c names cl Hc).
  unfold JobProgress.classList_remove at 1. rewrite List.filter_app.
  fold (JobProgress.classList_remove names (JobProgress.classList_remove names cl)).
  rewrite classList_remove_idem. simpl.
  apply existsb_eqb_In in Hc. rewrite Hc. simpl. apply app_nil_r.
Qed.

Lemma barColour_In status c :
  JobProgress.barColour status = Some c -> In c JobProgress.barColours.
Proof.
  unfold JobProgress.barColour, JobProgress.barColours.
  repeat match goal with
         | |- context [if ?b then _ else _] => destruct b
         end; intros [= <-]; simpl; tauto.
Qed.

Lemma phaseClassName_In c :
  In (JobProgress.phaseClassName c) JobProgress.phaseClassNames.
Proof. destruct c; simpl; tauto. Qed.

Lemma paintBar_idem data b :
  JobProgress.paintBar data (JobProgress.paintBar data b)
  = JobProgress.paintBar data b.
Proof.
  unfold JobProgress.paintBar.
  cbn [JobProgress.barClasses JobProgress.width]. f_equal.
  - unfold assign_width.
    destruct (width_accepted (JobProgress.progressPercent data)) eqn:E;
      rewrite ?E; reflexivity.
  - destruct (JobProgress.barColour (get data "status")) as [c|] eqn:E.
    + rewrite (classList_remove_add c _ _ (barColour_In _ _ E)). reflexivity.
    + apply classList_remove_idem.
Qed.

Lemma markPhaseNodes_idem phase nodes :
  JobProgress.markPhaseNodes phase (JobProgress.markPhaseNodes phase nodes)
  = JobProgress.markPhaseNodes phase nodes.
Proof.
  unfold JobProgress.markPhaseNodes. rewrite List.map_map.
  apply List.map_ext. intros [n cl]. cbn [fst snd]. f_equal.
  rewrite (classList_remove_add _ _ _ (phaseClassName_In _)). reflexivity.
Qed.

(** updateDisplay is idempotent: rendering the payload a poll delivered
    once more leaves the page as it was after the first rendering (and
    reports the same caught exception, if any), for every page and
    payload. *)
Theorem progress_display_idempotent
    (toLocaleString : jsval -> string) (data : obj) (p : JobProgress.Page) :
  JobProgress.updateDisplay toLocaleString data
    (fst (JobProgress.updateDisplay toLocaleString data p))
  = JobProgress.updateDisplay toLocaleString data p.
Proof.
  unfold JobProgress.updateDisplay.
  cbn [JobProgress.statusElement JobProgress.progressBar
       JobProgress.detailsElement JobProgress.phasesContainer
       JobProgress.phaseNodes].
  destruct (JobProgress.statusElement p) as [t|] eqn:Es;
    [destruct (JobProgress.statusText data) as [text|] eqn:Et|];
    cbn [fst JobProgress.statusElement JobProgress.progressBar
         JobProgress.detailsElement JobProgress.phasesContainer
         JobProgress.phaseNodes];
    rewrite ?Es, ?Et;
    destruct (JobProgress.progressBar p) as [b|];
    cbn [option_map]; rewrite ?paintBar_idem;
    destruct (JobProgress.detailsElement p);
    destruct (JobProgress.phasesContainer p
              && truthy (get data "current_phase")) eqn:Ec;
    rewrite ?Ec, ?markPhaseNodes_idem; reflexivity.
Qed.

Lemma filter_classList_remove names cl :
  List.filter (fun c => existsb (String.eqb c) names)
    (JobProgress.classList_remove names cl) = [].
Proof.
  unfold JobProgress.classList_remove. induction cl as [|c cl IH]; simpl;
    [reflexivity|].
  destruct (existsb (String.eqb c) names) eqn:E; simpl; [exact IH|].
  rewrite E. exact IH.
Qed.

Lemma terminal_barColour status :
  JobProgress.terminal status = true
  <-> exists c, JobProgress.barColour status = Some c.
Proof.
  unfold JobProgress.terminal. split.
  - intros H. apply bool_decide_eq_true in H. rewrite !elem_of_cons in H.
    destruct H as [->|[->|[->|[->|H]]]];
      [vm_compute; eauto .. | apply elem_of_nil in H; destruct H].
  - intros [c H]. apply bool_decide_eq_true.
    unfold JobProgress.barColour, strict_eq in H.
    repeat case_bool_decide; simpl in H; try discriminate; subst status;
      set_solver.
Qed.

(** The progress bar of JobProgress carries one of the colour classes
    bg-success, bg-danger, bg-warning exactly when the payload's status
    is one on which pollStatus stops tracking; it then carries exactly
    the one colour that goes with the status, and its other classes are
    left as they were. *)
Theorem progress_bar_coloured_iff_terminal (data : obj) (b : JobProgress.Bar) :
  (JobProgress.terminal (get data "status") = true
   <-> exists c, In c JobProgress.barColours
                 /\ In c (JobProgress.barClasses (JobProgress.paintBar data b)))
  /\ List.filter (fun c => existsb (String.eqb c) JobProgress.barColours)
       (JobProgress.barClasses (JobProgress.paintBar data b))
     = match JobProgress.barColour (get data "status") with
       | Some c => [c]
       | None => []
       end
  /\ JobProgress.classList_remove JobProgress.barColours
       (JobProgress.barClasses (JobProgress.paintBar data b))
     = JobProgress.classList_remove JobProgress.barColours
         (JobProgress.barClasses b).
Proof.
  assert (Hf : List.filter (fun c => existsb (String.eqb c) JobProgress.barColours)
                 (JobProgress.barClasses (JobProgress.paintBar data b))
               = match JobProgress.barColour (get data "status") with
                 | Some c => [c]
                 | None => []
                 end).
  { unfold JobProgress.paintBar. cbn [JobProgress.barClasses].
    destruct (JobProgress.barColour (get data "status")) as [c|] eqn:E;
      [|apply filter_classList_remove].
    pose proof (barColour_In _ _ E) as Hc.
    unfold JobProgress.classList_add.
    rewrite (not_in_classList_remove c _ _ Hc), List.filter_app,
      filter_classList_remove.
    cbn [List.filter app]. apply existsb_eqb_In in Hc. rewrite Hc.
    reflexivity. }
  split; [|split; [exact Hf|]].
  - rewrite terminal_barColour. split.
    + intros [c E]. exists c. split; [exact (barColour_In _ _ E)|].
      assert (Hin : In c (List.filter
                            (fun c => existsb (String.eqb c) JobProgress.barColours)
                            (JobProgress.barClasses (JobProgress.paintBar data b))))
        by (rewrite Hf, E; left; reflexivity).
      apply filter_In in Hin. exact (proj1 Hin).
    + intros (c & Hc & Hin).
      assert (Hin' : In c (List.filter
                             (fun c => existsb (String.eqb c) JobProgress.barColours)
                             (JobProgress.barClasses (JobProgress.paintBar data b)))).
      { apply filter_In. split; [exact Hin | apply existsb_eqb_In, Hc]. }
      rewrite Hf in Hin'.
      destruct (JobProgress.barColour (get data "status")) as [c'|];
        [eauto | destruct Hin'].
  - unfold JobProgress.paintBar. cbn [JobProgress.barClasses].
    destruct (JobProgress.barColour (get data "status")) as [c|] eqn:E.
    + apply classList_remove_add, (barColour_In _ _ E).
    + apply classList_remove_idem.
Qed.

Lemma statusText_None data :
  JobProgress.statusText data = None <-> forall s, get data "status" <> JStr s.
Proof.
  unfold JobProgress.statusText.
  destruct (get data "status") as [| |b|z|s] eqn:E.
  all: split; [intros H s' | intros H].
  all: try discriminate.
  all: try reflexivity.
  - exfalso.
    repeat match type of H with
           | (if ?c then _ else _) = _ => destruct c; [discriminate|]
           end.
    discriminate.
  - destruct (H s eq_refl).
Qed.

(** updateDisplay is cut short exactly when the page has a status
    element and the payload's status is not a string: the exception of
    the status step is caught, the progress bar has been written, and the
    status text, the details text and the phase elements stay as they
    were. *)
Theorem progress_display_cut_short
    (toLocaleString : jsval -> string) (data : obj) (p : JobProgress.Page) :
  (snd (JobProgress.updateDisplay toLocaleString data p) = false
   <-> JobProgress.statusElement p <> None
       /\ forall s, get data "status" <> JStr s)
  /\ (snd (JobProgress.updateDisplay toLocaleString data p) = false ->
      fst (JobProgress.updateDisplay toLocaleString data p)
      = {| JobProgress.progressBar :=
             option_map (JobProgress.paintBar data) (JobProgress.progressBar p);
           JobProgress.statusElement := JobProgress.statusElement p;
           JobProgress.detailsElement := JobProgress.detailsElement p;
           JobProgress.phasesContainer := JobProgress.phasesContainer p;
           JobProgress.phaseNodes := JobProgress.phaseNodes p |}).
Proof.
  unfold JobProgress.updateDisplay. cbn [JobProgress.statusElement].
  destruct (JobProgress.statusElement p) as [t|] eqn:Es.
  - destruct (JobProgress.statusText data) as [text|] eqn:Et; cbn [fst snd].
    + split; [|discriminate]. split; [discriminate|].
      intros [_ H]. apply statusText_None in H. congruence.
    + split; [|reflexivity]. split; [|reflexivity].
      intros _. split; [discriminate|]. apply statusText_None, Et.
  - cbn [fst snd]. split; [|discriminate]. split; [discriminate|].
    intros [H _]. destruct (H eq_refl).
Qed.

Lemma progress_display_cut_short_witness :
  let page :=
    {| JobProgress.progressBar :=
         Some {| JobProgress.width := "0%"; JobProgress.valuenow := "0";
                 JobProgress.barClasses := ["progress-bar"] |};
       JobProgress.statusElement := Some "Pending";
       JobProgress.detailsElement := Some "";
       JobProgress.phasesContainer := true;
       JobProgress.phaseNodes := [("initializing", ["phase-active"])] |} in
  let data : obj := {[ "progress_percent" := JNum 40;
                       "current_phase" := JStr "extracting" ]} in
  snd (JobProgress.updateDisplay (fun _ => "") data page) = false.
Proof.
  intros page data.
  apply (proj1 (progress_display_cut_short (fun _ => "") data page)).
  split; [discriminate|]. intros s. discriminate.
Defined.

(** ** The page written by StatusUpdater *)

Section UpdaterPage.
Import StatusUpdater.

Lemma truncation_updateCaseCount sd p :
  truncationAlert (updateCaseCount sd p) = truncationAlert p
  /\ downloadButtons (updateCaseCount sd p) = downloadButtons p
  /\ processingError (updateCaseCount sd p) = processingError p.
Proof.
  unfold updateCaseCount.
  destruct (caseCount p), (caseCounter p), (truthy (get sd "total_case_count"));
    auto.
Qed.

Lemma updateStatus_page_truncation d p v :
  truncationAlert p = Some v ->
  truncationAlert (updateStatus_page d p)
  = Some (if negb (updateStatus_throws (statusData d))
             && truthy (get (statusData d) "is_truncated")
          then "block" else v).
Proof.
  intros H. unfold updateStatus_page.
  destruct (truncation_updateCaseCount (statusData d) p) as (Ht & _ & _).
  destruct (updateStatus_throws (statusData d)); simpl; [congruence|].
  assert (Hc : truncationAlert
                 (checkForTruncation (statusData d)
                    (checkForErrors (statusData d)
                       (updateCaseCount (statusData d) p)))
               = Some (if truthy (get (statusData d) "is_truncated")
                       then "block" else v)).
  { unfold checkForTruncation.
    assert (He : truncationAlert
                   (checkForErrors (statusData d)
                      (updateCaseCount (statusData d) p)) = Some v).
    { unfold checkForErrors.
      destruct (processingError (updateCaseCount (statusData d) p)); simpl;
        congruence. }
    rewrite He.
    destruct (truthy (get (statusData d) "is_truncated")); [reflexivity|exact He]. }
  destruct (strict_eq (get (statusData d) "status") (JStr "completed"));
    [|exact Hc].
  unfold showDownloadButtons.
  destruct (downloadButtons _); [|exact Hc]. simpl. exact Hc.
Qed.

Lemma updateStatus_page_downloads d p v :
  downloadButtons p = Some v ->
  downloadButtons (updateStatus_page d p)
  = Some (if negb (updateStatus_throws (statusData d))
             && strict_eq (get (statusData d) "status") (JStr "completed")
          then "block" else v).
Proof.
  intros H. unfold updateStatus_page.
  destruct (truncation_updateCaseCount (statusData d) p) as (_ & Hd & _).
  destruct (updateStatus_throws (statusData d)); simpl; [congruence|].
  assert (Hc : downloadButtons
                 (checkForTruncation (statusData d)
                    (checkForErrors (statusData d)
                       (updateCaseCount (statusData d) p))) = Some v).
  { unfold checkForTruncation, checkForErrors.
    destruct (processingError (updateCaseCount (statusData d) p)); simpl;
      destruct (truncationAlert (updateCaseCount (statusData d) p)); simpl;
      try destruct (truthy (get (statusData d) "is_truncated")); simpl;
      congruence. }
  destruct (strict_eq (get (statusData d) "status") (JStr "completed"));
    [|exact Hc].
  unfold showDownloadButtons. rewrite Hc. reflexivity.
Qed.

End UpdaterPage.

(** updateStatus only ever shows the truncation alert and the download
    buttons: after any series of status updates the alert is visible if
    one of the payloads rendered without exception had is_truncated set
    and has the visibility it started with otherwise, and likewise the
    download buttons with a status equal to completed.  A later payload
    never hides them again. *)
Theorem updater_alert_and_downloads_stay
    (ds : list StatusUpdater.Payload) (p : StatusUpdater.Page) (alert buttons : string) :
  StatusUpdater.truncationAlert p = Some alert ->
  StatusUpdater.downloadButtons p = Some buttons ->
  StatusUpdater.truncationAlert (StatusUpdater.updates_page ds p)
  = Some (if existsb (fun d =>
                        negb (StatusUpdater.updateStatus_throws
                                (StatusUpdater.statusData d))
                        && truthy (get (StatusUpdater.statusData d) "is_truncated"))
               ds
          then "block" else alert)
  /\ StatusUpdater.downloadButtons (StatusUpdater.updates_page ds p)
     = Some (if existsb (fun d =>
                           negb (StatusUpdater.updateStatus_throws
                                   (StatusUpdater.statusData d))
                           && strict_eq
                                (get (StatusUpdater.statusData d) "status")
                                (JStr "completed"))
                  ds
             then "block" else buttons).
Proof.
  unfold StatusUpdater.updates_page.
  revert p alert buttons. induction ds as [|d ds IH]; intros p alert buttons Ha Hb.
  - simpl. auto.
  - cbn [fold_left existsb].
    destruct (IH _ _ _ (updateStatus_page_truncation d p alert Ha)
                (updateStatus_page_downloads d p buttons Hb)) as [I1 I2].
    rewrite I1, I2. clear IH I1 I2 Ha Hb.
    split; f_equal.
    + destruct (negb (StatusUpdater.updateStatus_throws
                        (StatusUpdater.statusData d))
                && truthy (get (StatusUpdater.statusData d) "is_truncated"));
        simpl; [|reflexivity].
      destruct (existsb _ ds); reflexivity.
    + destruct (negb (StatusUpdater.updateStatus_throws
                        (StatusUpdater.statusData d))
                && strict_eq (get (StatusUpdater.statusData d) "status")
                     (JStr "completed"));
        simpl; [|reflexivity].
      destruct (existsb _ ds); reflexivity.
Qed.

Lemma updater_alert_and_downloads_stay_witness :
  let truncated :=
    {| StatusUpdater.top := {[ "status" := JStr "processing";
                               "is_truncated" := JBool true ]};
       StatusUpdater.job := None |} in
  let plain :=
    {| StatusUpdater.top := {[ "status" := JStr "processing" ]};
       StatusUpdater.job := None |} in
  let page :=
    {| StatusUpdater.caseCount := None; StatusUpdater.caseCounter := None;
       StatusUpdater.processingError := None;
       StatusUpdater.truncationAlert := Some "none";
       StatusUpdater.downloadButtons := Some "none" |} in
  StatusUpdater.truncationAlert
    (StatusUpdater.updates_page [truncated; plain; plain] page) = Some "block"
  /\ StatusUpdater.downloadButtons
       (StatusUpdater.updates_page [truncated; plain; plain] page) = Some "none".
Proof.
  intros truncated plain page.
  destruct (updater_alert_and_downloads_stay [truncated; plain; plain] page
              "none" "none" eq_refl eq_refl) as [H1 H2].
  split; [exact H1 | exact H2].
Defined.

Lemma badge_Error (sd : obj) :
  fst (StatusUpdater.updateStatusBadge sd) = "Error"
  <-> (strict_eq (get sd "status") (JStr "error")
       || strict_eq (get sd "status") (JStr "failed") = true).
Proof.
  unfold StatusUpdater.updateStatusBadge.
  destruct (get sd "status") as [| |b|z|s]; try (simpl; split; discriminate).
  rewrite !strict_eq_strings, (String.eqb_sym s "error"), (String.eqb_sym s "failed").
  repeat match goal with
         | |- context [if ?c then _ else _] => destruct c eqn:?
         end; simpl; split; intros H; try discriminate; try reflexivity.
  all: try (exfalso;
            repeat match goal with
                   | H : String.eqb _ _ = true |- _ =>
                       apply String.eqb_eq in H; subst
                   | H : (_ || _) = true |- _ => apply orb_true_iff in H as [H|H]
                   | H : (_ || _) = false |- _ => apply orb_false_iff in H as [? ?]
                   end; discriminate).
Qed.

Lemma badge_Completed (sd : obj) :
  fst (StatusUpdater.updateStatusBadge sd) = "Completed"
  <-> get sd "status" = JStr "completed".
Proof.
  unfold StatusUpdater.updateStatusBadge.
  destruct (get sd "status") as [| |b|z|s]; try (simpl; split; discriminate).
  repeat match goal with
         | |- context [if ?c then _ else _] => destruct c eqn:?
         end; simpl; split; intros H; try discriminate; try reflexivity.
  all: try (repeat match goal with
                   | H : String.eqb _ _ = true |- _ =>
                       apply String.eqb_eq in H; subst
                   | H : (_ || _) = true |- _ => apply orb_true_iff in H as [H|H]
                   end; try discriminate; try reflexivity).
  all: injection H as ->; discriminate.
Qed.

(** After a status update that raises no exception the error box is
    visible exactly when the payload has an error or the badge reads
    Error; otherwise it is hidden and keeps its text. *)
Theorem updater_error_box_follows_badge
    (d : StatusUpdater.Payload) (p : StatusUpdater.Page) (box : StatusUpdater.Box) :
  StatusUpdater.processingError p = Some box ->
  StatusUpdater.updateStatus_throws (StatusUpdater.statusData d) = false ->
  exists box',
    StatusUpdater.processingError (StatusUpdater.updateStatus_page d p) = Some box'
    /\ (StatusUpdater.display box' = "block"
        \/ StatusUpdater.display box' = "none"
           /\ StatusUpdater.textContent box' = StatusUpdater.textContent box)
    /\ (StatusUpdater.display box' = "block"
        <-> truthy (get (StatusUpdater.statusData d) "error") = true
            \/ fst (StatusUpdater.updateStatusBadge (StatusUpdater.statusData d))
               = "Error").
Proof.
  intros Hb Hth. unfold StatusUpdater.updateStatus_page. rewrite Hth.
  set (sd := StatusUpdater.statusData d).
  destruct (truncation_updateCaseCount sd p) as (_ & _ & He).
  set (p1 := StatusUpdater.updateCaseCount sd p) in *.
  rewrite Hb in He.
  assert (Hc : StatusUpdater.processingError (StatusUpdater.checkForErrors sd p1)
               = Some (if truthy (get sd "error")
                          || strict_eq (get sd "status") (JStr "error")
                          || strict_eq (get sd "status") (JStr "failed")
                       then {| StatusUpdater.textContent :=
                                 to_string
                                   (or_else (get sd "error")
                                      (JStr "An error occurred during processing"));
                               StatusUpdater.display := "block" |}
                       else {| StatusUpdater.textContent := StatusUpdater.textContent box;
                               StatusUpdater.display := "none" |})).
  { unfold StatusUpdater.checkForErrors. rewrite He. reflexivity. }
  assert (Hk : forall q, StatusUpdater.processingError
                           (StatusUpdater.checkForTruncation sd q)
                         = StatusUpdater.processingError q).
  { intros q. unfold StatusUpdater.checkForTruncation.
    destruct (StatusUpdater.truncationAlert q); [|reflexivity].
    destruct (truthy (get sd "is_truncated")); reflexivity. }
  assert (Hs : forall q, StatusUpdater.processingError
                           (StatusUpdater.showDownloadButtons q)
                         = StatusUpdater.processingError q).
  { intros q. unfold StatusUpdater.showDownloadButtons.
    destruct (StatusUpdater.downloadButtons q); reflexivity. }
  eexists. split.
  { destruct (strict_eq (get sd "status") (JStr "completed"));
      rewrite ?Hs, Hk; exact Hc. }
  pose proof (badge_Error sd) as HE. rewrite <- orb_assoc.
  destruct (truthy (get sd "error")) eqn:Et; cbn [orb].
  - cbn [StatusUpdater.display]. split; [left; reflexivity|].
    split; [intros _; left; reflexivity | reflexivity].
  - destruct (strict_eq (get sd "status") (JStr "error")
              || strict_eq (get sd "status") (JStr "failed")) eqn:Eb;
      cbn [StatusUpdater.display StatusUpdater.textContent].
    + split; [left; reflexivity|].
      split; [intros _; right; apply HE; reflexivity | reflexivity].
    + split; [right; split; reflexivity|].
      split; [discriminate|]. intros [H|H]; [discriminate|].
      apply HE in H. discriminate.
Qed.

Lemma updater_error_box_follows_badge_witness :
  let d := {| StatusUpdater.top := {[ "status" := JStr "failed" ]};
              StatusUpdater.job := None |} in
  let box := {| StatusUpdater.textContent := ""; StatusUpdater.display := "none" |} in
  let page :=
    {| StatusUpdater.caseCount := None; StatusUpdater.caseCounter := None;
       StatusUpdater.processingError := Some box;
       StatusUpdater.truncationAlert := None;
       StatusUpdater.downloadButtons := None |} in
  exists box',
    StatusUpdater.processingError (StatusUpdater.updateStatus_page d page)
    = Some box'
    /\ StatusUpdater.display box' = "block".
Proof.
  intros d box page.
  destruct (updater_error_box_follows_badge d page box eq_refl eq_refl)
    as (box' & H1 & _ & H3).
  exists box'. split; [exact H1|]. apply H3. right. reflexivity.
Defined.

(** When the payload carries its status in one place only (no nested job
    object, or no status beside it), a badge that reads Completed or
    Error means that polling stops with this payload. *)
Theorem updater_final_badge_stops_polling (d : StatusUpdater.Payload) :
  StatusUpdater.job d = None
  \/ truthy (get (StatusUpdater.top d) "status") = false ->
  In (fst (StatusUpdater.updateStatusBadge (StatusUpdater.statusData d)))
     ["Completed"; "Error"] ->
  StatusUpdater.shouldContinuePolling d = Some false.
Proof.
  intros Hflat Hb.
  assert (Hs : exists s, get (StatusUpdater.statusData d) "status" = JStr s
                         /\ In s ["completed"; "error"; "failed"]).
  { destruct Hb as [Hb|[Hb|[]]]; symmetry in Hb.
    - apply badge_Completed in Hb. exists "completed". simpl. auto.
    - apply badge_Error in Hb. apply orb_true_iff in Hb.
      unfold strict_eq in Hb.
      destruct Hb as [Hb|Hb]; apply bool_decide_eq_true in Hb;
        eexists; (split; [exact Hb | simpl; auto]). }
  destruct Hs as (s & Hs & Hin).
  assert (Hfin : StatusUpdater.not_finished s = false
                 /\ truthy (JStr s) = true).
  { simpl in Hin. destruct Hin as [<-|[<-|[<-|[]]]]; split; reflexivity. }
  destruct Hfin as [Hfin Htr].
  unfold StatusUpdater.shouldContinuePolling.
  unfold StatusUpdater.statusData in Hs.
  destruct (StatusUpdater.job d) as [j|] eqn:Ej.
  - destruct Hflat as [H|H]; [discriminate|]. rewrite H, Hs, Htr, Hfin.
    reflexivity.
  - rewrite Hs, Htr, Hfin. reflexivity.
Qed.

Lemma updater_final_badge_stops_polling_witness :
  StatusUpdater.shouldContinuePolling
    {| StatusUpdater.top := {[ "status" := JStr "failed" ]};
       StatusUpdater.job := None |} = Some false.
Proof.
  apply updater_final_badge_stops_polling.
  - left. reflexivity.
  - right. left. reflexivity.
Defined.

(** ** Banner texts *)

(** calculateElapsedTime for a start time that is not in the future:
    minutes and seconds are between 0 and 59, the three numbers add up
    to the elapsed whole seconds, and the text has hours, minutes and
    seconds from one hour on, minutes and seconds from one minute on,
    and seconds only below. *)
Theorem banner_elapsed_time (startTime : jsval) (start now : Z) :
  truthy startTime = true ->
  start <= now ->
  let ms := now - start in
  let h := JobStatusBanner.elapsedHours ms in
  let m := JobStatusBanner.elapsedMinutes ms in
  let s := JobStatusBanner.elapsedSeconds ms in
  0 <= h /\ 0 <= m < 60 /\ 0 <= s < 60
  /\ h * 3600 + m * 60 + s = ms / 1000
  /\ JobStatusBanner.calculateElapsedTime startTime start now
     = if 3600000 <=? ms
       then pretty h +:+ "h " +:+ pretty m +:+ "m " +:+ pretty s +:+ "s"
       else if 60000 <=? ms
       then pretty m +:+ "m " +:+ pretty s +:+ "s"
       else pretty s +:+ "s".
Proof.
  intros Ht Hle ms h m s.
  assert (Hms : 0 <= ms) by (unfold ms; lia).
  assert (Hs : s = (ms mod 60000) / 1000)
    by (unfold s, JobStatusBanner.elapsedSeconds; rewrite Z.rem_mod_nonneg; lia).
  assert (Hm : m = (ms mod 3600000) / 60000)
    by (unfold m, JobStatusBanner.elapsedMinutes; rewrite Z.rem_mod_nonneg; lia).
  assert (Hh : h = ms / 3600000) by reflexivity.
  pose proof (Z.mod_pos_bound ms 60000 ltac:(lia)) as B1.
  pose proof (Z.mod_pos_bound ms 3600000 ltac:(lia)) as B2.
  pose proof (Z.div_mod ms 3600000 ltac:(lia)) as D1.
  pose proof (Z.div_mod ms 60000 ltac:(lia)) as D2.
  pose proof (Z.div_mod ms 1000 ltac:(lia)) as D3.
  pose proof (Z.mod_pos_bound ms 1000 ltac:(lia)) as B3.
  pose proof (Z.div_mod (ms mod 60000) 1000 ltac:(lia)) as D4.
  pose proof (Z.mod_pos_bound (ms mod 60000) 1000 ltac:(lia)) as B4.
  pose proof (Z.div_mod (ms mod 3600000) 60000 ltac:(lia)) as D5.
  pose proof (Z.mod_pos_bound (ms mod 3600000) 60000 ltac:(lia)) as B5.
  assert (H0 : 0 <= h) by (rewrite Hh; apply Z.div_pos; lia).
  assert (Hmb : 0 <= m < 60) by (rewrite Hm; lia).
  assert (Hsb : 0 <= s < 60) by (rewrite Hs; lia).
  assert (Hsum : h * 3600 + m * 60 + s = ms / 1000) by (rewrite Hh, Hm, Hs; lia).
  split; [exact H0|]. split; [exact Hmb|]. split; [exact Hsb|].
  split; [exact Hsum|].
  unfold JobStatusBanner.calculateElapsedTime. rewrite Ht. cbn [negb].
  fold ms. fold h. fold m. fold s.
  destruct (Z.leb_spec 3600000 ms) as [L1|L1].
  - destruct (Z.ltb_spec 0 h) as [_|G]; [reflexivity|]. rewrite Hh in G. lia.
  - destruct (Z.ltb_spec 0 h) as [G|_]; [rewrite Hh in G; lia|].
    destruct (Z.leb_spec 60000 ms) as [L2|L2].
    + destruct (Z.ltb_spec 0 m) as [_|G]; [reflexivity|]. rewrite Hm in G. lia.
    + destruct (Z.ltb_spec 0 m) as [G|_]; [rewrite Hm in G; lia|reflexivity].
Qed.

Lemma banner_elapsed_time_witness :
  JobStatusBanner.calculateElapsedTime (JStr "2024-05-01T10:00:00Z") 0 3725000
  = "1h 2m 5s".
Proof.
  destruct (banner_elapsed_time (JStr "2024-05-01T10:00:00Z") 0 3725000 eq_refl
              ltac:(discriminate)) as (_ & _ & _ & _ & H).
  exact (eq_trans H eq_refl).
Defined.

(** calculateElapsedTime for a start time in the future: the text is the
    seconds alone, a number between -60 and 0, however far ahead the
    start time lies. *)
Theorem banner_future_start_shows_seconds (startTime : jsval) (start now : Z) :
  truthy startTime = true ->
  now < start ->
  -60 <= JobStatusBanner.elapsedSeconds (now - start) <= 0
  /\ JobStatusBanner.calculateElapsedTime startTime start now
     = pretty (JobStatusBanner.elapsedSeconds (now - start)) +:+ "s".
Proof.
  intros Ht Hlt.
  set (ms := now - start). assert (Hms : ms < 0) by (unfold ms; lia).
  pose proof (Z.rem_bound_pos_neg ms 60000 ltac:(lia) ltac:(lia)) as B1.
  pose proof (Z.rem_bound_pos_neg ms 3600000 ltac:(lia) ltac:(lia)) as B2.
  assert (Hs : -60 <= JobStatusBanner.elapsedSeconds ms <= 0).
  { unfold JobStatusBanner.elapsedSeconds.
    pose proof (Z.div_mod (Z.rem ms 60000) 1000 ltac:(lia)).
    pose proof (Z.mod_pos_bound (Z.rem ms 60000) 1000 ltac:(lia)). lia. }
  assert (Hm : JobStatusBanner.elapsedMinutes ms <= 0).
  { unfold JobStatusBanner.elapsedMinutes.
    pose proof (Z.div_mod (Z.rem ms 3600000) 60000 ltac:(lia)).
    pose proof (Z.mod_pos_bound (Z.rem ms 3600000) 60000 ltac:(lia)). lia. }
  assert (Hh : JobStatusBanner.elapsedHours ms < 0).
  { unfold JobStatusBanner.elapsedHours.
    pose proof (Z.div_mod ms 3600000 ltac:(lia)).
    pose proof (Z.mod_pos_bound ms 3600000 ltac:(lia)). lia. }
  split; [exact Hs|].
  unfold JobStatusBanner.calculateElapsedTime. rewrite Ht. cbn [negb]. fold ms.
  destruct (Z.ltb_spec 0 (JobStatusBanner.elapsedHours ms)); [lia|].
  destruct (Z.ltb_spec 0 (JobStatusBanner.elapsedMinutes ms)); [lia|].
  reflexivity.
Qed.

Lemma banner_future_start_shows_seconds_witness :
  JobStatusBanner.calculateElapsedTime (JStr "2024-05-01T10:00:00Z") 5000 3500
  = "-2s".
Proof.
  destruct (banner_future_start_shows_seconds (JStr "2024-05-01T10:00:00Z")
              5000 3500 eq_refl eq_refl) as [_ H].
  exact (eq_trans H eq_refl).
Defined.

Lemma toLowerCase_empty s : toLowerCase s = "" <-> s = "".
Proof. destruct s; simpl; split; intros H; try discriminate; reflexivity. Qed.

Lemma truthy_lower s t :
  toLowerCase s = toLowerCase t -> truthy (JStr s) = truthy (JStr t).
Proof.
  intros H. simpl. f_equal.
  destruct (String.eqb_spec s "") as [->|Hs], (String.eqb_spec t "") as [->|Ht];
    try reflexivity.
  - symmetry in H. apply (proj1 (toLowerCase_empty t)) in H. contradiction.
  - apply (proj1 (toLowerCase_empty s)) in H. contradiction.
Qed.

Ltac eqb_cases l :=
  repeat match goal with
         | |- context [String.eqb l ?c] =>
             destruct (String.eqb_spec l c) as [->|?]
         end.

(** The three status tables of the banner agree: formatStatus,
    getStatusClass and getStatusStateClass raise on the same values; the
    banner is styled as an error exactly when the badge is bg-danger and
    as completed exactly when the badge is bg-success; and the classes
    depend on the status only up to letter case. *)
Theorem banner_status_classes_agree (status : jsval) :
  (JobStatusBanner.getStatusStateClass status = None
   <-> JobStatusBanner.getStatusClass status = None)
  /\ (JobStatusBanner.getStatusClass status = None
      <-> JobStatusBanner.formatStatus status = None)
  /\ (JobStatusBanner.getStatusStateClass status = Some "status-error"
      <-> JobStatusBanner.getStatusClass status = Some "bg-danger")
  /\ (JobStatusBanner.getStatusStateClass status = Some "status-completed"
      <-> JobStatusBanner.getStatusClass status = Some "bg-success")
  /\ (forall s t, status = JStr s -> toLowerCase s = toLowerCase t ->
      JobStatusBanner.getStatusStateClass (JStr t)
      = JobStatusBanner.getStatusStateClass status
      /\ JobStatusBanner.getStatusClass (JStr t)
         = JobStatusBanner.getStatusClass status).
Proof.
  unfold JobStatusBanner.getStatusStateClass, JobStatusBanner.getStatusClass,
    JobStatusBanner.formatStatus.
  split; [|split; [|split; [|split]]].
  5: { intros s t -> H. rewrite (truthy_lower _ _ H), H. split; reflexivity. }
  all: destruct status as [| |b|z|s];
    try (destruct (truthy _); cbn [negb]; split; intros H;
         (discriminate || reflexivity)).
  all: destruct (truthy (JStr s)); cbn [negb];
    try (split; intros H; (discriminate || reflexivity)).
  all: generalize (toLowerCase s); intros l; eqb_cases l; cbn;
    split; intros H; try discriminate; try reflexivity.
Qed.

Lemma trackJob_hideTimers o (jobData : obj) st :
  JobStatusBanner.hideTimers (JobStatusBanner.trackJob o jobData st)
  = JobStatusBanner.hideTimers st.
Proof.
  unfold JobStatusBanner.trackJob. destruct (truthy _); [|reflexivity].
  destruct (JobStatusBanner.persistInStorage o); reflexivity.
Qed.

(** Completion is detected on the exact status only: a job whose status
    is completed in another letter case is painted as completed (badge
    text, badge class and banner class) and the banner is shown, but no
    auto-hide timer is armed for it. *)
Theorem banner_completion_needs_exact_status
    (o : JobStatusBanner.Options) (now : Z) (jobData : obj)
    (st : JobStatusBanner.State) (s : string) :
  truthy (get jobData "id") = true ->
  get jobData "status" = JStr s ->
  toLowerCase s = "completed" ->
  s <> "completed" ->
  let st' := fst (JobStatusBanner.updateBanner o now jobData st) in
  JobStatusBanner.hideTimers st' = JobStatusBanner.hideTimers st
  /\ JobStatusBanner.shown st' = true
  /\ JobStatusBanner.badgeText <$> JobStatusBanner.painted st' = Some "Completed"
  /\ JobStatusBanner.badgeClass <$> JobStatusBanner.painted st'
     = Some "status-badge bg-success"
  /\ JobStatusBanner.getStatusStateClass (JStr s) = Some "status-completed".
Proof.
  intros Hid Hs Hl Hne st'.
  assert (Hnz : s <> "").
  { intros ->. discriminate Hl. }
  assert (Htr : truthy (JStr s) = true).
  { simpl. destruct (String.eqb_spec s ""); [contradiction|reflexivity]. }
  assert (Hneq : strict_eq (JStr s) (JStr "completed") = false).
  { rewrite strict_eq_strings. apply String.eqb_neq, Hne. }
  assert (Hf : JobStatusBanner.formatStatus (JStr s) = Some "Completed").
  { unfold JobStatusBanner.formatStatus. rewrite Htr, Hl. reflexivity. }
  assert (Hc : JobStatusBanner.getStatusClass (JStr s) = Some "bg-success").
  { unfold JobStatusBanner.getStatusClass. rewrite Htr, Hl. reflexivity. }
  assert (Hg : JobStatusBanner.getStatusStateClass (JStr s)
               = Some "status-completed").
  { unfold JobStatusBanner.getStatusStateClass. rewrite Htr, Hl. reflexivity. }
  subst st'. unfold JobStatusBanner.updateBanner. rewrite Hid. cbn [negb].
  cbv zeta. rewrite Hs.
  replace (or_else (JStr s) (JStr "unknown")) with (JStr s)
    by (unfold or_else; rewrite Htr; reflexivity).
  rewrite Hneq. cbn [andb].
  unfold JobStatusBanner.paint. rewrite Hf, Hc.
  cbn [fst JobStatusBanner.set_banner JobStatusBanner.set_painted
       JobStatusBanner.hideTimers JobStatusBanner.shown
       JobStatusBanner.painted JobStatusBanner.badgeText
       JobStatusBanner.badgeClass fmap option_fmap option_map].
  rewrite trackJob_hideTimers.
  split; [reflexivity|]. split; [reflexivity|]. split; [reflexivity|].
  split; [reflexivity | exact Hg].
Qed.

Lemma banner_completion_needs_exact_status_witness :
  let jobData : obj := {[ "id" := JNum 7; "status" := JStr "Completed" ]} in
  let st := JobStatusBanner.fresh JobStatusBanner.NoItem in
  let st' := fst (JobStatusBanner.updateBanner JobStatusBanner.defaults 0
                    jobData st) in
  JobStatusBanner.hideTimers st' = JobStatusBanner.hideTimers st
  /\ JobStatusBanner.badgeText <$> JobStatusBanner.painted st' = Some "Completed".
Proof.
  intros jobData st st'.
  destruct (banner_completion_needs_exact_status JobStatusBanner.defaults 0
              jobData st "Completed" eq_refl eq_refl eq_refl
              ltac:(discriminate)) as (H1 & _ & H3 & _).
  split; [exact H1 | exact H3].
Defined.

(** ** The column page after a response *)

Lemma promptSettles_quiet br promptElement r :
  ~ In ColumnEditor.Reload (ColumnEditor.promptSettles br promptElement r)
  /\ ~ In ColumnEditor.RemoveRow (ColumnEditor.promptSettles br promptElement r).
Proof.
  unfold ColumnEditor.promptSettles.
  destruct (ColumnEditor.read br r) as [data|m]; [|simpl; intuition discriminate].
  destruct (truthy (get data "success") && truthy (get data "prompt_template"));
    [destruct promptElement|]; simpl; intuition discriminate.
Qed.

Lemma read_accepted br r :
  match ColumnEditor.read br r with
  | inl data => ColumnEditor.accepted r = truthy (get data "success")
  | inr _ => ColumnEditor.accepted r = false
  end.
Proof.
  unfold ColumnEditor.read, ColumnEditor.accepted.
  destruct r as [|status [data|]]; [reflexivity| |];
    destruct (http_ok status); reflexivity.
Qed.

(** saveColumn and applyDefaults reload the page exactly when the server
    accepted the request, whatever the answer to the prompt request they
    send first; deleteColumn never reloads and removes the row exactly
    when the server accepted; a request the server did not accept ends
    in one alert and nothing else. *)
Theorem column_page_reloads_iff_accepted
    (br : ColumnEditor.Browser) (doc : Dom.Document)
    (apiUrls : option ColumnEditor.ApiUrls) (promptElement : bool)
    (r r' : Response obj) :
  let save := ColumnEditor.saveColumnSettles br doc apiUrls promptElement r r' in
  let defaults :=
    ColumnEditor.applyDefaultsSettles br doc apiUrls promptElement r r' in
  let delete :=
    ColumnEditor.deleteColumnSettles br doc apiUrls promptElement r r' in
  (In ColumnEditor.Reload save <-> ColumnEditor.accepted r = true)
  /\ (In ColumnEditor.Reload defaults <-> ColumnEditor.accepted r = true)
  /\ ~ In ColumnEditor.Reload delete
  /\ (In ColumnEditor.RemoveRow delete <-> ColumnEditor.accepted r = true)
  /\ (ColumnEditor.accepted r = false ->
      exists m1 m2 m3,
        save = [ColumnEditor.Alert m1]
        /\ defaults = [ColumnEditor.Alert m2]
        /\ delete = [ColumnEditor.Alert m3]).
Proof.
  intros save defaults delete. subst save defaults delete.
  unfold ColumnEditor.saveColumnSettles, ColumnEditor.applyDefaultsSettles,
    ColumnEditor.deleteColumnSettles.
  pose proof (read_accepted br r) as Ha.
  pose proof (promptSettles_quiet br promptElement r') as [Hq1 Hq2].
  destruct (ColumnEditor.read br r) as [data|m]; rewrite Ha; clear Ha.
  - destruct (truthy (get data "success")).
    + split; [split; [reflexivity|]; intros _; right; apply in_or_app;
              right; left; reflexivity|].
      split; [split; [reflexivity|]; intros _; right; apply in_or_app;
              right; left; reflexivity|].
      split; [intros [H|[H|H]]; [discriminate H|discriminate H|exact (Hq1 H)]|].
      split; [split; [reflexivity|]; intros _; left; reflexivity|].
      discriminate.
    + split; [split; [intros [H|[]]; discriminate H | discriminate]|].
      split; [split; [intros [H|[]]; discriminate H | discriminate]|].
      split; [intros [H|[]]; discriminate H|].
      split; [split; [intros [H|[]]; discriminate H | discriminate]|].
      intros _. do 3 eexists. split; [reflexivity|]. split; reflexivity.
  - split; [split; [intros [H|[]]; discriminate H | discriminate]|].
    split; [split; [intros [H|[]]; discriminate H | discriminate]|].
    split; [intros [H|[]]; discriminate H|].
    split; [split; [intros [H|[]]; discriminate H | discriminate]|].
    intros _. do 3 eexists. split; [reflexivity|]. split; reflexivity.
Qed.

Lemma column_page_reloads_iff_accepted_witness :
  let br := {| ColumnEditor.fetchError := "Failed to fetch";
               ColumnEditor.jsonError := "Unexpected token";
               ColumnEditor.statusText := fun _ => "Internal Server Error" |} in
  let doc := {| Dom.cookie := ""; Dom.csrf_meta := None;
                Dom.csrfmiddlewaretoken := Some "tok" |} in
  In ColumnEditor.Reload
    (ColumnEditor.saveColumnSettles br doc None true
       (Http 200 (Some {[ "success" := JBool true ]})) (Http 500 None))
  /\ ColumnEditor.saveColumnSettles br doc None true
       (Http 200 (Some {[ "success" := JBool true ]})) (Http 500 None)
     = [ColumnEditor.Send (ColumnEditor.updateGeneratedPrompt doc None);
        ColumnEditor.Alert "HTTP error 500: Internal Server Error";
        ColumnEditor.Reload].
Proof.
  intros br doc. split.
  - apply (proj1 (column_page_reloads_iff_accepted br doc None true
                    (Http 200 (Some {[ "success" := JBool true ]}))
                    (Http 500 None))).
    reflexivity.
  - reflexivity.
Defined.
